(** * ai_backend: the chat turn, the provider clients and the credential resolver

    A shallow embedding of [end_call/models.py], [end_call/serializers.py],
    [end_call/ai_clients.py] and [end_call/views.py].

    Conventions of the embedding.
    - A Python [str] is a Rocq string, one character of the string for one
      character of the [str]; the characters are those below U+0100.
    - Python exceptions are values of [exn]; code that can raise returns a
      [result]; [try ... except] is [try_except].
    - A decoded JSON document (what [response.json()] returns) is a [json].
    - [print] output is kept for the message formatters, whose warnings the
      specification speaks of: they return their value together with the
      lines printed.  The remaining [print] calls are diagnostics that never
      influence a returned value and are left out.
    - The Fernet cipher, the process settings and environment, the HTTP
      transport and Python's [repr] are external to the repository; they are
      variables of the section. *)

From Stdlib Require Import String Ascii List ZArith Bool Lia DecimalString.
From Stdlib Require Import Sorted Permutation.
Import ListNotations.
Open Scope string_scope.
Open Scope list_scope.

(** ** Python strings *)

(** [str.isspace], the characters that [str.strip()] removes: TAB..CR,
    FS..US, the blank, NEL (U+0085) and the no-break space (U+00A0).  These
    are all the whitespace characters below U+0100. *)
Definition is_space (c : ascii) : bool :=
  let n := nat_of_ascii c in
  ((9 <=? n)%nat && (n <=? 13)%nat) || ((28 <=? n)%nat && (n <=? 32)%nat)
  || (n =? 133)%nat || (n =? 160)%nat.

Fixpoint lstrip (s : string) : string :=
  match s with
  | EmptyString => EmptyString
  | String c r => if is_space c then lstrip r else s
  end.

Fixpoint rstrip (s : string) : string :=
  match s with
  | EmptyString => EmptyString
  | String c r =>
      match rstrip r with
      | EmptyString => if is_space c then EmptyString else String c EmptyString
      | r' => String c r'
      end
  end.

(** [s.strip()] *)
Definition strip (s : string) : string := rstrip (lstrip s).

(** The last character of a string, when there is one. *)
Fixpoint last_char (s : string) : option ascii :=
  match s with
  | EmptyString => None
  | String c EmptyString => Some c
  | String _ r => last_char r
  end.

Definition first_char (s : string) : option ascii :=
  match s with
  | EmptyString => None
  | String c _ => Some c
  end.

(** [c.upper()] for one character.  Below U+0100 the lower-case letters
    with an upper case are a..z and U+00E0..U+00FE without the division
    sign, 32 places above their upper case, the sharp s (U+00DF), whose upper
    case is "SS", and the micro sign (U+00B5) and U+00FF, whose upper case
    lies above U+00FF: these two are kept. *)
Definition upper_char (c : ascii) : string :=
  let n := nat_of_ascii c in
  if ((97 <=? n)%nat && (n <=? 122)%nat)
     || ((224 <=? n)%nat && (n <=? 254)%nat && negb (n =? 247)%nat)
  then String (ascii_of_nat (n - 32)) EmptyString
  else if (n =? 223)%nat then "SS"
  else String c EmptyString.

(** [s.upper()] *)
Fixpoint upper (s : string) : string :=
  match s with
  | EmptyString => EmptyString
  | String c r => upper_char c ++ upper r
  end.

(** [s.split('_')[0]]: the text before the first underscore. *)
Fixpoint split_head (s : string) : string :=
  match s with
  | EmptyString => EmptyString
  | String c r => if Ascii.eqb c "_" then EmptyString else String c (split_head r)
  end.

(** [parts = s.split('_', 1); parts[1] if len(parts) > 1 else None] *)
Fixpoint split_tail (s : string) : option string :=
  match s with
  | EmptyString => None
  | String c r => if Ascii.eqb c "_" then Some r else split_tail r
  end.

(** ["\n".join(l)] *)
Definition newline : string := String (ascii_of_nat 10) EmptyString.

Fixpoint join (sep : string) (l : list string) : string :=
  match l with
  | [] => EmptyString
  | [x] => x
  | x :: r => x ++ sep ++ join sep r
  end.

(** [k in s] for two strings. *)
Definition substring_of (k s : string) : bool :=
  match index 0 k s with Some _ => true | None => false end.

(** [str(n)] for an integer. *)
Definition str_of_int (n : Z) : string := NilZero.string_of_int (Z.to_int n).

(** Truth value of a [str]. *)
Definition nonempty (s : string) : bool := negb (s =? EmptyString).

(** Truth value of a value that is a [str] or [None]. *)
Definition truthy (v : option string) : bool :=
  match v with
  | Some s => nonempty s
  | None => false
  end.

(** ** Exceptions *)

Inductive exn_class : Type :=
| DoesNotExist
| MultipleObjectsReturned
| InvalidToken
| KeyError
| IndexError
| TypeError
| AttributeError
| ValueError
| UnicodeDecodeError
| JSONDecodeError
| RequestException
| HTTPError
| ConnectionError
| Timeout
| OtherException.

Definition exn_class_eqb (a b : exn_class) : bool :=
  match a, b with
  | DoesNotExist, DoesNotExist | MultipleObjectsReturned, MultipleObjectsReturned
  | InvalidToken, InvalidToken | KeyError, KeyError | IndexError, IndexError
  | TypeError, TypeError | AttributeError, AttributeError | ValueError, ValueError
  | UnicodeDecodeError, UnicodeDecodeError | JSONDecodeError, JSONDecodeError
  | RequestException, RequestException | HTTPError, HTTPError
  | ConnectionError, ConnectionError | Timeout, Timeout
  | OtherException, OtherException => true
  | _, _ => false
  end.

(** [issubclass c parent] for the classes above. *)
Definition subclass (c parent : exn_class) : bool :=
  exn_class_eqb c parent ||
  match parent, c with
  | ValueError, (UnicodeDecodeError | JSONDecodeError) => true
  | RequestException, (HTTPError | ConnectionError | Timeout) => true
  | _, _ => false
  end.

Record exn : Type := Exn { exn_cls : exn_class; exn_msg : string }.

(** [isinstance(e, (c1, ..., cn))] *)
Definition isinstance (e : exn) (cs : list exn_class) : bool :=
  existsb (subclass (exn_cls e)) cs.

Inductive result (A : Type) : Type :=
| Ok (a : A)
| Raise (e : exn).
Arguments Ok {A} a.
Arguments Raise {A} e.

Definition bind {A B : Type} (m : result A) (f : A -> result B) : result B :=
  match m with
  | Ok a => f a
  | Raise e => Raise e
  end.

Notation "x <- m ;; k" := (bind m (fun x => k))
  (at level 61, m at next level, right associativity).

(** [try: body  except (cs) as e: handler e]; an exception of another class
    passes through. *)
Definition try_except {A : Type} (body : result A) (cs : list exn_class)
    (handler : exn -> result A) : result A :=
  match body with
  | Ok a => Ok a
  | Raise e => if isinstance e cs then handler e else Raise e
  end.

(** [except Exception] *)
Definition try_except_all {A : Type} (body : result A)
    (handler : exn -> result A) : result A :=
  match body with
  | Ok a => Ok a
  | Raise e => handler e
  end.

Definition raise_ {A : Type} (c : exn_class) (msg : string) : result A :=
  Raise (Exn c msg).

(** ** Decoded JSON *)

#[warnings="-register-all"]
Inductive json : Type :=
| JNull
| JBool (b : bool)
| JNum (n : Z)
| JStr (s : string)
| JArr (l : list json)
| JObj (l : list (string * json)).

(** Lookup in the items of a [dict]. *)
Fixpoint assoc {A : Type} (k : string) (l : list (string * A)) : option A :=
  match l with
  | [] => None
  | (k', v) :: r => if k' =? k then Some v else assoc k r
  end.

(** [bool(v)] *)
Definition json_truthy (v : json) : bool :=
  match v with
  | JNull => false
  | JBool b => b
  | JNum n => negb (n =? 0)%Z
  | JStr s => nonempty s
  | JArr l => match l with [] => false | _ => true end
  | JObj l => match l with [] => false | _ => true end
  end.

(** [v[k]] for a string key. *)
Definition subscript (v : json) (k : string) : result json :=
  match v with
  | JObj l => match assoc k l with
              | Some x => Ok x
              | None => raise_ KeyError k
              end
  | _ => raise_ TypeError "indices must be integers or the object is not subscriptable"
  end.

(** [v[0]] *)
Definition subscript0 (v : json) : result json :=
  match v with
  | JArr (x :: _) => Ok x
  | JArr [] => raise_ IndexError "list index out of range"
  | JStr (String c _) => Ok (JStr (String c EmptyString))
  | JStr EmptyString => raise_ IndexError "string index out of range"
  | JObj _ => raise_ KeyError "0"
  | _ => raise_ TypeError "object is not subscriptable"
  end.

(** [v.get(k, default)] *)
Definition get_method (v : json) (k : string) (default : json) : result json :=
  match v with
  | JObj l => Ok (match assoc k l with Some x => x | None => default end)
  | _ => raise_ AttributeError "object has no attribute get"
  end.

Definition json_is_str (k : string) (v : json) : bool :=
  match v with
  | JStr s => s =? k
  | _ => false
  end.

(** [k in v] for a string [k]. *)
Definition contains (k : string) (v : json) : result bool :=
  match v with
  | JObj l => Ok (match assoc k l with Some _ => true | None => false end)
  | JArr l => Ok (existsb (json_is_str k) l)
  | JStr s => Ok (substring_of k s)
  | _ => raise_ TypeError "argument is not iterable"
  end.

(** [v.strip()] *)
Definition strip_method (v : json) : result string :=
  match v with
  | JStr s => Ok (strip s)
  | _ => raise_ AttributeError "object has no attribute strip"
  end.

(** ** The data model ([models.py]) *)

(** [ChatMessage.ROLE_CHOICES]: the closed set of roles.  Rows are written
    by [add_message] (roles user and assistant) and by the admin form, which
    validates the choice. *)
Inductive Role : Type := system | user | assistant.

(** The stored value of the role column. *)
Definition role_name (r : Role) : string :=
  match r with
  | system => "system"
  | user => "user"
  | assistant => "assistant"
  end.

Definition role_eqb (a b : Role) : bool :=
  match a, b with
  | system, system | user, user | assistant, assistant => true
  | _, _ => false
  end.

Record ChatMessage : Type := mkChatMessage {
  msg_id : Z;
  msg_session : Z;
  role : Role;
  content : string;
  timestamp : Z
}.

Record ChatSession : Type := mkChatSession {
  session_id : Z;
  session_user : Z;
  title : string;
  ai_model_identifier : string;
  created_at : Z;
  updated_at : Z
}.

Record UserAPIKey : Type := mkUserAPIKey {
  key_user : Z;
  service_name : string;
  encrypted_api_key : string
}.

(** The three tables the core reads and writes, with the next primary key of
    the message table. *)
Record Database : Type := mkDatabase {
  api_keys : list UserAPIKey;
  sessions : list ChatSession;
  messages : list ChatMessage;
  next_message_id : Z
}.

(** [UserAPIKey.objects.get(user=user, service_name=service_name)] *)
Definition key_matches (u : Z) (service : string) (k : UserAPIKey) : bool :=
  (key_user k =? u)%Z && (service_name k =? service).

(** [unique_together = ('user', 'service_name')] of [UserAPIKey.Meta]: no
    two rows of the table are for the same user and service. *)
Definition unique_together (keys : list UserAPIKey) : Prop :=
  forall i j k k',
    nth_error keys i = Some k -> nth_error keys j = Some k' ->
    key_user k = key_user k' -> service_name k = service_name k' -> i = j.

Definition UserAPIKey_objects_get (db : Database) (u : Z) (service : string)
    : result UserAPIKey :=
  match filter (key_matches u service) (api_keys db) with
  | [] => raise_ DoesNotExist "UserAPIKey matching query does not exist."
  | [k] => Ok k
  | _ => raise_ MultipleObjectsReturned "get() returned more than one UserAPIKey"
  end.

(** [ChatMessage.objects.create(session=..., role=..., content=...)]; the
    timestamp column is [auto_now_add], filled with the time [now] of the
    insert. *)
Definition ChatMessage_objects_create (db : Database) (sid : Z) (r : Role)
    (c : string) (now : Z) : ChatMessage * Database :=
  let m := mkChatMessage (next_message_id db) sid r c now in
  (m, mkDatabase (api_keys db) (sessions db) (messages db ++ [m])
        (next_message_id db + 1)).

Fixpoint insert_by_timestamp (m : ChatMessage) (l : list ChatMessage)
    : list ChatMessage :=
  match l with
  | [] => [m]
  | x :: r => if (timestamp m <? timestamp x)%Z then m :: l
              else x :: insert_by_timestamp m r
  end.

(** [queryset.order_by('timestamp')]; rows with equal timestamps keep their
    insertion order. *)
Definition order_by_timestamp (l : list ChatMessage) : list ChatMessage :=
  fold_left (fun acc m => insert_by_timestamp m acc) l [].

(** [session.messages.order_by('timestamp')] *)
Definition session_messages (db : Database) (sid : Z) : list ChatMessage :=
  order_by_timestamp (filter (fun m => (msg_session m =? sid)%Z) (messages db)).

(** [session.updated_at = timezone.now(); session.save(update_fields=['updated_at'])] *)
Definition touch (now : Z) (sid : Z) (s : ChatSession) : ChatSession :=
  if (session_id s =? sid)%Z
  then mkChatSession (session_id s) (session_user s) (title s)
         (ai_model_identifier s) (created_at s) now
  else s.

Definition save_updated_at (db : Database) (sid : Z) (now : Z) : Database :=
  mkDatabase (api_keys db) (map (touch now sid) (sessions db)) (messages db)
    (next_message_id db).

(** [self.get_object()] on the queryset
    [ChatSession.objects.filter(user=self.request.user)]. *)
Definition get_object (db : Database) (u : Z) (pk : Z) : option ChatSession :=
  find (fun s => (session_id s =? pk)%Z && (session_user s =? u)%Z) (sessions db).

(** [SERVICE_CHOICES] and [AI_MODEL_CHOICES]: stored value and display name. *)
Definition SERVICE_CHOICES : list (string * string) :=
  [("openai", "OpenAI");
   ("anthropic", "Anthropic");
   ("google", "Google Gemini")].

Definition AI_MODEL_CHOICES : list (string * string) :=
  [("openai_gpt-3.5-turbo", "OpenAI GPT-3.5 Turbo");
   ("openai_gpt-4", "OpenAI GPT-4");
   ("openai_gpt-4-turbo", "OpenAI GPT-4 Turbo");
   ("anthropic_claude-3-opus", "Anthropic Claude 3 Opus");
   ("anthropic_claude-3-sonnet", "Anthropic Claude 3 Sonnet");
   ("anthropic_claude-3-haiku", "Anthropic Claude 3 Haiku");
   ("google_gemini-pro", "Google Gemini Pro");
   ("google_gemini-2.5-pro-preview-03-25", "google_gemini-2.5-pro-preview-03-25");
   ("google_gemini-2.0-flash", "Gemini 2.0 Flash")].

(** [ChatSession.get_service_name] *)
Definition get_service_name (s : ChatSession) : option string :=
  if nonempty (ai_model_identifier s)
  then Some (split_head (ai_model_identifier s))
  else None.

(** [ChatSession.objects.create(user=..., title=..., ai_model_identifier=...)];
    [new_pk] is the primary key the table assigns, [now_created] and
    [now_updated] are the readings that fill [created_at] ([auto_now_add])
    and [updated_at] ([auto_now]). *)
Definition ChatSession_objects_create (db : Database) (new_pk : Z) (u : Z)
    (t model_id : string) (now_created now_updated : Z)
    : ChatSession * Database :=
  let s := mkChatSession new_pk u t model_id now_created now_updated in
  (s, mkDatabase (api_keys db) (sessions db ++ [s]) (messages db)
        (next_message_id db)).

(** [instance.delete()] on a session: the row goes, and with it the messages
    that point to it ([on_delete=models.CASCADE]). *)
Definition ChatSession_delete (db : Database) (sid : Z) : Database :=
  mkDatabase (api_keys db)
    (filter (fun s => negb (session_id s =? sid)%Z) (sessions db))
    (filter (fun m => negb (msg_session m =? sid)%Z) (messages db))
    (next_message_id db).

(** [ChatMessageAdmin.content_preview] ([admin.py]) *)
Definition content_preview (obj : ChatMessage) : string :=
  if (50 <? String.length (content obj))%nat
  then (substring 0 50 (content obj) ++ "...")%string
  else content obj.

(** ** Request bodies of the three providers *)

(** [{"role": ..., "content": ...}] *)
Record Entry : Type := mkEntry { entry_role : string; entry_content : string }.

(** [{"messages": formatted, "system": system_prompt}] *)
Record AnthropicBody : Type := mkAnthropicBody {
  body_messages : list Entry;
  body_system : option string
}.

(** [{"role": ..., "parts": [{"text": ...}]}].  Every turn the formatter
    builds has exactly one part, so a turn is kept as its role and the text
    of that part. *)
Record Turn : Type := mkTurn { turn_role : string; turn_text : string }.

Inductive Formatted : Type :=
| OpenAIFormatted (l : list Entry)
| AnthropicFormatted (b : AnthropicBody)
| GoogleFormatted (contents : list Turn).

(** What [requests.post] is given. *)
Inductive Payload : Type :=
| OpenAIPayload (model : option string) (msgs : list Entry)
| AnthropicPayload (model : option string) (msgs : list Entry)
    (max_tokens : Z) (system_prompt : option string)
| GooglePayload (contents : list Turn).

Record HttpRequest : Type := mkHttpRequest {
  url : string;
  headers : list (string * string);
  payload : Payload;
  timeout : Z
}.

(** ** Inbound turn requests ([serializers.py]) *)

(** An entry of [request.data]: absent, [null], a string, a number (an
    [int] or a [float], kept as the text [str(data)] gives for it), or a
    value of another JSON type (a boolean, a list, an object). *)
Inductive Field : Type :=
| FieldMissing
| FieldNull
| FieldStr (s : string)
| FieldNum (text : string)
| FieldOther.

Fixpoint has_nul (s : string) : bool :=
  match s with
  | EmptyString => false
  | String c r => (nat_of_ascii c =? 0)%nat || has_nul r
  end.

(** [NewChatMessageSerializer]: [content = CharField(required=True,
    allow_blank=False)].  The field takes a string or a number, of which it
    uses [str(data)]; it trims whitespace (the default), rejects a value
    that is blank after trimming, and runs the character validators on the
    trimmed value.  The left side is the error code of the
    [ValidationError] that [is_valid(raise_exception=True)] raises, the right
    side is [validated_data['content']]. *)
Definition NewChatMessageSerializer (f : Field) : string + string :=
  match f with
  | FieldMissing => inl "required"
  | FieldNull => inl "null"
  | FieldOther => inl "invalid"
  | FieldStr s | FieldNum s =>
      if strip s =? EmptyString then inl "blank"
      else if has_nul (strip s) then inl "null_characters_not_allowed"
      else inr (strip s)
  end.

Record Request : Type := mkRequest {
  request_user : Z;
  pk : Z;
  request_content : Field
}.

(** The readings of [timezone.now()] taken during one turn: at the insert of
    the user message, at the insert of the assistant message, and at the
    save of the session. *)
Record Clock : Type := mkClock {
  now_user_message : Z;
  now_ai_message : Z;
  now_session_save : Z
}.

Inductive Response : Type :=
| Response201 (new_messages : list ChatMessage)
| Response200 (detail : string) (user_message : ChatMessage)
| Response503 (detail : string)
| Response500 (detail : string)
| Response400 (code : string)
| Response404.

Definition status (r : Response) : Z :=
  match r with
  | Response201 _ => 201
  | Response200 _ _ => 200
  | Response503 _ => 503
  | Response500 _ => 500
  | Response400 _ => 400
  | Response404 => 404
  end.

(** ** Sessions: creation, retrieval, deletion *)

(** [title = CharField(max_length=200, required=False, allow_blank=True)]:
    the codes of the validation errors, or the value put in
    [validated_data] ([None] when the key is left out).  A blank value is
    returned as the empty string before any validator runs; the validators
    of the field all run and their errors are collected. *)
Definition validate_title (f : Field) : list string + option string :=
  match f with
  | FieldMissing => inr None
  | FieldNull => inl ["null"]
  | FieldOther => inl ["invalid"]
  | FieldStr s | FieldNum s =>
      if strip s =? EmptyString then inr (Some EmptyString)
      else
        match (if (200 <? String.length (strip s))%nat then ["max_length"] else [])
              ++ (if has_nul (strip s) then ["null_characters_not_allowed"] else [])
        with
        | [] => inr (Some (strip s))
        | errors => inl errors
        end
  end.

Definition is_choice (s : string) (choices : list (string * string)) : bool :=
  match assoc s choices with
  | Some _ => true
  | None => false
  end.

(** [ai_model_identifier = ChoiceField(choices=AI_MODEL_CHOICES, required=True)];
    the field looks the text of the value up among the choices and does not
    trim it.  The text of a number is none of the choices. *)
Definition validate_model_identifier (f : Field) : list string + string :=
  match f with
  | FieldMissing => inl ["required"]
  | FieldNull => inl ["null"]
  | FieldNum _ => inl ["invalid_choice"]
  | FieldOther => inl ["invalid_choice"]
  | FieldStr s =>
      if is_choice s AI_MODEL_CHOICES then inr s else inl ["invalid_choice"]
  end.

Record NewSessionData : Type := mkNewSessionData {
  data_title : Field;
  data_ai_model_identifier : Field
}.

(** [NewChatSessionSerializer(data=...).is_valid()]: the errors by field, or
    the validated data. *)
Definition NewChatSessionSerializer (d : NewSessionData)
    : list (string * list string) + (option string * string) :=
  match validate_title (data_title d),
        validate_model_identifier (data_ai_model_identifier d) with
  | inr t, inr m => inr (t, m)
  | inl et, inr _ => inl [("title", et)]
  | inr _, inl em => inl [("ai_model_identifier", em)]
  | inl et, inl em => inl [("title", et); ("ai_model_identifier", em)]
  end.

(** [f"Chat with {dict(AI_MODEL_CHOICES).get(identifier, 'AI')}"] *)
Definition default_title (model_id : string) : string :=
  "Chat with " ++ match assoc model_id AI_MODEL_CHOICES with
                  | Some display => display
                  | None => "AI"
                  end.

(** [NewChatSessionSerializer.create] *)
Definition NewChatSessionSerializer_create (db : Database) (new_pk : Z) (u : Z)
    (validated_data : option string * string) (now_created now_updated : Z)
    : ChatSession * Database :=
  let (t, model_id) := validated_data in
  ChatSession_objects_create db new_pk u
    (match t with
     | Some given => if nonempty given then given else default_title model_id
     | None => default_title model_id
     end)
    model_id now_created now_updated.

Inductive SessionResponse : Type :=
| SessionResponse201 (session : ChatSession) (session_msgs : list ChatMessage)
| SessionResponse200 (session : ChatSession) (session_msgs : list ChatMessage)
| SessionResponse204
| SessionResponse400 (errors : list (string * list string))
| SessionResponse404.

(** [ChatSessionViewSet.create_session] *)
Definition create_session (db : Database) (u : Z) (data : NewSessionData)
    (new_pk : Z) (now_created now_updated : Z) : SessionResponse * Database :=
  match NewChatSessionSerializer data with
  | inl errors => (SessionResponse400 errors, db)
  | inr validated_data =>
      let (session, db') :=
        NewChatSessionSerializer_create db new_pk u validated_data
          now_created now_updated in
      (SessionResponse201 session (session_messages db' (session_id session)), db')
  end.

(** [ChatSessionViewSet.retrieve] *)
Definition retrieve (db : Database) (u : Z) (k : Z) : SessionResponse :=
  match get_object db u k with
  | Some instance =>
      SessionResponse200 instance (session_messages db (session_id instance))
  | None => SessionResponse404
  end.

(** The [destroy] action of [DestroyModelMixin] on [get_object()]. *)
Definition destroy (db : Database) (u : Z) (k : Z) : SessionResponse * Database :=
  match get_object db u k with
  | Some instance => (SessionResponse204, ChatSession_delete db (session_id instance))
  | None => (SessionResponse404, db)
  end.

Inductive Provider : Type := OpenAI | Anthropic | Google.

(** The fields [BaseAIClient.__init__] sets. *)
Record Client : Type := mkClient {
  provider : Provider;
  client_user : Z;
  model_identifier : string;
  client_service_name : string;
  api_key : string
}.

(** Helpers for lists updated at their end. *)
Fixpoint last_opt {A : Type} (l : list A) : option A :=
  match l with
  | [] => None
  | [x] => Some x
  | _ :: r => last_opt r
  end.

Fixpoint update_last {A : Type} (f : A -> A) (l : list A) : list A :=
  match l with
  | [] => []
  | [x] => [f x]
  | x :: r => x :: update_last f r
  end.

Fixpoint chars (s : string) : list string :=
  match s with
  | EmptyString => []
  | String c r => String c EmptyString :: chars r
  end.

(** [for x in v]: the elements of a list, the characters of a string, the
    keys of a dict. *)
Definition iterate (v : json) : result (list json) :=
  match v with
  | JArr l => Ok l
  | JStr s => Ok (map JStr (chars s))
  | JObj l => Ok (map (fun kv => JStr (fst kv)) l)
  | _ => raise_ TypeError "object is not iterable"
  end.

(** [v += s] for a string [s]: concatenation on a [str], extension by the
    characters of [s] on a list. *)
Definition iadd_str (v : json) (s : string) : result json :=
  match v with
  | JStr a => Ok (JStr (a ++ s))
  | JArr l => Ok (JArr (l ++ map JStr (chars s)))
  | _ => raise_ TypeError "unsupported operand type(s) for +="
  end.

(** ["\n".join(l)] on decoded values: every item must be a [str]. *)
Fixpoint as_strings (l : list json) : result (list string) :=
  match l with
  | [] => Ok []
  | JStr s :: r => rest <- as_strings r ;; Ok (s :: rest)
  | _ :: _ => raise_ TypeError "sequence item: expected str instance"
  end.

(** ** Message formatters ([ai_clients.py]) *)

Definition role_in (m : ChatMessage) (names : list string) : bool :=
  existsb (String.eqb (role_name (role m))) names.

(** [OpenAIClient.format_messages] *)
Definition openai_format_messages (messages_queryset : list ChatMessage)
    : list Entry :=
  map (fun msg => mkEntry (role_name (role msg)) (content msg))
    (filter (fun msg => role_in msg ["user"; "assistant"; "system"])
       messages_queryset).

Definition anthropic_warning : string :=
  "Warning: Anthropic requires the first message to be from 'user'.".

(** One pass of the loop of [AnthropicClient.format_messages] over the state
    [(formatted, system_prompt)]. *)
Definition anthropic_step (st : list Entry * option string) (msg : ChatMessage)
    : list Entry * option string :=
  let (formatted, system_prompt) := st in
  if role_name (role msg) =? "system" then
    (formatted,
     match system_prompt with
     | None => Some (content msg)
     | Some _ => system_prompt
     end)
  else if role_in msg ["user"; "assistant"] then
    (formatted ++ [mkEntry (role_name (role msg)) (content msg)], system_prompt)
  else st.

(** [not formatted or formatted[0]['role'] != 'user'] *)
Definition anthropic_anomaly (formatted : list Entry) : bool :=
  match formatted with
  | [] => true
  | e :: _ => negb (entry_role e =? "user")
  end.

(** [AnthropicClient.format_messages]: the body and the lines printed. *)
Definition anthropic_format_messages (messages_queryset : list ChatMessage)
    : AnthropicBody * list string :=
  let (formatted, system_prompt) :=
    fold_left anthropic_step messages_queryset ([], None) in
  (mkAnthropicBody formatted system_prompt,
   if anthropic_anomaly formatted then [anthropic_warning] else []).

(** The loop state of [GoogleClient.format_messages]: [contents],
    [last_role] and the lines printed so far. *)
Record GoogleState : Type := mkGoogleState {
  contents : list Turn;
  last_role : option string;
  printed : list string
}.

Definition last_role_is (st : GoogleState) (r : string) : bool :=
  match last_role st with
  | Some x => x =? r
  | None => false
  end.

(** [contents and contents[-1]['role'] == 'model'] *)
Definition ends_with_model (cs : list Turn) : bool :=
  match last_opt cs with
  | Some t => turn_role t =? "model"
  | None => false
  end.

(** [contents[-1]['parts'][0]['text'] += f"\n{msg.content}"] *)
Definition merge_into_last (cs : list Turn) (c : string) : list Turn :=
  update_last (fun t => mkTurn (turn_role t) (turn_text t ++ newline ++ c)) cs.

Definition google_warn_consecutive (msg : ChatMessage) : string :=
  "Warning: Consecutive assistant messages detected for Google API - merging content for message ID "
  ++ str_of_int (msg_id msg).

Definition google_warn_skip (msg : ChatMessage) (lr : option string) : string :=
  "Warning: Unexpected message sequence for Google API. Role '"
  ++ role_name (role msg) ++ "' cannot directly follow '"
  ++ match lr with Some r => r | None => "None" end
  ++ "'. Skipping message " ++ str_of_int (msg_id msg) ++ ".".

Definition google_warn_system (msg : ChatMessage) : string :=
  "Warning: System message (ID: " ++ str_of_int (msg_id msg)
  ++ ") encountered. Google Gemini API handles system prompts differently. It will be ignored in this basic implementation.".

Definition google_warn_last : string :=
  "Warning: Last message in history for Google API is from the model. This might lead to errors.".

(** One pass of the loop of [GoogleClient.format_messages]. *)
Definition google_step (st : GoogleState) (msg : ChatMessage) : GoogleState :=
  if role_name (role msg) =? "user" then
    mkGoogleState (contents st ++ [mkTurn "user" (content msg)]) (Some "user")
      (printed st)
  else if role_name (role msg) =? "assistant" then
    if last_role_is st "user" then
      mkGoogleState (contents st ++ [mkTurn "model" (content msg)])
        (Some "model") (printed st)
    else if ends_with_model (contents st) then
      mkGoogleState (merge_into_last (contents st) (content msg))
        (last_role st) (printed st ++ [google_warn_consecutive msg])
    else
      mkGoogleState (contents st) (last_role st)
        (printed st ++ [google_warn_consecutive msg;
                        google_warn_skip msg (last_role st)])
  else if role_name (role msg) =? "system" then
    mkGoogleState (contents st) (last_role st)
      (printed st ++ [google_warn_system msg])
  else st.

Definition google_initial : GoogleState := mkGoogleState [] None [].

Definition google_loop (st : GoogleState) (l : list ChatMessage) : GoogleState :=
  fold_left google_step l st.

(** [GoogleClient.format_messages]: the [contents] of the body and the lines
    printed. *)
Definition google_format_messages (messages_queryset : list ChatMessage)
    : list Turn * list string :=
  let st := google_loop google_initial messages_queryset in
  (contents st,
   if ends_with_model (contents st) then printed st ++ [google_warn_last]
   else printed st).

(** [self.format_messages(messages_queryset)], without the printed lines. *)
Definition format_messages (p : Provider) (messages_queryset : list ChatMessage)
    : Formatted :=
  match p with
  | OpenAI => OpenAIFormatted (openai_format_messages messages_queryset)
  | Anthropic => AnthropicFormatted (fst (anthropic_format_messages messages_queryset))
  | Google => GoogleFormatted (fst (google_format_messages messages_queryset))
  end.

(** [not formatted_messages]: an empty list is false, a dict with keys is
    true. *)
Definition formatted_is_empty (f : Formatted) : bool :=
  match f with
  | OpenAIFormatted [] => true
  | _ => false
  end.

Section Backend.

(** [repr(v)] of a decoded value. *)
Variable py_repr : json -> string.
(** [fernet.decrypt(token)] and [bytes.decode()]. *)
Variable fernet_decrypt : string -> result string.
Variable bytes_decode : string -> result string.
(** [settings.<NAME>] when the attribute is set (a [str] or [None]), and
    [os.getenv(NAME)]. *)
Variable settings_attr : string -> option (option string).
Variable os_getenv : string -> option string.
(** [requests.post(...)], [raise_for_status()] and [response.json()]. *)
Variable requests_post : HttpRequest -> result json.

(** What an f-string prints for [{v}]. *)
Definition py_str (v : json) : string :=
  match v with
  | JStr s => s
  | _ => py_repr v
  end.

(** ** Credential resolver *)

(** [UserAPIKey.get_api_key] *)
Definition get_api_key (k : UserAPIKey) : result (option string) :=
  if negb (nonempty (encrypted_api_key k)) then Ok None
  else
    try_except_all
      (plain <- fernet_decrypt (encrypted_api_key k) ;;
       text <- bytes_decode plain ;;
       Ok (Some text))
      (fun _ => Ok None).

(** Step 1 of [get_api_key_for_service]: [Some key] when the function
    returns the user's key from inside the [try], [None] when control
    reaches step 2. *)
Definition user_key_step (db : Database) (u : Z) (service : string)
    : result (option string) :=
  try_except_all
    (try_except
       (user_key_entry <- UserAPIKey_objects_get db u service ;;
        decrypted_key <- get_api_key user_key_entry ;;
        Ok (if truthy decrypted_key then decrypted_key else None))
       [DoesNotExist] (fun _ => Ok None))
    (fun _ => Ok None).

(** [getattr(settings, name, os.getenv(name))] for
    [name = f"{service_name.upper()}_API_KEY"]. *)
Definition system_key (service : string) : option string :=
  let system_key_var_name := (upper service ++ "_API_KEY")%string in
  match settings_attr system_key_var_name with
  | Some v => v
  | None => os_getenv system_key_var_name
  end.

(** [get_api_key_for_service] *)
Definition get_api_key_for_service (db : Database) (u : Z) (service : string)
    : result (option string) :=
  from_user <- user_key_step db u service ;;
  match from_user with
  | Some decrypted_key => Ok (Some decrypted_key)
  | None =>
      if truthy (system_key service) then Ok (system_key service)
      else Ok None
  end.

(** ** Storing a key ([models.py]) *)

(** [fernet.encrypt(data)] and [str.encode()]. *)
Variable fernet_encrypt : string -> string.
Variable bytes_encode : string -> string.

(** A [UserAPIKey] object in memory: its primary key ([None] before the
    first save), its columns, and the attribute [_raw_api_key_to_encrypt]
    when it is set. *)
Record KeyInstance : Type := mkKeyInstance {
  inst_pk : option Z;
  inst_user : Z;
  inst_service_name : string;
  inst_encrypted_api_key : string;
  raw_api_key_to_encrypt : option string
}.

(** The columns of the object, as the row the table holds. *)
Definition as_row (inst : KeyInstance) : UserAPIKey :=
  mkUserAPIKey (inst_user inst) (inst_service_name inst)
    (inst_encrypted_api_key inst).

(** [UserAPIKey.set_api_key] *)
Definition set_api_key (inst : KeyInstance) (raw_key : string) : result KeyInstance :=
  if negb (nonempty raw_key) then raise_ ValueError "API key cannot be empty."
  else Ok (mkKeyInstance (inst_pk inst) (inst_user inst) (inst_service_name inst)
             (fernet_encrypt (bytes_encode raw_key))
             (raw_api_key_to_encrypt inst)).

(** [bool(self.pk)]: [None] and 0 are false. *)
Definition pk_truthy (pk : option Z) : bool :=
  match pk with
  | Some k => negb (k =? 0)%Z
  | None => false
  end.

(** [hasattr(self, '_raw_api_key_to_encrypt')] *)
Definition has_raw_api_key (inst : KeyInstance) : bool :=
  match raw_api_key_to_encrypt inst with
  | Some _ => true
  | None => false
  end.

(** [UserAPIKey.save] up to its last line: the result is the object that
    [super().save()] writes.  The [ValidationError] of
    [django.core.exceptions] is none of the classes told apart in
    [exn_class] and is raised as [OtherException]. *)
Definition UserAPIKey_save (inst : KeyInstance) : result KeyInstance :=
  if negb (pk_truthy (inst_pk inst)) && negb (has_raw_api_key inst) then
    raise_ OtherException
      "Use set_api_key() to provide the key before saving a new UserAPIKey."
  else
    match raw_api_key_to_encrypt inst with
    | Some raw_key =>
        encrypted <- set_api_key inst raw_key ;;
        Ok (mkKeyInstance (inst_pk encrypted) (inst_user encrypted)
              (inst_service_name encrypted) (inst_encrypted_api_key encrypted)
              None)
    | None => Ok inst
    end.

(** ** Provider clients *)

(** [BaseAIClient.__init__] *)
Definition BaseAIClient_init (p : Provider) (db : Database) (u : Z)
    (model_id : string) : result Client :=
  let service := split_head model_id in
  key <- get_api_key_for_service db u service ;;
  match key with
  | Some k =>
      if nonempty k then Ok (mkClient p u model_id service k)
      else raise_ ValueError ("API Key for service '" ++ service ++ "' is missing.")
  | None => raise_ ValueError ("API Key for service '" ++ service ++ "' is missing.")
  end.

(** [get_ai_client] *)
Definition get_ai_client (db : Database) (u : Z) (model_id : string)
    : result Client :=
  let service := split_head model_id in
  if service =? "openai" then BaseAIClient_init OpenAI db u model_id
  else if service =? "anthropic" then BaseAIClient_init Anthropic db u model_id
  else if service =? "google" then BaseAIClient_init Google db u model_id
  else raise_ ValueError ("Unsupported AI service: " ++ service).

(** [_get_model_name] *)
Definition get_model_name (c : Client) : option string :=
  split_tail (model_identifier c).

Definition model_map : list (string * string) :=
  [("gemini-2.0-flash", "gemini-2.0-flash");
   ("gemini-2.5-pro-preview-03-25", "gemini-2.5-pro-preview-03-25")].

Definition str_or_None (v : option string) : string :=
  match v with
  | Some s => s
  | None => "None"
  end.

(** [GoogleClient._get_model_name_for_api] *)
Definition get_model_name_for_api (c : Client) : option string :=
  let internal_name := get_model_name c in
  match assoc ("google_" ++ str_or_None internal_name)%string model_map with
  | Some external => Some external
  | None => internal_name
  end.

(** The request each [call_api] sends. *)
Definition build_request (c : Client) (f : Formatted) : HttpRequest :=
  match f with
  | OpenAIFormatted msgs =>
      mkHttpRequest "https://api.openai.com/v1/chat/completions"
        [("Authorization", ("Bearer " ++ api_key c)%string);
         ("Content-Type", "application/json")]
        (OpenAIPayload (get_model_name c) msgs) 90
  | AnthropicFormatted b =>
      mkHttpRequest "https://api.anthropic.com/v1/messages"
        [("x-api-key", api_key c);
         ("anthropic-version", "2023-06-01");
         ("Content-Type", "application/json")]
        (AnthropicPayload (get_model_name c) (body_messages b) 1024
           (if truthy (body_system b) then body_system b else None)) 90
  | GoogleFormatted cs =>
      mkHttpRequest
        ("https://generativelanguage.googleapis.com/v1beta/models/"
         ++ str_or_None (get_model_name_for_api c) ++ ":generateContent")
        [("x-goog-api-key", api_key c);
         ("Content-Type", "application/json")]
        (GooglePayload cs) 90
  end.

(** [call_api]: the [except RequestException] clause prints and raises the
    exception again. *)
Definition call_api (c : Client) (f : Formatted) : result json :=
  try_except (requests_post (build_request c f)) [RequestException]
    (fun e => Raise e).

Definition parse_errors : list exn_class := [KeyError; IndexError; TypeError].

(** [OpenAIClient.parse_response] *)
Definition openai_parse_response (response_data : json) : result (option string) :=
  try_except
    (has_error <- contains "error" response_data ;;
     if has_error : bool then
       error_details <- subscript response_data "error" ;;
       message <- get_method error_details "message" (JStr "Unknown error") ;;
       raise_ ValueError ("OpenAI API Error: " ++ py_str message)
     else
       choices <- subscript response_data "choices" ;;
       choice <- subscript0 choices ;;
       message <- subscript choice "message" ;;
       content <- subscript message "content" ;;
       if json_truthy content then
         text <- strip_method content ;; Ok (Some text)
       else Ok None)
    parse_errors
    (fun _ => raise_ ValueError "Failed to parse response from OpenAI API.").

(** [AnthropicClient.parse_response] *)
Definition anthropic_parse_response (response_data : json)
    : result (option string) :=
  try_except
    (type_ <- get_method response_data "type" JNull ;;
     if json_is_str "error" type_ then
       error_details <- get_method response_data "error" (JObj []) ;;
       message <- get_method error_details "message" (JStr "Unknown error") ;;
       raise_ ValueError ("Anthropic API Error: " ++ py_str message)
     else
       blocks <- subscript response_data "content" ;;
       content_block <- subscript0 blocks ;;
       block_type <- subscript content_block "type" ;;
       if json_is_str "text" block_type then
         text_value <- subscript content_block "text" ;;
         text <- strip_method text_value ;;
         Ok (Some text)
       else Ok None)
    parse_errors
    (fun _ => raise_ ValueError "Failed to parse response from Anthropic API.").

Definition unknown_google_error : string :=
  "Unknown Google API error, response did not contain candidates.".

(** The diagnostic [GoogleClient.parse_response] composes when the response
    has no candidates. *)
Definition google_error_message (response_data : json) : result json :=
  error_info <- get_method response_data "error" (JObj []) ;;
  message <- get_method error_info "message" (JStr unknown_google_error) ;;
  prompt_feedback <- get_method response_data "promptFeedback" JNull ;;
  if json_truthy prompt_feedback then
    block_reason <- get_method prompt_feedback "blockReason" JNull ;;
    if json_truthy block_reason then
      blocked <- iadd_str message (" Blocked due to: " ++ py_str block_reason ++ ".") ;;
      safety_ratings <- get_method prompt_feedback "safetyRatings" (JArr []) ;;
      iadd_str blocked (" Safety Ratings: " ++ py_str safety_ratings)
    else Ok message
  else Ok message.

(** [[part['text'] for part in parts if 'text' in part]] *)
Fixpoint text_parts (parts : list json) : result (list json) :=
  match parts with
  | [] => Ok []
  | part :: rest =>
      has_text <- contains "text" part ;;
      if has_text : bool then
        t <- subscript part "text" ;;
        ts <- text_parts rest ;;
        Ok (t :: ts)
      else text_parts rest
  end.

(** [finish_reason not in ['STOP', 'MAX_TOKENS', None]] *)
Definition unusual_finish (finish_reason : json) : bool :=
  negb (json_is_str "STOP" finish_reason
        || json_is_str "MAX_TOKENS" finish_reason
        || match finish_reason with JNull => true | _ => false end).

Definition safety_block_message (safety_ratings : json) : string :=
  "Google API response blocked due to safety concerns. Ratings: "
  ++ py_str safety_ratings.

(** [GoogleClient.parse_response] *)
Definition google_parse_response (response_data : json) : result (option string) :=
  try_except
    (candidates <- get_method response_data "candidates" JNull ;;
     if negb (json_truthy candidates) then
       message <- google_error_message response_data ;;
       raise_ ValueError ("Google API Error: " ++ py_str message)
     else
       candidates' <- subscript response_data "candidates" ;;
       candidate <- subscript0 candidates' ;;
       finish_reason <- get_method candidate "finishReason" JNull ;;
       _ <- (if unusual_finish finish_reason && json_is_str "SAFETY" finish_reason
             then
               safety_ratings <- get_method candidate "safetyRatings" (JArr []) ;;
               raise_ ValueError (safety_block_message safety_ratings)
             else Ok tt) ;;
       content <- subscript candidate "content" ;;
       parts <- get_method content "parts" (JArr []) ;;
       items <- iterate parts ;;
       texts <- text_parts items ;;
       strings <- as_strings texts ;;
       let full_text := join newline strings in
       if nonempty full_text then Ok (Some (strip full_text)) else Ok None)
    parse_errors
    (fun _ => raise_ ValueError "Failed to parse response from Google API.").

Definition parse_response (p : Provider) (response_data : json)
    : result (option string) :=
  match p with
  | OpenAI => openai_parse_response response_data
  | Anthropic => anthropic_parse_response response_data
  | Google => google_parse_response response_data
  end.

(** [BaseAIClient.get_completion] *)
Definition get_completion (c : Client) (messages_queryset : list ChatMessage)
    : result (option string) :=
  let formatted_messages := format_messages (provider c) messages_queryset in
  if formatted_is_empty formatted_messages then
    raise_ ValueError "Message formatting resulted in empty payload."
  else
    raw_response <- call_api c formatted_messages ;;
    parse_response (provider c) raw_response.

(** ** The turn ([views.py]) *)

(** Steps 4 and 5 of [add_message], the body of its [try] up to the
    answer of the model. *)
Definition ai_step (db : Database) (u : Z) (session : ChatSession)
    (messages_history : list ChatMessage) : result (option string) :=
  client <- get_ai_client db u (ai_model_identifier session) ;;
  get_completion client messages_history.

(** [ChatSessionViewSet.add_message] *)
Definition add_message (db : Database) (request : Request) (clock : Clock)
    : Response * Database :=
  match get_object db (request_user request) (pk request) with
  | None => (Response404, db)
  | Some session =>
      match NewChatMessageSerializer (request_content request) with
      | inl code => (Response400 code, db)
      | inr user_message_content =>
          let (user_message, db1) :=
            ChatMessage_objects_create db (session_id session) user
              user_message_content (now_user_message clock) in
          let messages_history := session_messages db1 (session_id session) in
          match ai_step db1 (request_user request) session messages_history with
          | Ok (Some ai_response_content) =>
              if nonempty ai_response_content then
                let (ai_message, db2) :=
                  ChatMessage_objects_create db1 (session_id session) assistant
                    ai_response_content (now_ai_message clock) in
                (Response201 [user_message; ai_message],
                 save_updated_at db2 (session_id session) (now_session_save clock))
              else (Response200 "AI did not return a response." user_message, db1)
          | Ok None =>
              (Response200 "AI did not return a response." user_message, db1)
          | Raise e =>
              if isinstance e [ValueError; RequestException] then
                (Response503 ("Failed to get response from AI service: " ++ exn_msg e),
                 db1)
              else
                (Response500 "An unexpected server error occurred.", db1)
          end
      end
  end.

(** ** Vocabulary of the statements *)

Definition trimmed (s : string) : Prop :=
  (forall c, first_char s = Some c -> is_space c = false) /\
  (forall c, last_char s = Some c -> is_space c = false).

(** The part of the loop state that reaches the request body. *)
Definition core (st : GoogleState) : list Turn * option string :=
  (contents st, last_role st).

(** Turns behind the last one are never touched again: a state whose
    [contents] is [front ++ back] with [back] not empty evolves as the state
    holding [back] alone, with [front] kept in place. *)
Definition framed (front : list Turn) (st st' : GoogleState) : Prop :=
  exists x back,
    contents st = front ++ x :: back /\ contents st' = x :: back /\
    last_role st = last_role st'.

(** The text that the assistant messages at the front of [l] add to a model
    turn already in place: a newline and the content for each of them, up to
    the next user message (system messages add nothing). *)
Fixpoint merged_suffix (l : list ChatMessage) : string :=
  match l with
  | [] => EmptyString
  | m :: r =>
      match role m with
      | user => EmptyString
      | assistant => newline ++ content m ++ merged_suffix r
      | system => merged_suffix r
      end
  end.

(** [l] from its first user message on. *)
Fixpoint from_next_user (l : list ChatMessage) : list ChatMessage :=
  match l with
  | [] => []
  | m :: r =>
      match role m with
      | user => l
      | _ => from_next_user r
      end
  end.

(** The state of the turn after step 2 of [add_message]. *)
Definition after_user_message (db : Database) (session : ChatSession)
    (c : string) (clock : Clock) : Database :=
  snd (ChatMessage_objects_create db (session_id session) user c
         (now_user_message clock)).

Definition is_assistant (m : ChatMessage) : bool := role_eqb (role m) assistant.

Definition non_system (m : ChatMessage) : bool := negb (role_eqb (role m) system).

Definition to_entry (m : ChatMessage) : Entry :=
  mkEntry (role_name (role m)) (content m).

(** The content of the first system message of a history. *)
Definition first_system (l : list ChatMessage) : option string :=
  option_map content (find (fun m => role_eqb (role m) system) l).

(** The row that step 2 of [add_message] inserts. *)
Definition new_user_message (db : Database) (session : ChatSession)
    (c : string) (clock : Clock) : ChatMessage :=
  mkChatMessage (next_message_id db) (session_id session) user c
    (now_user_message clock).

(** [session] with its update timestamp set to [now]. *)
Definition with_updated_at (session : ChatSession) (now : Z) : ChatSession :=
  mkChatSession (session_id session) (session_user session) (title session)
    (ai_model_identifier session) (created_at session) now.

(** The canned Provider A response
    [{"choices":[{"message":{"content":"Hi there"}}]}]. *)
Definition canned_openai_response : json :=
  JObj [("choices", JArr [JObj [("message", JObj [("content", JStr "Hi there")])]])].

(** A Provider C response whose first candidate has finish reason SAFETY. *)
Definition first_candidate_safety (response_data : json) (candidate : list (string * json))
    : Prop :=
  exists fields rest,
    response_data = JObj fields /\
    assoc "candidates" fields = Some (JArr (JObj candidate :: rest)) /\
    assoc "finishReason" candidate = Some (JStr "SAFETY").

(** [v.get(k, default)] on the items of a dict. *)
Definition get_or {A : Type} (k : string) (l : list (string * A)) (default : A) : A :=
  match assoc k l with
  | Some x => x
  | None => default
  end.

(** A successful Provider A response whose [choices[0].message.content] is
    the text [s]. *)
Definition openai_text (response_data : json) (s : string) : Prop :=
  exists fields choice rest message,
    response_data = JObj fields /\
    assoc "error" fields = None /\
    assoc "choices" fields = Some (JArr (JObj choice :: rest)) /\
    assoc "message" choice = Some (JObj message) /\
    assoc "content" message = Some (JStr s).

(** A successful Provider B response whose first content block is a text
    block with the text [s]. *)
Definition anthropic_text (response_data : json) (s : string) : Prop :=
  exists fields block rest,
    response_data = JObj fields /\
    json_is_str "error" (get_or "type" fields JNull) = false /\
    assoc "content" fields = Some (JArr (JObj block :: rest)) /\
    assoc "type" block = Some (JStr "text") /\
    assoc "text" block = Some (JStr s).

(** A successful Provider C response, not blocked for safety, whose first
    candidate has text parts that join to [s]. *)
Definition google_text (response_data : json) (s : string) : Prop :=
  exists fields candidate rest body parts texts strings,
    response_data = JObj fields /\
    assoc "candidates" fields = Some (JArr (JObj candidate :: rest)) /\
    json_is_str "SAFETY" (get_or "finishReason" candidate JNull) = false /\
    assoc "content" candidate = Some (JObj body) /\
    assoc "parts" body = Some (JArr parts) /\
    text_parts parts = Ok texts /\
    as_strings texts = Ok strings /\
    s = join newline strings.

(** Ascending creation time. *)
Definition by_timestamp (a b : ChatMessage) : Prop := (timestamp a <= timestamp b)%Z.

Definition in_session (sid : Z) (m : ChatMessage) : bool := (msg_session m =? sid)%Z.

(** What step 2 of [get_api_key_for_service] answers. *)
Definition system_fallback (service : string) : option string :=
  if truthy (system_key service) then system_key service else None.

Definition supported_service (service : string) : bool :=
  (service =? "openai") || (service =? "anthropic") || (service =? "google").

Definition provider_token (p : Provider) : string :=
  match p with
  | OpenAI => "openai"
  | Anthropic => "anthropic"
  | Google => "google"
  end.

(** The exceptions a computation may raise are of the classes [cs]. *)
Definition raises_only {A : Type} (cs : list exn_class) (m : result A) : Prop :=
  forall e, m = Raise e -> In (exn_cls e) cs.

(** The classes raised inside the [try] of the parse steps. *)
Definition body_classes : list exn_class :=
  [KeyError; IndexError; TypeError; AttributeError; ValueError].

(** What the parts of a Provider C candidate hold under "text", in order;
    a part without that key gives nothing. *)
Fixpoint texts_of (parts : list (list (string * json))) : list json :=
  match parts with
  | [] => []
  | part :: rest =>
      match assoc "text" part with
      | Some t => t :: texts_of rest
      | None => texts_of rest
      end
  end.

(** The shape of a Provider C body read from the front: only "user" and
    "model" turns, and a "model" turn only right behind a "user" turn
    ([after_user] tells whether the turn before is a "user" turn). *)
Fixpoint model_follows_user (after_user : bool) (cs : list Turn) : bool :=
  match cs with
  | [] => true
  | t :: r =>
      if turn_role t =? "user" then model_follows_user true r
      else if turn_role t =? "model" then after_user && model_follows_user false r
      else false
  end.

Definition is_user_turn (t : Turn) : bool := turn_role t =? "user".

Definition is_user (m : ChatMessage) : bool := role_eqb (role m) user.

(** The texts of the "user" turns of a body. *)
Definition user_texts (cs : list Turn) : list string :=
  map turn_text (filter is_user_turn cs).

(** What holds of every identifier offered in [AI_MODEL_CHOICES]. *)
Definition well_formed_choice (model_id : string) : Prop :=
  supported_service (split_head model_id) = true
  /\ (exists name, split_tail model_id = Some name /\ name <> EmptyString)
  /\ model_id <> EmptyString
  /\ (String.length (default_title model_id) <= 200)%nat.

(** Every message points to a stored session. *)
Definition messages_have_sessions (db : Database) : Prop :=
  Forall (fun m => exists s, In s (sessions db) /\ session_id s = msg_session m)
    (messages db).

(** ** Sample data for the concrete runs *)

Definition sample_session : ChatSession :=
  mkChatSession 1 7 "New Chat" "openai_gpt-4" 100 100.

Definition sample_db : Database := mkDatabase [] [sample_session] [] 1.

Definition sample_key : UserAPIKey := mkUserAPIKey 7 "openai" "gAAAAAB-token".

Definition sample_db_with_key : Database :=
  mkDatabase [sample_key] [sample_session] [] 1.

(** A table with the keys of two users and two services. *)
Definition sample_db_with_keys : Database :=
  mkDatabase [mkUserAPIKey 8 "openai" "gAAAAAB-other";
              sample_key;
              mkUserAPIKey 7 "google" "gAAAAAB-google"]
    [sample_session] [] 1.

Definition sample_request : Request := mkRequest 7 1 (FieldStr "Hello").

Definition sample_clock : Clock := mkClock 200 201 202.

Definition sample_repr (v : json) : string := "<repr>".

Definition no_settings (name : string) : option (option string) := None.

Definition system_settings (name : string) : option (option string) :=
  if name =? "OPENAI_API_KEY" then Some (Some "sk-system") else None.

Definition no_env (name : string) : option string := None.

Definition failing_fernet (token : string) : result string :=
  raise_ InvalidToken EmptyString.

Definition sample_fernet (token : string) : result string :=
  if token =? "gAAAAAB-token" then Ok "sk-user"
  else raise_ InvalidToken EmptyString.

Definition utf8_decode (b : string) : result string := Ok b.

Definition canned_transport (r : HttpRequest) : result json :=
  Ok canned_openai_response.

Definition safety_response : json :=
  JObj [("candidates", JArr [JObj [("finishReason", JStr "SAFETY")]])].

Definition blank_openai_response : json :=
  JObj [("choices", JArr [JObj [("message", JObj [("content", JStr "  ")])]])].

(** The no-break space, U+00A0. *)
Definition nbsp : string := String (ascii_of_nat 160) EmptyString.

(** A Provider B response whose text ends in a no-break space. *)
Definition nbsp_anthropic_response : json :=
  JObj [("type", JStr "message");
        ("content",
         JArr [JObj [("type", JStr "text"); ("text", JStr ("Hi" ++ nbsp))]])].

Definition sample_message (i : Z) (r : Role) (c : string) : ChatMessage :=
  mkChatMessage i 1 r c (100 + i).

Definition sample_db_unordered : Database :=
  mkDatabase [] [sample_session]
    [mkChatMessage 1 1 user "late" 90;
     mkChatMessage 2 1 assistant "early" 50;
     mkChatMessage 3 2 user "elsewhere" 10]
    4.

Definition foreign_request : Request := mkRequest 8 1 (FieldStr "Hello").

Definition blank_request : Request := mkRequest 7 1 (FieldStr "   ").

(** Content that is a blank, a no-break space and a tab. *)
Definition nbsp_request : Request :=
  mkRequest 7 1 (FieldStr (" " ++ nbsp ++ String (ascii_of_nat 9) EmptyString)).

(** The body [{"content": 5}]: the number reaches the field as its text. *)
Definition number_request : Request := mkRequest 7 1 (FieldNum "5").

Definition failing_transport (r : HttpRequest) : result json :=
  raise_ Timeout "timed out".

Definition sample_encrypt (b : string) : string := String "g" b.

Definition sample_decrypt (token : string) : result string :=
  match token with
  | String c b => if Ascii.eqb c "g" then Ok b else raise_ InvalidToken EmptyString
  | EmptyString => raise_ InvalidToken EmptyString
  end.

Definition utf8_encode (t : string) : string := t.

Definition sample_client : Client :=
  mkClient OpenAI 7 "openai_gpt-4" "openai" "sk-system".

Definition unknown_session : ChatSession :=
  mkChatSession 1 7 "New Chat" "mistral_large" 100 100.

Definition unknown_db : Database := mkDatabase [] [unknown_session] [] 1.

Definition openai_error_response : json :=
  JObj [("error", JObj [("message", JStr "Invalid API key"); ("type", JStr "auth")])].

Definition blocked_prompt_response : json :=
  JObj [("error", JObj [("message", JStr "Blocked.")]);
        ("promptFeedback", JObj [("blockReason", JStr "SAFETY")])].

Definition tool_use_response : json :=
  JObj [("type", JStr "message");
        ("content", JArr [JObj [("type", JStr "tool_use")]])].

Definition two_parts : list (list (string * json)) :=
  [[("text", JStr "one")];
   [("inlineData", JObj [("mimeType", JStr "image/png"); ("data", JStr "iVBOR")])];
   [("thought", JBool false); ("text", JStr "two")]].

Definition two_part_response : json :=
  JObj [("candidates",
         JArr [JObj [("content", JObj [("parts", JArr (map JObj two_parts))]);
                     ("finishReason", JStr "STOP")]])].

(** A candidate whose second part holds a number under "text". *)
Definition number_part_response : json :=
  JObj [("candidates",
         JArr [JObj [("content",
                      JObj [("parts", JArr [JObj [("text", JStr "one")];
                                            JObj [("text", JNum 2)]])]);
                     ("finishReason", JStr "STOP")]])].

Definition new_key_instance : KeyInstance :=
  mkKeyInstance None 7 "openai" EmptyString (Some "sk-user").

Definition new_session_data : NewSessionData :=
  mkNewSessionData (FieldStr "  ") (FieldStr "google_gemini-pro").

Definition created_session : ChatSession :=
  mkChatSession 2 7 "Chat with Google Gemini Pro" "google_gemini-pro" 300 301.

Definition created_db : Database :=
  mkDatabase [] [sample_session; created_session] [] 1.

(** * Properties *)

(** ** Strings *)

Lemma lstrip_first (s : string) (c : ascii) :
  first_char (lstrip s) = Some c -> is_space c = false.
Proof.
  induction s as [|a r IH]; simpl; [discriminate|].
  destruct (is_space a) eqn:Ha; [exact IH|].
  simpl. intros [= <-]. exact Ha.
Qed.

Lemma rstrip_last (s : string) (c : ascii) :
  last_char (rstrip s) = Some c -> is_space c = false.
Proof.
  induction s as [|a r IH]; simpl; [discriminate|].
  destruct (rstrip r) as [|b r'] eqn:Hr.
  - destruct (is_space a) eqn:Ha; simpl; [discriminate|].
    intros [= <-]. exact Ha.
  - exact IH.
Qed.

Lemma rstrip_first (s : string) (c : ascii) :
  first_char (rstrip s) = Some c -> first_char s = Some c.
Proof.
  destruct s as [|a r]; simpl; [discriminate|].
  destruct (rstrip r); [destruct (is_space a)|]; simpl; try discriminate; auto.
Qed.

Lemma strip_trimmed (s : string) : trimmed (strip s).
Proof.
  split; intros c H.
  - apply (lstrip_first s). apply rstrip_first. exact H.
  - apply (rstrip_last (lstrip s)). exact H.
Qed.

Lemma nonempty_true (s : string) : nonempty s = true <-> s <> EmptyString.
Proof.
  unfold nonempty. destruct (String.eqb_spec s EmptyString); simpl; split;
    congruence.
Qed.

Lemma nonempty_false (s : string) : nonempty s = false <-> s = EmptyString.
Proof.
  unfold nonempty. destruct (String.eqb_spec s EmptyString); simpl; split;
    congruence.
Qed.

(** ** Lists updated at their end *)

Lemma last_opt_app {A : Type} (l : list A) (x : A) : last_opt (l ++ [x]) = Some x.
Proof.
  induction l as [|a r IH]; [reflexivity|].
  simpl. destruct (r ++ [x]) eqn:E; [destruct r; discriminate|exact IH].
Qed.

Lemma last_opt_app_cons {A : Type} (l d : list A) (x : A) :
  last_opt (l ++ x :: d) = last_opt (x :: d).
Proof.
  induction l as [|a r IH]; [reflexivity|].
  simpl app. change (last_opt (a :: r ++ x :: d)) with
    (match r ++ x :: d with [] => Some a | _ :: _ => last_opt (r ++ x :: d) end).
  destruct (r ++ x :: d) eqn:E; [destruct r; discriminate|exact IH].
Qed.

Lemma update_last_app {A : Type} (f : A -> A) (l : list A) (x : A) :
  update_last f (l ++ [x]) = l ++ [f x].
Proof.
  induction l as [|a r IH]; [reflexivity|].
  simpl. destruct (r ++ [x]) eqn:E; [destruct r; discriminate|].
  rewrite <- IH. reflexivity.
Qed.

Lemma update_last_app_cons {A : Type} (f : A -> A) (l d : list A) (x : A) :
  update_last f (l ++ x :: d) = l ++ update_last f (x :: d).
Proof.
  induction l as [|a r IH]; [reflexivity|].
  simpl app.
  change (update_last f (a :: r ++ x :: d)) with
    (match r ++ x :: d with
     | [] => [f a]
     | _ :: _ => a :: update_last f (r ++ x :: d)
     end).
  destruct (r ++ x :: d) eqn:E; [destruct r; discriminate|].
  f_equal. exact IH.
Qed.

Lemma append_empty_r (s : string) : (s ++ EmptyString)%string = s.
Proof. induction s as [|c r IH]; simpl; [reflexivity|now rewrite IH]. Qed.

Lemma append_assoc (a b c : string) :
  ((a ++ b) ++ c)%string = (a ++ (b ++ c))%string.
Proof. induction a as [|x r IH]; simpl; [reflexivity|now rewrite IH]. Qed.

(** ** Provider C formatter: the loop *)

Lemma google_step_user (st : GoogleState) (msg : ChatMessage) :
  role msg = user ->
  google_step st msg =
  mkGoogleState (contents st ++ [mkTurn "user" (content msg)]) (Some "user")
    (printed st).
Proof. intros H. unfold google_step. rewrite H. reflexivity. Qed.

Lemma google_step_system (st : GoogleState) (msg : ChatMessage) :
  role msg = system ->
  google_step st msg =
  mkGoogleState (contents st) (last_role st)
    (printed st ++ [google_warn_system msg]).
Proof. intros H. unfold google_step. rewrite H. reflexivity. Qed.

Lemma google_step_reply (st : GoogleState) (msg : ChatMessage) :
  role msg = assistant -> last_role_is st "user" = true ->
  google_step st msg =
  mkGoogleState (contents st ++ [mkTurn "model" (content msg)]) (Some "model")
    (printed st).
Proof. intros H L. unfold google_step. rewrite H. simpl. rewrite L. reflexivity. Qed.

Lemma google_step_merge (st : GoogleState) (msg : ChatMessage) :
  role msg = assistant -> last_role_is st "user" = false ->
  ends_with_model (contents st) = true ->
  google_step st msg =
  mkGoogleState (merge_into_last (contents st) (content msg)) (last_role st)
    (printed st ++ [google_warn_consecutive msg]).
Proof.
  intros H L E. unfold google_step. rewrite H. simpl. rewrite L, E. reflexivity.
Qed.

Lemma google_step_skip (st : GoogleState) (msg : ChatMessage) :
  role msg = assistant -> last_role_is st "user" = false ->
  ends_with_model (contents st) = false ->
  google_step st msg =
  mkGoogleState (contents st) (last_role st)
    (printed st ++ [google_warn_consecutive msg;
                    google_warn_skip msg (last_role st)]).
Proof.
  intros H L E. unfold google_step. rewrite H. simpl. rewrite L, E. reflexivity.
Qed.

(** The printed lines never influence [contents] and [last_role]. *)
Lemma google_step_core (st st' : GoogleState) (msg : ChatMessage) :
  core st = core st' -> core (google_step st msg) = core (google_step st' msg).
Proof.
  destruct st as [c lr p], st' as [c' lr' p']. unfold core. simpl.
  intros [= -> ->]. unfold google_step, last_role_is. simpl.
  destruct (role msg); simpl; try reflexivity.
  destruct lr' as [x|]; [destruct (x =? "user")|];
    try reflexivity; destruct (ends_with_model c'); reflexivity.
Qed.

Lemma google_loop_core (l : list ChatMessage) (st st' : GoogleState) :
  core st = core st' -> core (google_loop st l) = core (google_loop st' l).
Proof.
  revert st st'. induction l as [|m r IH]; intros st st' H; [exact H|].
  simpl. apply IH. apply google_step_core. exact H.
Qed.

(** As long as no user message has been seen, nothing is emitted: assistant
    messages are skipped and system messages ignored. *)
Lemma google_loop_no_user (l : list ChatMessage) (st : GoogleState) :
  Forall (fun m => role m <> user) l ->
  core st = core google_initial ->
  core (google_loop st l) = core google_initial.
Proof.
  intros H. revert st. induction H as [|m r Hm _ IH]; intros st Hst; [exact Hst|].
  simpl. apply IH. rewrite <- Hst.
  destruct st as [c lr p]. unfold core in Hst. simpl in Hst.
  injection Hst as -> ->.
  destruct (role m) eqn:R; [| congruence |].
  - rewrite google_step_system by exact R. reflexivity.
  - rewrite google_step_skip by (try exact R; reflexivity). reflexivity.
Qed.

Lemma google_loop_app (st : GoogleState) (l1 l2 : list ChatMessage) :
  google_loop st (l1 ++ l2) = google_loop (google_loop st l1) l2.
Proof. unfold google_loop. apply fold_left_app. Qed.

Lemma ends_with_model_frame (front : list Turn) (x : Turn) (back : list Turn) :
  ends_with_model (front ++ x :: back) = ends_with_model (x :: back).
Proof. unfold ends_with_model. now rewrite last_opt_app_cons. Qed.

Lemma google_step_framed (front : list Turn) (st st' : GoogleState)
    (msg : ChatMessage) :
  framed front st st' -> framed front (google_step st msg) (google_step st' msg).
Proof.
  intros (x & back & Hc & Hc' & Hl).
  assert (Hlr : forall r, last_role_is st r = last_role_is st' r)
    by (intros r; unfold last_role_is; now rewrite Hl).
  assert (He : ends_with_model (contents st) = ends_with_model (contents st'))
    by (rewrite Hc, Hc'; apply ends_with_model_frame).
  destruct (role msg) eqn:R.
  - rewrite !google_step_system by exact R. exists x, back. simpl. auto.
  - rewrite !google_step_user by exact R. exists x, (back ++ [mkTurn "user" (content msg)]).
    simpl. rewrite Hc, Hc', <- app_assoc. auto.
  - destruct (last_role_is st' "user") eqn:L.
    + rewrite !google_step_reply by (rewrite ?Hlr; auto).
      exists x, (back ++ [mkTurn "model" (content msg)]).
      simpl. rewrite Hc, Hc', <- app_assoc. auto.
    + destruct (ends_with_model (contents st')) eqn:E.
      * rewrite !google_step_merge by (rewrite ?Hlr; auto).
        simpl. unfold merge_into_last. rewrite Hc, Hc', update_last_app_cons.
        set (f := fun t => mkTurn (turn_role t) (turn_text t ++ newline ++ content msg)).
        destruct back as [|y back'].
        -- exists (f x), []. simpl. auto.
        -- exists x, (update_last f (y :: back')). simpl. auto.
      * rewrite !google_step_skip by (rewrite ?Hlr; auto).
        exists x, back. simpl. auto.
Qed.

Lemma google_loop_framed (front : list Turn) (l : list ChatMessage)
    (st st' : GoogleState) :
  framed front st st' -> framed front (google_loop st l) (google_loop st' l).
Proof.
  revert st st'. induction l as [|m r IH]; intros st st' H; [exact H|].
  simpl. apply IH. apply google_step_framed. exact H.
Qed.

Lemma framed_contents (front : list Turn) (st st' : GoogleState) :
  framed front st st' -> contents st = front ++ contents st'.
Proof. intros (x & back & -> & -> & _). reflexivity. Qed.

(** From a state that ends with a model turn, the messages up to the next
    user message are merged into that turn, and the rest of the history is
    formatted behind it. *)
Lemma google_loop_after_model (post : list ChatMessage) (front : list Turn)
    (t : string) (p : list string) :
  contents (google_loop
              (mkGoogleState (front ++ [mkTurn "model" t]) (Some "model") p) post) =
  front ++ [mkTurn "model" (t ++ merged_suffix post)]
    ++ contents (google_loop google_initial (from_next_user post)).
Proof.
  revert t p. induction post as [|m r IH]; intros t p.
  - simpl. now rewrite append_empty_r.
  - change (google_loop ?st (m :: r)) with (google_loop (google_step st m) r).
    destruct (role m) eqn:R.
    + rewrite google_step_system by exact R. simpl contents. simpl last_role.
      rewrite IH. simpl. rewrite R. reflexivity.
    + rewrite google_step_user by exact R. simpl contents. simpl last_role.
      simpl merged_suffix. simpl from_next_user. rewrite R, append_empty_r.
      change (google_loop google_initial (m :: r))
        with (google_loop (google_step google_initial m) r).
      rewrite (google_step_user google_initial) by exact R.
      rewrite (framed_contents (front ++ [mkTurn "model" t])
                 _ (google_loop (mkGoogleState [mkTurn "user" (content m)]
                                   (Some "user") []) r)).
      * now rewrite <- app_assoc.
      * apply google_loop_framed.
        exists (mkTurn "user" (content m)), []. simpl. auto.
    + rewrite google_step_merge; try exact R; try reflexivity.
      * simpl contents. simpl last_role. unfold merge_into_last.
        rewrite update_last_app. simpl turn_role. simpl turn_text.
        rewrite IH. simpl. rewrite R, !append_assoc. reflexivity.
      * simpl. unfold ends_with_model. now rewrite last_opt_app.
Qed.

Lemma from_next_user_head (post : list ChatMessage) (m : ChatMessage)
    (r : list ChatMessage) :
  from_next_user post = m :: r -> role m = user.
Proof.
  induction post as [|x rest IH]; simpl; [discriminate|].
  destruct (role x) eqn:R; try exact IH.
  intros [= <- _]. exact R.
Qed.

(** A body that opens with a user turn keeps that turn in front. *)
Lemma google_loop_head_user (l : list ChatMessage) (c : string) (p : list string) :
  exists rest,
    contents (google_loop (mkGoogleState [mkTurn "user" c] (Some "user") p) l) =
    mkTurn "user" c :: rest.
Proof.
  revert p. induction l as [|m r IH]; intros p; [simpl; eauto|].
  change (google_loop ?st (m :: r)) with (google_loop (google_step st m) r).
  destruct (role m) eqn:R.
  - rewrite google_step_system by exact R. apply IH.
  - rewrite google_step_user by exact R. simpl contents. simpl printed.
    eexists.
    apply (framed_contents [mkTurn "user" c] _
             (google_loop (mkGoogleState [mkTurn "user" (content m)]
                             (Some "user") p) r)).
    apply google_loop_framed. exists (mkTurn "user" (content m)), []. simpl. auto.
  - rewrite google_step_reply by (try exact R; reflexivity).
    simpl contents. simpl printed. eexists.
    apply (framed_contents [mkTurn "user" c] _
             (google_loop (mkGoogleState [mkTurn "model" (content m)]
                             (Some "model") p) r)).
    apply google_loop_framed. exists (mkTurn "model" (content m)), []. simpl. auto.
Qed.

(** C6 (as amended).  When two consecutive assistant messages come right
    after a user message, the Provider C body holds one "model" turn for
    them, placed behind that user turn.  Its text starts with the two
    contents joined by a newline and goes on with a newline and the content
    of every further assistant message that comes before the next user
    message; it is exactly the two contents joined by a newline when the
    pair is at the end of the history or is followed by a user message.  The
    turn after it, if any, is a "user" turn, the one of that next user
    message. *)
Theorem google_consecutive_assistants_merge
    (pre post : list ChatMessage) (u a1 a2 : ChatMessage) :
  role u = user -> role a1 = assistant -> role a2 = assistant ->
  fst (google_format_messages (pre ++ u :: a1 :: a2 :: post)) =
    fst (google_format_messages pre)
    ++ [mkTurn "user" (content u);
        mkTurn "model" (content a1 ++ newline ++ content a2 ++ merged_suffix post)]
    ++ fst (google_format_messages (from_next_user post))
  /\ ((forall m r, post = m :: r -> role m = user) ->
      merged_suffix post = EmptyString)
  /\ (forall t rest,
       fst (google_format_messages (from_next_user post)) = t :: rest ->
       turn_role t = "user").
Proof.
  intros Hu H1 H2. split; [|split].
  - unfold google_format_messages. simpl fst.
    rewrite google_loop_app.
    set (st := google_loop google_initial pre).
    change (google_loop st (u :: a1 :: a2 :: post))
      with (google_loop
              (google_step (google_step (google_step st u) a1) a2) post).
    rewrite (google_step_user st) by exact Hu.
    rewrite (google_step_reply _ a1) by (try exact H1; reflexivity).
    rewrite google_step_merge; try exact H2; try reflexivity.
    + simpl contents. simpl last_role. unfold merge_into_last.
      rewrite update_last_app. simpl turn_role. simpl turn_text.
      rewrite (google_loop_after_model post (contents st ++ [mkTurn "user" (content u)])).
      rewrite <- !app_assoc, !append_assoc. reflexivity.
    + simpl. unfold ends_with_model. now rewrite last_opt_app.
  - intros H. destruct post as [|m r]; [reflexivity|].
    simpl. now rewrite (H m r eq_refl).
  - intros t rest. unfold google_format_messages. simpl fst.
    destruct (from_next_user post) as [|m r] eqn:E; [discriminate|].
    apply from_next_user_head in E.
    change (google_loop google_initial (m :: r))
      with (google_loop (google_step google_initial m) r).
    rewrite google_step_user by exact E.
    unfold google_initial. simpl contents. simpl printed. simpl app.
    destruct (google_loop_head_user r (content m) []) as [rest' ->].
    now intros [= <- _].
Qed.

(** C10.  An assistant message that reaches the loop when [last_role] is not
    "user" and the last emitted turn is not a "model" turn is skipped
    entirely: the request body is the one of the history without that
    message, and the line that announces the skip is printed.  (A history
    that begins with an assistant message is such a case: there [pre] is
    empty.) *)
Theorem google_stray_assistant_skipped
    (pre post : list ChatMessage) (msg : ChatMessage) :
  role msg = assistant ->
  last_role_is (google_loop google_initial pre) "user" = false ->
  ends_with_model (contents (google_loop google_initial pre)) = false ->
  fst (google_format_messages (pre ++ msg :: post)) =
    fst (google_format_messages (pre ++ post))
  /\ In (google_warn_skip msg (last_role (google_loop google_initial pre)))
        (snd (google_format_messages (pre ++ msg :: post)))
.
Proof.
  intros R L E.
  assert (Hcore : core (google_loop google_initial (pre ++ msg :: post)) =
                  core (google_loop google_initial (pre ++ post))).
  { rewrite !google_loop_app.
    change (google_loop ?st (msg :: post)) with (google_loop (google_step st msg) post).
    apply google_loop_core. rewrite google_step_skip by assumption. reflexivity. }
  assert (Hbody : fst (google_format_messages (pre ++ msg :: post)) =
                  fst (google_format_messages (pre ++ post))).
  { unfold google_format_messages. simpl. now inversion Hcore. }
  split; [exact Hbody|].
  - unfold google_format_messages. simpl snd.
    assert (Hin : In (google_warn_skip msg (last_role (google_loop google_initial pre)))
                    (printed (google_loop google_initial (pre ++ msg :: post)))).
    { rewrite google_loop_app.
      change (google_loop ?st (msg :: post)) with (google_loop (google_step st msg) post).
      rewrite google_step_skip by assumption.
      generalize (google_loop google_initial pre). intros st0.
      set (w := google_warn_skip msg (last_role st0)).
      assert (Hk : forall l st, In w (printed st) -> In w (printed (google_loop st l))).
      { induction l as [|m r IH]; intros st H; [exact H|].
        simpl. apply IH. unfold google_step.
        destruct (role m); simpl;
          repeat match goal with
                 | |- context [if ?b then _ else _] => destruct b; simpl
                 end; try apply in_or_app; auto. }
      apply Hk. simpl. apply in_or_app. right. simpl. auto. }
    match goal with
    | |- context [if ?b then _ else _] => destruct b
    end; [apply in_or_app; left|]; exact Hin.
Qed.

(** ** Provider B formatter *)

Lemma anthropic_loop (h : list ChatMessage) (formatted : list Entry)
    (system_prompt : option string) :
  fold_left anthropic_step h (formatted, system_prompt) =
  (formatted ++ map to_entry (filter non_system h),
   match system_prompt with
   | Some _ => system_prompt
   | None => first_system h
   end).
Proof.
  revert formatted system_prompt.
  induction h as [|m r IH]; intros formatted system_prompt.
  - simpl. rewrite app_nil_r. now destruct system_prompt.
  - simpl fold_left. destruct (role m) eqn:R; simpl; rewrite IH;
      unfold first_system, non_system; simpl; rewrite R; simpl.
    + destruct system_prompt; reflexivity.
    + unfold to_entry at 2. rewrite R, <- app_assoc. reflexivity.
    + unfold to_entry at 2. rewrite R, <- app_assoc. reflexivity.
Qed.

Lemma filter_head_find {A : Type} (p : A -> bool) (l : list A) :
  match filter p l with
  | [] => find p l = None
  | x :: _ => find p l = Some x
  end.
Proof.
  induction l as [|a r IH]; [reflexivity|].
  simpl. destruct (p a); [reflexivity|exact IH].
Qed.

(** C7.  When the first message that is not a system message is not a user
    message, or when no message is left once the system messages are
    removed, the Provider B formatter returns its request body all the same
    (the other messages in order, and the first system message as the system
    prompt) and prints the warning; the completion is not rejected but goes
    on to the provider call with that body. *)
Theorem anthropic_first_not_user_flagged (h : list ChatMessage) :
  (forall m, find non_system h = Some m -> role m <> user) ->
  anthropic_format_messages h =
    (mkAnthropicBody (map to_entry (filter non_system h)) (first_system h),
     [anthropic_warning])
  /\ forall c, provider c = Anthropic ->
       get_completion c h =
       (raw_response <-
          call_api c (AnthropicFormatted
                        (mkAnthropicBody (map to_entry (filter non_system h))
                           (first_system h))) ;;
        anthropic_parse_response raw_response).
Proof.
  intros H.
  assert (Hf : anthropic_format_messages h =
               (mkAnthropicBody (map to_entry (filter non_system h)) (first_system h),
                [anthropic_warning])).
  { unfold anthropic_format_messages. rewrite anthropic_loop. simpl app.
    replace (anthropic_anomaly (map to_entry (filter non_system h))) with true;
      [reflexivity|].
    pose proof (filter_head_find non_system h) as Hh.
    destruct (filter non_system h) as [|m r]; [reflexivity|].
    simpl. specialize (H m Hh). destruct (role m); simpl; congruence. }
  split; [exact Hf|].
  intros c Hc. unfold get_completion, format_messages. rewrite Hc, Hf. reflexivity.
Qed.

(** ** Credential resolver *)

Lemma get_api_key_never_raises (k : UserAPIKey) :
  exists v, get_api_key k = Ok v.
Proof.
  unfold get_api_key. destruct (negb _); [eauto|].
  destruct (fernet_decrypt _) as [plain|e]; simpl; [|eauto].
  destruct (bytes_decode plain); simpl; eauto.
Qed.

Lemma get_api_key_for_service_never_raises (db : Database) (u : Z)
    (service : string) :
  exists v, get_api_key_for_service db u service = Ok v.
Proof.
  unfold get_api_key_for_service, user_key_step.
  destruct (UserAPIKey_objects_get db u service) as [k|e]; simpl.
  - destruct (get_api_key_never_raises k) as [v ->]. simpl.
    destruct (truthy v); simpl; [destruct v|]; simpl;
      try destruct (truthy (system_key service)); eauto.
  - unfold try_except, isinstance. simpl.
    destruct (subclass (exn_cls e) DoesNotExist); simpl;
      destruct (truthy (system_key service)); eauto.
Qed.

Lemma key_matches_spec (u : Z) (service : string) (k : UserAPIKey) :
  key_matches u service k = true <-> key_user k = u /\ service_name k = service.
Proof.
  unfold key_matches. rewrite andb_true_iff, Z.eqb_eq, String.eqb_eq. reflexivity.
Qed.

Lemma filter_only_at {A : Type} (p : A -> bool) (l : list A) (i : nat) (x : A) :
  nth_error l i = Some x -> p x = true ->
  (forall j y, nth_error l j = Some y -> p y = true -> j = i) ->
  filter p l = [x].
Proof.
  revert i. induction l as [|a r IH]; intros [|i] Hi Hx Hu; simpl in Hi;
    try discriminate.
  - injection Hi as ->. simpl. rewrite Hx. f_equal.
    assert (Hr : forall y, In y r -> p y = false).
    { intros y Hy. destruct (p y) eqn:Hp; [|reflexivity].
      destruct (In_nth_error _ _ Hy) as [j Hj].
      specialize (Hu (S j) y Hj Hp). discriminate. }
    clear -Hr. induction r as [|b r IH]; simpl; [reflexivity|].
    rewrite (Hr b (or_introl eq_refl)). apply IH.
    intros y Hy. apply Hr. now right.
  - simpl. destruct (p a) eqn:Hp.
    + specialize (Hu 0%nat a eq_refl Hp). discriminate.
    + apply (IH i Hi Hx). intros j y Hj Hy.
      specialize (Hu (S j) y Hj Hy). now injection Hu.
Qed.

(** The row of (user, service) in a table that keeps [unique_together] is
    the one [objects.get] returns. *)
Lemma objects_get_unique_row (db : Database) (u : Z) (service : string)
    (entry : UserAPIKey) :
  unique_together (api_keys db) ->
  In entry (api_keys db) ->
  key_user entry = u -> service_name entry = service ->
  UserAPIKey_objects_get db u service = Ok entry.
Proof.
  intros Hunique Hin Hu Hs. unfold UserAPIKey_objects_get.
  destruct (In_nth_error _ _ Hin) as [i Hi].
  rewrite (filter_only_at (key_matches u service) (api_keys db) i entry Hi).
  - reflexivity.
  - apply key_matches_spec. auto.
  - intros j y Hj Hy. apply key_matches_spec in Hy. destruct Hy as [Hyu Hys].
    apply (Hunique j i y entry Hj Hi); congruence.
Qed.

(** C3.  When the table of keys, which keeps one row at most for a user
    and a service, holds a row for (user, provider) whose token is not
    empty and decrypts to a non-empty secret, the resolver returns that
    secret, whatever the settings and the environment hold for the
    provider. *)
Theorem user_key_preferred (db : Database) (u : Z) (service : string)
    (entry : UserAPIKey) (plain secret : string) :
  unique_together (api_keys db) ->
  In entry (api_keys db) ->
  key_user entry = u ->
  service_name entry = service ->
  encrypted_api_key entry <> EmptyString ->
  fernet_decrypt (encrypted_api_key entry) = Ok plain ->
  bytes_decode plain = Ok secret ->
  secret <> EmptyString ->
  get_api_key_for_service db u service = Ok (Some secret).
Proof.
  intros Hunique Hin Hu Hs Hblob Hdec Hdecode Hsecret.
  pose proof (objects_get_unique_row db u service entry Hunique Hin Hu Hs) as Hget.
  unfold get_api_key_for_service, user_key_step, get_api_key.
  rewrite Hget. simpl.
  apply nonempty_true in Hblob. rewrite Hblob. simpl.
  rewrite Hdec. simpl. rewrite Hdecode. simpl.
  apply nonempty_true in Hsecret. rewrite Hsecret. reflexivity.
Qed.

(** C4.  When the store holds a credential for (user, provider) whose
    decryption raises (in the cipher or in the decoding of the plain bytes),
    [get_api_key] answers [None] and the resolver raises nothing: it
    returns the system key found under the provider's name when that key is
    a non-empty string, and [None] otherwise. *)
Theorem decryption_failure_falls_back (db : Database) (u : Z) (service : string)
    (entry : UserAPIKey) (e : exn) :
  UserAPIKey_objects_get db u service = Ok entry ->
  (plain <- fernet_decrypt (encrypted_api_key entry) ;; bytes_decode plain)
    = Raise e ->
  get_api_key entry = Ok None
  /\ get_api_key_for_service db u service =
       Ok (if truthy (system_key service) then system_key service else None)
  /\ (forall k, system_key service = Some k -> k <> EmptyString ->
       get_api_key_for_service db u service = Ok (Some k))
  /\ (system_key service = None \/ system_key service = Some EmptyString ->
       get_api_key_for_service db u service = Ok None).
Proof.
  intros Hget Hfail.
  assert (Hkey : get_api_key entry = Ok None).
  { unfold get_api_key. destruct (negb _); [reflexivity|].
    destruct (fernet_decrypt _) as [plain|e0]; simpl in *; [|reflexivity].
    destruct (bytes_decode plain); simpl; [discriminate|reflexivity]. }
  assert (Hres : get_api_key_for_service db u service =
                 Ok (if truthy (system_key service) then system_key service else None)).
  { unfold get_api_key_for_service, user_key_step.
    rewrite Hget. simpl. rewrite Hkey. simpl.
    destruct (truthy (system_key service)); reflexivity. }
  split; [exact Hkey|]. split; [exact Hres|]. split.
  - intros k Hk Hne. rewrite Hres, Hk. simpl.
    apply nonempty_true in Hne. now rewrite Hne.
  - intros [Hk|Hk]; rewrite Hres, Hk; reflexivity.
Qed.

(** ** Parse steps *)

Lemma bind_inv {A B : Type} (m : result A) (f : A -> result B) (b : B) :
  bind m f = Ok b -> exists a, m = Ok a /\ f a = Ok b.
Proof. destruct m as [a|e]; simpl; [eauto|discriminate]. Qed.

Lemma try_except_raise_inv {A : Type} (body : result A) (cs : list exn_class)
    (c : exn_class) (msg : string) (a : A) :
  try_except body cs (fun _ => raise_ c msg) = Ok a -> body = Ok a.
Proof.
  unfold try_except. destruct body; [auto|].
  destruct (isinstance e cs); discriminate.
Qed.

Tactic Notation "binv" hyp(H) ident(x) :=
  apply bind_inv in H as (x & ? & H).

Lemma strip_method_trimmed (v : json) (t : string) :
  strip_method v = Ok t -> trimmed t.
Proof.
  destruct v; simpl; try discriminate. intros [= <-]. apply strip_trimmed.
Qed.

Lemma openai_returns_trimmed (response_data : json) (t : string) :
  openai_parse_response response_data = Ok (Some t) -> trimmed t.
Proof.
  intros H. apply try_except_raise_inv in H.
  binv H has_error. destruct has_error.
  - binv H details. binv H message. discriminate.
  - binv H choices. binv H choice. binv H message. binv H content.
    destruct (json_truthy content); [|discriminate].
    binv H text. injection H as <-. eapply strip_method_trimmed; eauto.
Qed.

Lemma anthropic_returns_trimmed (response_data : json) (t : string) :
  anthropic_parse_response response_data = Ok (Some t) -> trimmed t.
Proof.
  intros H. apply try_except_raise_inv in H.
  binv H type_. destruct (json_is_str "error" type_).
  - binv H details. binv H message. discriminate.
  - binv H blocks. binv H block. binv H block_type.
    destruct (json_is_str "text" block_type); [|discriminate].
    binv H text_value. binv H text. injection H as <-.
    eapply strip_method_trimmed; eauto.
Qed.

Lemma google_returns_trimmed (response_data : json) (t : string) :
  google_parse_response response_data = Ok (Some t) -> trimmed t.
Proof.
  intros H. apply try_except_raise_inv in H.
  binv H candidates. destruct (negb (json_truthy candidates)).
  - binv H message. discriminate.
  - binv H candidates'. binv H candidate. binv H finish_reason. binv H u.
    binv H body. binv H parts. binv H items. binv H texts. binv H strings.
    cbv zeta in H.
    match type of H with
    | context [if ?b then _ else _] => destruct b
    end; [|discriminate].
    injection H as <-. apply strip_trimmed.
Qed.

Lemma openai_parse_text (response_data : json) (s : string) :
  openai_text response_data s ->
  openai_parse_response response_data =
  Ok (if nonempty s then Some (strip s) else None).
Proof.
  intros (fields & choice & rest & message & -> & He & Hc & Hm & Hs).
  unfold openai_parse_response. simpl. rewrite He. simpl. rewrite Hc. simpl.
  rewrite Hm. simpl. rewrite Hs. simpl. destruct (nonempty s); reflexivity.
Qed.

Lemma anthropic_parse_text (response_data : json) (s : string) :
  anthropic_text response_data s ->
  anthropic_parse_response response_data = Ok (Some (strip s)).
Proof.
  intros (fields & block & rest & -> & He & Hc & Ht & Hs).
  unfold anthropic_parse_response. simpl. fold (get_or "type" fields JNull).
  rewrite He. simpl. rewrite Hc. simpl. rewrite Ht. simpl. rewrite Hs.
  reflexivity.
Qed.

Lemma google_parse_text (response_data : json) (s : string) :
  google_text response_data s ->
  google_parse_response response_data =
  Ok (if nonempty s then Some (strip s) else None).
Proof.
  intros (fields & candidate & rest & body & parts & texts & strings
          & -> & Hc & Hf & Hb & Hp & Ht & Hs & ->).
  unfold google_parse_response. simpl. rewrite Hc. simpl.
  fold (get_or "finishReason" candidate JNull). rewrite Hf.
  rewrite andb_false_r. simpl. rewrite Hb. simpl. rewrite Hp. simpl.
  rewrite Ht. simpl. rewrite Hs. simpl.
  destruct (nonempty _); reflexivity.
Qed.

(** C8.  The canned Provider A response parses to exactly the text
    "Hi there"; a Provider C response whose first candidate has finish
    reason SAFETY makes the parse step raise the safety-block [ValueError],
    so that no text is returned. *)
Theorem parse_canned_responses :
  openai_parse_response canned_openai_response = Ok (Some "Hi there")
  /\ forall response_data candidate,
       first_candidate_safety response_data candidate ->
       google_parse_response response_data =
       Raise (Exn ValueError
                (safety_block_message (get_or "safetyRatings" candidate (JArr [])))).
Proof.
  split; [reflexivity|].
  intros response_data candidate (fields & rest & -> & Hc & Hf).
  unfold google_parse_response. simpl. rewrite Hc. simpl. rewrite Hf.
  reflexivity.
Qed.

(** ** The turn *)

Lemma serializer_accepts_nonblank (f : Field) (c : string) :
  NewChatMessageSerializer f = inr c ->
  c <> EmptyString /\
  exists s, (f = FieldStr s \/ f = FieldNum s) /\ c = strip s.
Proof.
  destruct f as [| |s|s|]; simpl; try discriminate;
    (destruct (String.eqb_spec (strip s) EmptyString) as [E|E]; [discriminate|]);
    (destruct (has_nul (strip s)); [discriminate|]);
    intros [= <-]; eauto.
Qed.

(** The turn once the session is found and the content accepted: the user
    message is stored, and the answer of the AI step decides the rest. *)
Lemma add_message_accepted (db : Database) (request : Request) (clock : Clock)
    (session : ChatSession) (c : string) :
  get_object db (request_user request) (pk request) = Some session ->
  NewChatMessageSerializer (request_content request) = inr c ->
  let db1 := after_user_message db session c clock in
  let user_message := new_user_message db session c clock in
  add_message db request clock =
  match ai_step db1 (request_user request) session
          (session_messages db1 (session_id session)) with
  | Ok (Some a) =>
      if nonempty a then
        (Response201
           [user_message;
            mkChatMessage (next_message_id db + 1) (session_id session)
              assistant a (now_ai_message clock)],
         save_updated_at
           (snd (ChatMessage_objects_create db1 (session_id session) assistant a
                   (now_ai_message clock)))
           (session_id session) (now_session_save clock))
      else (Response200 "AI did not return a response." user_message, db1)
  | Ok None => (Response200 "AI did not return a response." user_message, db1)
  | Raise e =>
      if isinstance e [ValueError; RequestException] then
        (Response503 ("Failed to get response from AI service: " ++ exn_msg e), db1)
      else (Response500 "An unexpected server error occurred.", db1)
  end.
Proof.
  intros Hs Hc. unfold add_message. rewrite Hs, Hc. reflexivity.
Qed.

Lemma filter_assistant_user (l : list ChatMessage) (m : ChatMessage) :
  role m = user -> filter is_assistant (l ++ [m]) = filter is_assistant l.
Proof.
  intros H. rewrite filter_app. simpl. unfold is_assistant at 2. rewrite H.
  simpl. apply app_nil_r.
Qed.

(** C1.  A turn whose content the serializer accepts (it is then not empty)
    and whose AI step raises, whatever the exception, ends with the user
    message stored behind the messages that were there and with no assistant
    message added; the response is the 503 or the 500 failure. *)
Theorem user_message_survives_ai_failure (db : Database) (request : Request)
    (clock : Clock) (session : ChatSession) (c : string) (e : exn) :
  get_object db (request_user request) (pk request) = Some session ->
  NewChatMessageSerializer (request_content request) = inr c ->
  ai_step (after_user_message db session c clock) (request_user request) session
    (session_messages (after_user_message db session c clock) (session_id session))
    = Raise e ->
  c <> EmptyString
  /\ messages (snd (add_message db request clock)) =
       messages db ++ [new_user_message db session c clock]
  /\ filter is_assistant (messages (snd (add_message db request clock))) =
       filter is_assistant (messages db)
  /\ (status (fst (add_message db request clock)) = 503%Z
       \/ status (fst (add_message db request clock)) = 500%Z).
Proof.
  intros Hs Hc Hai.
  split; [apply (serializer_accepts_nonblank _ _ Hc)|].
  rewrite (add_message_accepted db request clock session c Hs Hc).
  cbv zeta. rewrite Hai.
  destruct (isinstance e [ValueError; RequestException]); simpl;
    (split; [reflexivity|]); (split; [now apply filter_assistant_user|]); auto.
Qed.

(** C2.  A turn posted with empty content changes nothing in the database:
    when the session is found the answer is the validation error "blank"
    (the only other answer is the 404 of a session that is not found). *)
Theorem empty_content_rejected (db : Database) (u k : Z) (clock : Clock) :
  snd (add_message db (mkRequest u k (FieldStr EmptyString)) clock) = db
  /\ fst (add_message db (mkRequest u k (FieldStr EmptyString)) clock) =
       match get_object db u k with
       | Some _ => Response400 "blank"
       | None => Response404
       end.
Proof.
  unfold add_message. simpl. destruct (get_object db u k); split; reflexivity.
Qed.

Lemma find_map_touch (now sid : Z) (u k : Z) (l : list ChatSession) :
  find (fun s => (session_id s =? k)%Z && (session_user s =? u)%Z)
    (map (touch now sid) l) =
  option_map (touch now sid)
    (find (fun s => (session_id s =? k)%Z && (session_user s =? u)%Z) l).
Proof.
  induction l as [|s r IH]; [reflexivity|].
  simpl. replace (session_id (touch now sid s)) with (session_id s)
    by (unfold touch; destruct (session_id s =? sid)%Z; reflexivity).
  replace (session_user (touch now sid s)) with (session_user s)
    by (unfold touch; destruct (session_id s =? sid)%Z; reflexivity).
  destruct ((session_id s =? k)%Z && (session_user s =? u)%Z); [reflexivity|exact IH].
Qed.

Lemma get_object_after_save (db : Database) (u k : Z) (session : ChatSession)
    (now : Z) :
  get_object db u k = Some session ->
  get_object (save_updated_at db (session_id session) now) u k =
  Some (with_updated_at session now).
Proof.
  unfold get_object, save_updated_at. simpl. intros H.
  rewrite find_map_touch, H. simpl. unfold touch, with_updated_at.
  now rewrite Z.eqb_refl.
Qed.

(** C5 (as amended).  The update timestamp of the conversation is refreshed
    exactly by the turns that store an assistant message: after a turn
    answered with 201 the messages are the old ones followed by the user
    message and the assistant message, and the conversation carries the time
    of the save as [updated_at] (a later value than before whenever that
    reading of the clock is later than the old value); after any other turn,
    among them the turns that stored the user message only, the sessions are
    unchanged and no assistant message was added. *)
Theorem updated_at_refreshed_with_assistant_message (db db' : Database)
    (request : Request) (clock : Clock) (resp : Response) :
  add_message db request clock = (resp, db') ->
  (status resp = 201%Z ->
   exists session c a,
     get_object db (request_user request) (pk request) = Some session /\
     messages db' =
       messages db ++
       [new_user_message db session c clock;
        mkChatMessage (next_message_id db + 1) (session_id session) assistant a
          (now_ai_message clock)] /\
     get_object db' (request_user request) (pk request) =
       Some (with_updated_at session (now_session_save clock)) /\
     (updated_at session < now_session_save clock ->
      updated_at session <
      updated_at (with_updated_at session (now_session_save clock)))%Z)
  /\ (status resp <> 201%Z ->
      sessions db' = sessions db /\
      filter is_assistant (messages db') = filter is_assistant (messages db)).
Proof.
  intros H.
  destruct (get_object db (request_user request) (pk request)) as [session|] eqn:Hs.
  2:{ unfold add_message in H. rewrite Hs in H. injection H as <- <-.
      split; [discriminate|auto]. }
  destruct (NewChatMessageSerializer (request_content request)) as [code|c] eqn:Hc.
  { unfold add_message in H. rewrite Hs, Hc in H. injection H as <- <-.
    split; [discriminate|auto]. }
  rewrite (add_message_accepted db request clock session c Hs Hc) in H.
  cbv zeta in H.
  destruct (ai_step _ _ _ _) as [[a|]|e].
  - destruct (nonempty a).
    + injection H as <- <-. split; [|simpl; congruence].
      intros _. exists session, c, a. split; [reflexivity|]. split.
      * simpl. unfold after_user_message. simpl. now rewrite <- app_assoc.
      * split; [|auto].
        apply (get_object_after_save
                 (snd (ChatMessage_objects_create (after_user_message db session c clock)
                         (session_id session) assistant a (now_ai_message clock)))).
        exact Hs.
    + injection H as <- <-. split; [discriminate|]. intros _.
      split; [reflexivity|]. now apply filter_assistant_user.
  - injection H as <- <-. split; [discriminate|]. intros _.
    split; [reflexivity|]. now apply filter_assistant_user.
  - destruct (isinstance e _); injection H as <- <-;
      (split; [discriminate|]); intros _;
      (split; [reflexivity|]); now apply filter_assistant_user.
Qed.

(** An answer that is [None] or the empty string stores no assistant
    message: the turn answers 200 with the user message alone. *)
Lemma falsy_answer_not_persisted (db : Database) (request : Request)
    (clock : Clock) (session : ChatSession) (c : string) (r : option string) :
  get_object db (request_user request) (pk request) = Some session ->
  NewChatMessageSerializer (request_content request) = inr c ->
  ai_step (after_user_message db session c clock) (request_user request) session
    (session_messages (after_user_message db session c clock) (session_id session))
    = Ok r ->
  truthy r = false ->
  add_message db request clock =
  (Response200 "AI did not return a response." (new_user_message db session c clock),
   after_user_message db session c clock).
Proof.
  intros Hs Hc Hai Hr.
  rewrite (add_message_accepted db request clock session c Hs Hc).
  cbv zeta. rewrite Hai. destruct r as [a|]; [|reflexivity].
  simpl in Hr. now rewrite Hr.
Qed.

(** C9 (as amended).  In every provider's parse step a returned text is
    trimmed of whitespace at both ends.  For a successful response with
    extracted text [s] the result is: for Providers A and C, absent when [s]
    is empty and the trimmed text otherwise; for Provider B, the trimmed
    text always.  So a text that is empty only after trimming comes back as
    the empty string, not as absent.  The turn handles both alike: an
    answer that is absent or the empty string stores no assistant message. *)
Theorem parse_trims_and_blank_text_is_empty_string :
  (forall p response_data t,
     parse_response p response_data = Ok (Some t) -> trimmed t)
  /\ (forall response_data s,
       openai_text response_data s ->
       parse_response OpenAI response_data =
       Ok (if nonempty s then Some (strip s) else None))
  /\ (forall response_data s,
       anthropic_text response_data s ->
       parse_response Anthropic response_data = Ok (Some (strip s)))
  /\ (forall response_data s,
       google_text response_data s ->
       parse_response Google response_data =
       Ok (if nonempty s then Some (strip s) else None))
  /\ (forall db request clock session c r,
       get_object db (request_user request) (pk request) = Some session ->
       NewChatMessageSerializer (request_content request) = inr c ->
       ai_step (after_user_message db session c clock) (request_user request)
         session
         (session_messages (after_user_message db session c clock)
            (session_id session)) = Ok r ->
       r = None \/ r = Some EmptyString ->
       snd (add_message db request clock) = after_user_message db session c clock).
Proof.
  split; [|split; [|split; [|split]]].
  - intros [] response_data t H.
    + now apply (openai_returns_trimmed response_data).
    + now apply (anthropic_returns_trimmed response_data).
    + now apply (google_returns_trimmed response_data).
  - intros response_data s H. now apply openai_parse_text.
  - intros response_data s H. now apply anthropic_parse_text.
  - intros response_data s H. now apply google_parse_text.
  - intros db request clock session c r Hs Hc Hai Hr.
    rewrite (falsy_answer_not_persisted db request clock session c r Hs Hc Hai);
      [reflexivity|].
    destruct Hr as [-> | ->]; reflexivity.
Qed.

(** * Further properties of the code *)

(** ** Ordered retrieval *)

Lemma insert_by_timestamp_perm (m : ChatMessage) (l : list ChatMessage) :
  Permutation (m :: l) (insert_by_timestamp m l).
Proof.
  induction l as [|x r IH]; simpl; [apply Permutation_refl|].
  destruct (timestamp m <? timestamp x)%Z; [apply Permutation_refl|].
  eapply perm_trans; [apply perm_swap|]. now apply perm_skip.
Qed.

Lemma insert_by_timestamp_sorted (m : ChatMessage) (l : list ChatMessage) :
  StronglySorted by_timestamp l ->
  StronglySorted by_timestamp (insert_by_timestamp m l).
Proof.
  induction 1 as [|x r Hs IH Hx]; simpl.
  - constructor; [constructor|constructor].
  - destruct (Z.ltb_spec (timestamp m) (timestamp x)) as [Hlt|Hge].
    + constructor; [now constructor|].
      constructor; [unfold by_timestamp; lia|].
      eapply Forall_impl; [|exact Hx]. unfold by_timestamp. intros; lia.
    + constructor; [exact IH|].
      eapply Permutation_Forall; [apply insert_by_timestamp_perm|].
      constructor; [exact Hge|exact Hx].
Qed.

Lemma order_by_timestamp_acc (l acc : list ChatMessage) :
  StronglySorted by_timestamp acc ->
  StronglySorted by_timestamp
    (fold_left (fun a m => insert_by_timestamp m a) l acc)
  /\ Permutation (acc ++ l)
       (fold_left (fun a m => insert_by_timestamp m a) l acc).
Proof.
  revert acc. induction l as [|m r IH]; intros acc Hacc; simpl.
  - rewrite app_nil_r. split; [exact Hacc|apply Permutation_refl].
  - destruct (IH (insert_by_timestamp m acc)
                (insert_by_timestamp_sorted m acc Hacc)) as [Hs Hp].
    split; [exact Hs|].
    eapply perm_trans; [|exact Hp].
    apply Permutation_trans with ((m :: acc) ++ r).
    + simpl. apply Permutation_sym, Permutation_middle.
    + apply Permutation_app_tail, insert_by_timestamp_perm.
Qed.

Lemma session_messages_sorted_perm (db : Database) (sid : Z) :
  StronglySorted by_timestamp (session_messages db sid)
  /\ Permutation (filter (in_session sid) (messages db)) (session_messages db sid)
  /\ (forall m, In m (session_messages db sid) <->
                In m (messages db) /\ msg_session m = sid).
Proof.
  unfold session_messages, order_by_timestamp.
  destruct (order_by_timestamp_acc
              (filter (fun m => (msg_session m =? sid)%Z) (messages db)) [])
    as [Hs Hp]; [constructor|].
  simpl in Hp. split; [exact Hs|]. split; [exact Hp|].
  intros m. split.
  - intros H. apply (Permutation_in _ (Permutation_sym Hp)) in H.
    apply filter_In in H. destruct H as [H1 H2]. split; [exact H1|].
    now apply Z.eqb_eq.
  - intros [H1 H2]. apply (Permutation_in _ Hp). apply filter_In.
    split; [exact H1|]. now apply Z.eqb_eq.
Qed.

(** X1.  The history handed to the model is in ascending creation time, and
    it holds the messages of the conversation, each as often as the table
    does, and no message of another conversation. *)
Theorem session_messages_ordered (db : Database) (sid : Z) :
  StronglySorted by_timestamp (session_messages db sid)
  /\ Permutation (filter (in_session sid) (messages db)) (session_messages db sid)
  /\ (forall m, In m (session_messages db sid) <->
                In m (messages db) /\ msg_session m = sid).
Proof. exact (session_messages_sorted_perm db sid). Qed.

(** ** The turn: what it writes and what it leaves alone *)

Lemma get_object_some (db : Database) (u k : Z) (session : ChatSession) :
  get_object db u k = Some session ->
  In session (sessions db) /\ session_id session = k /\ session_user session = u.
Proof.
  unfold get_object. intros H. apply find_some in H. destruct H as [Hin Hb].
  apply andb_true_iff in Hb. destruct Hb as [H1 H2].
  apply Z.eqb_eq in H1. apply Z.eqb_eq in H2. auto.
Qed.

(** The outcomes of a turn, one by one. *)
Lemma add_message_outcomes (db db' : Database) (request : Request)
    (clock : Clock) (resp : Response) :
  add_message db request clock = (resp, db') ->
  (resp = Response404 /\ db' = db /\
   get_object db (request_user request) (pk request) = None)
  \/ (exists code, resp = Response400 code /\ db' = db /\
       NewChatMessageSerializer (request_content request) = inl code)
  \/ exists session c,
       get_object db (request_user request) (pk request) = Some session /\
       NewChatMessageSerializer (request_content request) = inr c /\
       ((exists a,
           a <> EmptyString /\
           resp = Response201
                    [new_user_message db session c clock;
                     mkChatMessage (next_message_id db + 1) (session_id session)
                       assistant a (now_ai_message clock)] /\
           db' = save_updated_at
                   (snd (ChatMessage_objects_create
                           (after_user_message db session c clock)
                           (session_id session) assistant a (now_ai_message clock)))
                   (session_id session) (now_session_save clock))
        \/ ((status resp = 200 \/ status resp = 503 \/ status resp = 500)%Z /\
            db' = after_user_message db session c clock)).
Proof.
  intros H.
  destruct (get_object db (request_user request) (pk request)) as [session|] eqn:Hs.
  2:{ unfold add_message in H. rewrite Hs in H. injection H as <- <-. auto. }
  destruct (NewChatMessageSerializer (request_content request)) as [code|c] eqn:Hc.
  { unfold add_message in H. rewrite Hs, Hc in H. injection H as <- <-.
    right. left. eauto. }
  rewrite (add_message_accepted db request clock session c Hs Hc) in H.
  cbv zeta in H. right. right. exists session, c.
  split; [reflexivity|]. split; [reflexivity|].
  destruct (ai_step _ _ _ _) as [[a|]|e].
  - destruct (nonempty a) eqn:Ha.
    + injection H as <- <-. left. exists a. apply nonempty_true in Ha. auto.
    + injection H as <- <-. right. simpl. auto.
  - injection H as <- <-. right. simpl. auto.
  - destruct (isinstance e _); injection H as <- <-; right; simpl; auto.
Qed.

Lemma touch_other (now sid : Z) (s : ChatSession) :
  session_id s <> sid -> touch now sid s = s.
Proof.
  intros H. unfold touch. destruct (Z.eqb_spec (session_id s) sid); congruence.
Qed.

Lemma touch_id (now sid : Z) (s : ChatSession) :
  session_id (touch now sid s) = session_id s.
Proof. unfold touch. destruct (session_id s =? sid)%Z; reflexivity. Qed.

Lemma in_sessions_touched (now sid : Z) (l : list ChatSession) (s : ChatSession) :
  session_id s <> sid -> (In s (map (touch now sid) l) <-> In s l).
Proof.
  intros H. rewrite in_map_iff. split.
  - intros (x & Hx & Hin). subst s. rewrite touch_id in H.
    now rewrite touch_other.
  - intros Hin. exists s. split; [now apply touch_other|exact Hin].
Qed.

Lemma session_messages_frame (db db' : Database) (sid : Z)
    (added : list ChatMessage) :
  messages db' = messages db ++ added ->
  Forall (fun m => msg_session m <> sid) added ->
  session_messages db' sid = session_messages db sid.
Proof.
  intros Hm Hf. unfold session_messages. rewrite Hm, filter_app.
  replace (filter (fun m => (msg_session m =? sid)%Z) added) with (@nil ChatMessage);
    [now rewrite app_nil_r|].
  clear Hm. induction Hf as [|m r Hm' _ IH]; [reflexivity|].
  simpl. destruct (Z.eqb_spec (msg_session m) sid); [contradiction|exact IH].
Qed.

(** X2.  Whatever its outcome, a turn leaves the stored keys alone, keeps
    every stored message in place and only appends behind them, at most two
    messages and all of the addressed conversation; the histories of the
    other conversations and the rows of the other sessions are unchanged. *)
Theorem turn_frame (db db' : Database) (request : Request) (clock : Clock)
    (resp : Response) :
  add_message db request clock = (resp, db') ->
  api_keys db' = api_keys db
  /\ (exists added,
        messages db' = messages db ++ added /\
        (length added <= 2)%nat /\
        Forall (fun m => msg_session m = pk request) added)
  /\ (forall sid, sid <> pk request ->
                  session_messages db' sid = session_messages db sid)
  /\ (forall s, session_id s <> pk request ->
                (In s (sessions db') <-> In s (sessions db))).
Proof.
  intros H.
  assert (Hadded : api_keys db' = api_keys db /\
                   (exists added,
                      messages db' = messages db ++ added /\
                      (length added <= 2)%nat /\
                      Forall (fun m => msg_session m = pk request) added) /\
                   (forall s, session_id s <> pk request ->
                              (In s (sessions db') <-> In s (sessions db)))).
  { destruct (add_message_outcomes _ _ _ _ _ H)
      as [(_ & -> & _) | [(code & _ & -> & _) | (session & c & Hs & _ & Hcase)]].
    - split; [reflexivity|]. split; [|intros s _; reflexivity].
      exists []. rewrite app_nil_r. simpl. auto.
    - split; [reflexivity|]. split; [|intros s _; reflexivity].
      exists []. rewrite app_nil_r. simpl. auto.
    - destruct (get_object_some _ _ _ _ Hs) as (_ & Hid & _).
      destruct Hcase as [(a & _ & _ & ->) | (_ & ->)].
      + split; [reflexivity|]. split.
        * eexists. simpl. unfold after_user_message. simpl.
          rewrite <- app_assoc. split; [reflexivity|].
          split; [simpl; lia|]. repeat constructor; exact Hid.
        * intros s Hne. simpl. apply in_sessions_touched. congruence.
      + split; [reflexivity|]. split; [|intros s _; reflexivity].
        eexists. unfold after_user_message. simpl. split; [reflexivity|].
        split; [simpl; lia|]. repeat constructor; exact Hid. }
  destruct Hadded as (Hk & (added & Hm & Hl & Hf) & Hsess).
  split; [exact Hk|]. split; [eauto|]. split; [|exact Hsess].
  intros sid Hne. apply (session_messages_frame db db' sid added Hm).
  eapply Forall_impl; [|exact Hf]. simpl. intros m ->. congruence.
Qed.

Lemma app_nonempty_neq {A : Type} (l : list A) (x : A) (r : list A) :
  l ++ x :: r <> l.
Proof.
  intros H. apply (f_equal (@length A)) in H. rewrite length_app in H.
  simpl in H. lia.
Qed.

(** X3.  A turn writes to the database exactly when it is not rejected: the
    database is unchanged if and only if the answer is 400 or 404.  When it
    is not rejected the content was a string, or a number, whose text is
    not blank, and the stored user message holds that text trimmed of
    whitespace at both ends. *)
Theorem turn_writes_iff_accepted (db db' : Database) (request : Request)
    (clock : Clock) (resp : Response) :
  add_message db request clock = (resp, db') ->
  (db' = db <-> (status resp = 400 \/ status resp = 404)%Z)
  /\ (db' <> db ->
      exists session s,
        (request_content request = FieldStr s
         \/ request_content request = FieldNum s) /\
        strip s <> EmptyString /\
        In (new_user_message db session (strip s) clock) (messages db') /\
        trimmed (content (new_user_message db session (strip s) clock))).
Proof.
  intros H.
  destruct (add_message_outcomes _ _ _ _ _ H)
    as [(-> & -> & _) | [(code & -> & -> & _) | (session & c & _ & Hc & Hcase)]].
  - split; [split; [intros _; simpl; auto|reflexivity]|congruence].
  - split; [split; [intros _; simpl; auto|reflexivity]|congruence].
  - destruct (serializer_accepts_nonblank _ _ Hc) as (Hne & s & Hs & ->).
    assert (Hin : In (new_user_message db session (strip s) clock) (messages db') /\
                  db' <> db /\ ~ (status resp = 400 \/ status resp = 404)%Z).
    { destruct Hcase as [(a & _ & -> & ->) | (Hst & ->)].
      - split; [|split].
        + simpl. apply in_or_app. left. apply in_or_app. right. simpl. auto.
        + intros E. apply (f_equal messages) in E. simpl in E.
          rewrite <- app_assoc in E. simpl in E.
          exact (app_nonempty_neq _ _ _ E).
        + simpl. intros [?|?]; discriminate.
      - split; [|split].
        + unfold after_user_message. simpl. apply in_or_app. right. simpl. auto.
        + intros E. apply (f_equal messages) in E.
          unfold after_user_message in E. simpl in E.
          exact (app_nonempty_neq _ _ _ E).
        + intros [?|?]; destruct Hst as [?|[?|?]]; congruence. }
    destruct Hin as (Hin & Hneq & Hst).
    split; [split; intros E; contradiction|].
    intros _. exists session, s. split; [exact Hs|]. split; [exact Hne|].
    split; [exact Hin|]. simpl. apply strip_trimmed.
Qed.

(** X4.  Content that is missing, null, a boolean, a list or an object, or
    a string that is blank once trimmed (whitespace only) is rejected like
    empty content: nothing is written and the answer is 400 or 404.  A
    number is not rejected: its text is taken like a string, and the turn
    stores it as the user message. *)
Theorem unusable_content_rejected (db : Database) (request : Request)
    (clock : Clock) :
  ((forall s, request_content request = FieldStr s
              \/ request_content request = FieldNum s ->
              strip s = EmptyString) ->
   snd (add_message db request clock) = db
   /\ (status (fst (add_message db request clock)) = 400
       \/ status (fst (add_message db request clock)) = 404)%Z)
  /\ (forall t session,
       request_content request = FieldNum t ->
       strip t <> EmptyString -> has_nul (strip t) = false ->
       get_object db (request_user request) (pk request) = Some session ->
       In (new_user_message db session (strip t) clock)
         (messages (snd (add_message db request clock)))).
Proof.
  split.
  - intros H. unfold add_message.
    destruct (get_object db (request_user request) (pk request)); [|simpl; auto].
    destruct (request_content request) as [| |s|s|] eqn:E; simpl; auto.
    + rewrite (H s (or_introl eq_refl)). simpl. auto.
    + rewrite (H s (or_intror eq_refl)). simpl. auto.
  - intros t session Hc Ht Hn Hs.
    assert (Hser : NewChatMessageSerializer (request_content request) = inr (strip t)).
    { rewrite Hc. simpl. apply String.eqb_neq in Ht. now rewrite Ht, Hn. }
    destruct (add_message db request clock) as [resp db'] eqn:H.
    destruct (add_message_outcomes _ _ _ _ _ H)
      as [(_ & _ & Hg) | [(code & _ & _ & Hser') | (session' & c & Hs' & Hc' & Hcase)]];
      [congruence|congruence|].
    rewrite Hs in Hs'. injection Hs' as <-.
    rewrite Hser in Hc'. injection Hc' as <-. simpl.
    destruct Hcase as [(a & _ & _ & ->) | (_ & ->)].
    + simpl. apply in_or_app. left. apply in_or_app. right. simpl. auto.
    + unfold after_user_message. simpl. apply in_or_app. right. simpl. auto.
Qed.

Lemma openai_format_all (h : list ChatMessage) :
  openai_format_messages h = map to_entry h.
Proof.
  unfold openai_format_messages.
  replace (filter (fun msg => role_in msg ["user"; "assistant"; "system"]) h) with h;
    [reflexivity|].
  induction h as [|m r IH]; [reflexivity|].
  cbn [filter]. replace (role_in m ["user"; "assistant"; "system"]) with true
    by (unfold role_in; destruct (role m); reflexivity).
  f_equal. exact IH.
Qed.

Lemma new_message_in_history (db : Database) (session : ChatSession)
    (c : string) (clock : Clock) :
  In (new_user_message db session c clock)
    (session_messages (after_user_message db session c clock) (session_id session)).
Proof.
  apply session_messages_sorted_perm. split.
  - unfold after_user_message. simpl. apply in_or_app. right. simpl. auto.
  - reflexivity.
Qed.

Lemma turn_payload_not_empty (p : Provider) (db : Database)
    (session : ChatSession) (c : string) (clock : Clock) :
  formatted_is_empty
    (format_messages p
       (session_messages (after_user_message db session c clock)
          (session_id session))) = false.
Proof.
  pose proof (new_message_in_history db session c clock) as Hin.
  destruct p; try reflexivity.
  simpl. rewrite openai_format_all.
  destruct (session_messages _ _); [destruct Hin|reflexivity].
Qed.

(** X5.  The empty-payload guard of [get_completion].  On an empty history
    the Provider A client raises the [ValueError] of the guard and the
    request is never built, while the Provider B and C clients pass the
    guard (their body is a dict with keys) and send a body without any
    message.  Inside a turn the guard never fires, for any provider: the
    history holds at least the user message just stored. *)
Theorem empty_payload_guard :
  (forall c, provider c = OpenAI ->
     get_completion c [] =
     Raise (Exn ValueError "Message formatting resulted in empty payload."))
  /\ (forall c, provider c = Anthropic ->
       get_completion c [] =
       (raw_response <-
          call_api c (AnthropicFormatted (mkAnthropicBody [] None)) ;;
        anthropic_parse_response raw_response))
  /\ (forall c, provider c = Google ->
       get_completion c [] =
       (raw_response <- call_api c (GoogleFormatted []) ;;
        google_parse_response raw_response))
  /\ (forall p db session c clock,
       formatted_is_empty
         (format_messages p
            (session_messages (after_user_message db session c clock)
               (session_id session))) = false).
Proof.
  split; [|split; [|split]].
  - intros c Hc. unfold get_completion. rewrite Hc. reflexivity.
  - intros c Hc. unfold get_completion. rewrite Hc. reflexivity.
  - intros c Hc. unfold get_completion. rewrite Hc. reflexivity.
  - intros p db session c clock. apply turn_payload_not_empty.
Qed.

(** X6.  A user reaches only sessions of their own: when every session with
    the requested key belongs to someone else (or no session has that key),
    posting a message, retrieving and deleting all answer 404 and the
    database is unchanged. *)
Theorem foreign_session_not_found (db : Database) (request : Request)
    (clock : Clock) :
  (forall s, In s (sessions db) -> session_id s = pk request ->
             session_user s <> request_user request) ->
  add_message db request clock = (Response404, db)
  /\ retrieve db (request_user request) (pk request) = SessionResponse404
  /\ destroy db (request_user request) (pk request) = (SessionResponse404, db).
Proof.
  intros H.
  assert (Hg : get_object db (request_user request) (pk request) = None).
  { destruct (get_object db (request_user request) (pk request)) as [s|] eqn:E;
      [|reflexivity].
    destruct (get_object_some _ _ _ _ E) as (Hin & Hid & Hu).
    exfalso. exact (H s Hin Hid Hu). }
  unfold add_message, retrieve, destroy. rewrite Hg. auto.
Qed.

(** ** Credential resolver and client factory *)

Ltac key_case :=
  eexists; split;
  [reflexivity
  |first [left; reflexivity
         |right; eexists; split; [reflexivity|assumption]]].

(** X7.  The resolver never raises, and what it returns is a key a client
    can use or nothing: never the empty string. *)
Theorem resolver_returns_usable_key_or_none (db : Database) (u : Z)
    (service : string) :
  exists v,
    get_api_key_for_service db u service = Ok v /\
    (v = None \/ exists k, v = Some k /\ k <> EmptyString).
Proof.
  unfold get_api_key_for_service.
  assert (Hstep : exists w, user_key_step db u service = Ok w /\
                            (w = None \/ exists k, w = Some k /\ k <> EmptyString)).
  { unfold user_key_step.
    destruct (UserAPIKey_objects_get db u service) as [entry|e]; simpl.
    - destruct (get_api_key_never_raises entry) as [v ->]. simpl.
      destruct v as [k|]; simpl; [|key_case].
      destruct (nonempty k) eqn:Hk; [|key_case].
      apply nonempty_true in Hk. key_case.
    - unfold try_except, isinstance. simpl.
      destruct (subclass (exn_cls e) DoesNotExist); simpl; key_case. }
  destruct Hstep as (w & -> & Hw). simpl.
  destruct Hw as [-> | (k & -> & Hk)]; [|key_case].
  destruct (system_key service) as [k|] eqn:Hs; simpl; [|key_case].
  destruct (nonempty k) eqn:Hk; [|key_case].
  apply nonempty_true in Hk. key_case.
Qed.

Lemma fallback_without_user_key (db : Database) (u : Z) (service : string) :
  (forall entry secret,
     UserAPIKey_objects_get db u service = Ok entry ->
     get_api_key entry = Ok (Some secret) -> secret = EmptyString) ->
  get_api_key_for_service db u service = Ok (system_fallback service).
Proof.
  intros H. unfold get_api_key_for_service, user_key_step, system_fallback.
  destruct (UserAPIKey_objects_get db u service) as [entry|e]; simpl.
  - destruct (get_api_key_never_raises entry) as [v Hv]. rewrite Hv. simpl.
    destruct v as [k|]; simpl.
    + rewrite (H entry k eq_refl Hv). simpl.
      destruct (truthy (system_key service)); reflexivity.
    + destruct (truthy (system_key service)); reflexivity.
  - unfold try_except, isinstance. simpl.
    destruct (subclass (exn_cls e) DoesNotExist); simpl;
      destruct (truthy (system_key service)); reflexivity.
Qed.

(** X8.  Whenever the store gives no usable key for (user, provider), the
    system key decides: this covers a missing row, several rows for the
    pair, a row with an empty token, a token that does not decrypt and a
    token that decrypts to the empty string. *)
Theorem no_usable_user_key_falls_back (db : Database) (u : Z) (service : string) :
  (forall entry secret,
     UserAPIKey_objects_get db u service = Ok entry ->
     get_api_key entry = Ok (Some secret) -> secret = EmptyString) ->
  get_api_key_for_service db u service = Ok (system_fallback service).
Proof. exact (fallback_without_user_key db u service). Qed.

Lemma resolver_reads_keys_only (db db' : Database) (u : Z) (service : string) :
  api_keys db' = api_keys db ->
  get_api_key_for_service db' u service = get_api_key_for_service db u service.
Proof.
  intros H. unfold get_api_key_for_service, user_key_step, UserAPIKey_objects_get.
  now rewrite H.
Qed.

Lemma get_ai_client_reads_keys_only (db db' : Database) (u : Z) (model_id : string) :
  api_keys db' = api_keys db ->
  get_ai_client db' u model_id = get_ai_client db u model_id.
Proof.
  intros H. unfold get_ai_client, BaseAIClient_init.
  now rewrite (resolver_reads_keys_only db db' u _ H).
Qed.

(** X9.  A client that the factory returns always carries a non-empty key,
    the one the resolver gives for the provider token of the identifier, and
    its provider is the one named by that token. *)
Theorem built_client_has_key (db : Database) (u : Z) (model_id : string)
    (c : Client) :
  get_ai_client db u model_id = Ok c ->
  api_key c <> EmptyString
  /\ get_api_key_for_service db u (split_head model_id) = Ok (Some (api_key c))
  /\ split_head model_id = provider_token (provider c)
  /\ model_identifier c = model_id
  /\ client_user c = u
  /\ client_service_name c = split_head model_id.
Proof.
  unfold get_ai_client.
  assert (Hinit : forall p, BaseAIClient_init p db u model_id = Ok c ->
            api_key c <> EmptyString
            /\ get_api_key_for_service db u (split_head model_id) = Ok (Some (api_key c))
            /\ provider c = p /\ model_identifier c = model_id
            /\ client_user c = u /\ client_service_name c = split_head model_id).
  { intros p. unfold BaseAIClient_init.
    destruct (get_api_key_for_service db u (split_head model_id)) as [[k|]|e];
      simpl; try discriminate.
    destruct (nonempty k) eqn:Hk; [|discriminate].
    intros [= <-]. simpl. apply nonempty_true in Hk. repeat split; auto. }
  destruct (String.eqb_spec (split_head model_id) "openai") as [E|_].
  { intros H. destruct (Hinit _ H) as (? & ? & -> & ? & ? & ?). repeat split; auto. }
  destruct (String.eqb_spec (split_head model_id) "anthropic") as [E|_].
  { intros H. destruct (Hinit _ H) as (? & ? & -> & ? & ? & ?). repeat split; auto. }
  destruct (String.eqb_spec (split_head model_id) "google") as [E|_].
  { intros H. destruct (Hinit _ H) as (? & ? & -> & ? & ? & ?). repeat split; auto. }
  discriminate.
Qed.

(** X10.  Configuration errors of a turn.  When the provider token of the
    session's model identifier is none of the three known ones, or when it
    is known but the resolver finds no key, the turn stores the user
    message and answers 503 with the message of the [ValueError]. *)
Theorem configuration_errors_answer_503 (db : Database) (request : Request)
    (clock : Clock) (session : ChatSession) (c : string) :
  get_object db (request_user request) (pk request) = Some session ->
  NewChatMessageSerializer (request_content request) = inr c ->
  let token := split_head (ai_model_identifier session) in
  (supported_service token = false ->
   add_message db request clock =
   (Response503
      ("Failed to get response from AI service: Unsupported AI service: " ++ token),
    after_user_message db session c clock))
  /\ (supported_service token = true ->
      get_api_key_for_service db (request_user request) token = Ok None ->
      add_message db request clock =
      (Response503
         ("Failed to get response from AI service: API Key for service '"
          ++ token ++ "' is missing."),
       after_user_message db session c clock)).
Proof.
  intros Hs Hc token.
  rewrite (add_message_accepted db request clock session c Hs Hc). cbv zeta.
  unfold ai_step.
  rewrite (get_ai_client_reads_keys_only db (after_user_message db session c clock))
    by reflexivity.
  unfold get_ai_client, supported_service. fold token. split.
  - intros H. apply orb_false_iff in H. destruct H as [H H3].
    apply orb_false_iff in H. destruct H as [H1 H2].
    rewrite H1, H2, H3. reflexivity.
  - intros H Hkey. unfold BaseAIClient_init. fold token. rewrite Hkey.
    destruct (token =? "openai"); [reflexivity|].
    destruct (token =? "anthropic"); [reflexivity|].
    destruct (token =? "google"); [reflexivity|discriminate].
Qed.

(** X11.  The model map of the Provider C client never applies: its keys
    carry no "google_" prefix while the lookup key always does, so the
    model name sent to the provider is the internal one. *)
Theorem model_map_never_applies (c : Client) :
  get_model_name_for_api c = get_model_name c.
Proof.
  unfold get_model_name_for_api. destruct (get_model_name c) as [n|]; reflexivity.
Qed.

(** ** The turn from end to end *)

(** X12.  A user without a stored key, on a Provider A session, with a
    system key configured: the request goes out with that key as bearer
    token, with the model name taken from the identifier and with the whole
    ordered history; when the provider answers with a text that is not
    blank, the turn stores the user message and the trimmed answer, answers
    201 with both, and refreshes the session. *)
Theorem turn_succeeds_on_system_key (db : Database) (request : Request)
    (clock : Clock) (session : ChatSession) (c name key s : string)
    (response_data : json) :
  get_object db (request_user request) (pk request) = Some session ->
  ai_model_identifier session = ("openai_" ++ name)%string ->
  NewChatMessageSerializer (request_content request) = inr c ->
  filter (key_matches (request_user request) "openai") (api_keys db) = [] ->
  system_key "openai" = Some key -> key <> EmptyString ->
  requests_post
    (mkHttpRequest "https://api.openai.com/v1/chat/completions"
       [("Authorization", ("Bearer " ++ key)%string);
        ("Content-Type", "application/json")]
       (OpenAIPayload (Some name)
          (map to_entry
             (session_messages (after_user_message db session c clock)
                (session_id session))))
       90) = Ok response_data ->
  openai_text response_data s -> strip s <> EmptyString ->
  add_message db request clock =
  (Response201
     [new_user_message db session c clock;
      mkChatMessage (next_message_id db + 1) (session_id session) assistant
        (strip s) (now_ai_message clock)],
   save_updated_at
     (snd (ChatMessage_objects_create (after_user_message db session c clock)
             (session_id session) assistant (strip s) (now_ai_message clock)))
     (session_id session) (now_session_save clock)).
Proof.
  intros Hs Hid Hc Hnokey Hsys Hkey Hpost Htext Hstrip.
  rewrite (add_message_accepted db request clock session c Hs Hc). cbv zeta.
  assert (Hres : get_api_key_for_service db (request_user request) "openai"
                 = Ok (Some key)).
  { rewrite fallback_without_user_key.
    - unfold system_fallback. rewrite Hsys. simpl.
      apply nonempty_true in Hkey. now rewrite Hkey.
    - unfold UserAPIKey_objects_get. rewrite Hnokey. discriminate. }
  assert (Hne : s <> EmptyString) by (intros ->; apply Hstrip; reflexivity).
  unfold ai_step.
  rewrite (get_ai_client_reads_keys_only db (after_user_message db session c clock))
    by reflexivity.
  rewrite Hid. unfold get_ai_client, BaseAIClient_init. simpl split_head.
  simpl String.eqb. rewrite Hres. simpl.
  apply nonempty_true in Hkey. rewrite Hkey. simpl.
  unfold get_completion. simpl provider. unfold format_messages.
  rewrite openai_format_all.
  pose proof (new_message_in_history db session c clock) as Hin.
  destruct (session_messages (after_user_message db session c clock)
              (session_id session)) as [|m0 rest] eqn:Hhist; [destruct Hin|].
  simpl formatted_is_empty. cbv iota.
  unfold call_api, build_request, get_model_name. simpl model_identifier.
  simpl api_key. simpl split_tail. rewrite Hpost. simpl.
  rewrite (openai_parse_text response_data s Htext).
  apply nonempty_true in Hne. rewrite Hne.
  apply nonempty_true in Hstrip. rewrite Hstrip. reflexivity.
Qed.

(** X13.  An exception of the transport passes through the client as it is
    (the parse step is not reached).  The turn keeps the user message and
    answers 503 with the message of the exception when it is a
    [RequestException] or a [ValueError], and 500 with a fixed text that
    does not show the message otherwise. *)
Theorem transport_errors_surface (db : Database) (request : Request)
    (clock : Clock) (session : ChatSession) (c : string) (client : Client)
    (e : exn) :
  get_object db (request_user request) (pk request) = Some session ->
  NewChatMessageSerializer (request_content request) = inr c ->
  get_ai_client db (request_user request) (ai_model_identifier session) = Ok client ->
  requests_post
    (build_request client
       (format_messages (provider client)
          (session_messages (after_user_message db session c clock)
             (session_id session)))) = Raise e ->
  get_completion client
    (session_messages (after_user_message db session c clock) (session_id session))
    = Raise e
  /\ add_message db request clock =
     (if isinstance e [ValueError; RequestException]
      then Response503 ("Failed to get response from AI service: " ++ exn_msg e)
      else Response500 "An unexpected server error occurred.",
      after_user_message db session c clock).
Proof.
  intros Hs Hc Hclient Hpost.
  assert (Hcomp : get_completion client
                    (session_messages (after_user_message db session c clock)
                       (session_id session)) = Raise e).
  { unfold get_completion. cbv zeta.
    rewrite turn_payload_not_empty.
    unfold call_api. rewrite Hpost. unfold try_except, isinstance. simpl.
    destruct (subclass (exn_cls e) RequestException); reflexivity. }
  split; [exact Hcomp|].
  rewrite (add_message_accepted db request clock session c Hs Hc). cbv zeta.
  unfold ai_step.
  rewrite (get_ai_client_reads_keys_only db (after_user_message db session c clock))
    by reflexivity.
  rewrite Hclient. simpl bind. rewrite Hcomp.
  destruct (isinstance e [ValueError; RequestException]); reflexivity.
Qed.

(** ** Parse steps: what they raise *)

Lemma raises_only_ok {A : Type} (cs : list exn_class) (a : A) :
  raises_only cs (Ok a).
Proof. intros e H. discriminate. Qed.

Lemma raises_only_raise {A : Type} (cs : list exn_class) (c : exn_class)
    (msg : string) :
  In c cs -> raises_only cs (@raise_ A c msg).
Proof. intros Hc e [= <-]. exact Hc. Qed.

Lemma raises_only_bind {A B : Type} (cs : list exn_class) (m : result A)
    (f : A -> result B) :
  raises_only cs m -> (forall a, raises_only cs (f a)) -> raises_only cs (bind m f).
Proof.
  intros Hm Hf e. destruct m as [a|e0]; simpl; [apply Hf|].
  intros [= <-]. now apply Hm.
Qed.

Ltac raised := apply raises_only_raise; unfold body_classes; simpl; auto 8.

Lemma subscript_raises (v : json) (k : string) :
  raises_only body_classes (subscript v k).
Proof.
  destruct v; simpl; try raised.
  destruct (assoc k l); [apply raises_only_ok|raised].
Qed.

Lemma subscript0_raises (v : json) : raises_only body_classes (subscript0 v).
Proof.
  destruct v as [| | |s|l|l]; simpl; try raised.
  - destruct s; [raised|apply raises_only_ok].
  - destruct l; [raised|apply raises_only_ok].
Qed.

Lemma get_method_raises (v : json) (k : string) (d : json) :
  raises_only body_classes (get_method v k d).
Proof. destruct v; simpl; try raised. apply raises_only_ok. Qed.

Lemma contains_raises (k : string) (v : json) :
  raises_only body_classes (contains k v).
Proof. destruct v; simpl; try raised; apply raises_only_ok. Qed.

Lemma strip_method_raises (v : json) : raises_only body_classes (strip_method v).
Proof. destruct v; simpl; try raised. apply raises_only_ok. Qed.

Lemma iterate_raises (v : json) : raises_only body_classes (iterate v).
Proof. destruct v; simpl; try raised; apply raises_only_ok. Qed.

Lemma iadd_str_raises (v : json) (s : string) :
  raises_only body_classes (iadd_str v s).
Proof. destruct v; simpl; try raised; apply raises_only_ok. Qed.

Lemma as_strings_raises (l : list json) : raises_only body_classes (as_strings l).
Proof.
  induction l as [|x r IH]; simpl; [apply raises_only_ok|].
  destruct x; try raised.
  apply raises_only_bind; [exact IH|intros; apply raises_only_ok].
Qed.

Lemma text_parts_raises (l : list json) : raises_only body_classes (text_parts l).
Proof.
  induction l as [|x r IH]; simpl; [apply raises_only_ok|].
  apply raises_only_bind; [apply contains_raises|]. intros [|]; [|exact IH].
  apply raises_only_bind; [apply subscript_raises|]. intros t.
  apply raises_only_bind; [exact IH|intros; apply raises_only_ok].
Qed.

Ltac raises_step :=
  first
    [ apply raises_only_ok
    | raised
    | apply subscript_raises | apply subscript0_raises | apply get_method_raises
    | apply contains_raises | apply strip_method_raises | apply iterate_raises
    | apply iadd_str_raises | apply as_strings_raises | apply text_parts_raises
    | apply raises_only_bind; [|intros ?]
    | match goal with
      | |- raises_only _ (if ?b then _ else _) => destruct b
      | |- raises_only _ (let _ := _ in _) => cbv zeta
      end ].

Lemma google_error_message_raises (response_data : json) :
  raises_only body_classes (google_error_message response_data).
Proof. unfold google_error_message. repeat raises_step. Qed.

Ltac raises :=
  repeat first [apply google_error_message_raises | raises_step].

Lemma parse_handler_raises (body : result (option string)) (msg : string) :
  raises_only body_classes body ->
  raises_only [ValueError; AttributeError]
    (try_except body parse_errors (fun _ => raise_ ValueError msg)).
Proof.
  intros Hb e. unfold try_except. destruct body as [a|e0]; [discriminate|].
  specialize (Hb e0 eq_refl). unfold isinstance, parse_errors.
  destruct e0 as [cls m]. simpl in *.
  destruct Hb as [<-|[<-|[<-|[<-|[<-|[]]]]]]; simpl; intros [= <-]; simpl; auto.
Qed.

(** X14.  A parse step raises nothing but [ValueError] (a provider error, a
    safety block, a response of the wrong shape) and [AttributeError] (a
    method called on a value that is not a dict or not a string): the
    [KeyError], [IndexError] and [TypeError] of the lookups never leave it.
    In the turn the first class is answered with 503, the second with 500. *)
Theorem parse_raises_value_or_attribute_error (p : Provider)
    (response_data : json) (e : exn) :
  parse_response p response_data = Raise e ->
  (exn_cls e = ValueError /\ isinstance e [ValueError; RequestException] = true)
  \/ (exn_cls e = AttributeError /\
      isinstance e [ValueError; RequestException] = false).
Proof.
  intros H.
  assert (Hc : In (exn_cls e) [ValueError; AttributeError]).
  { destruct p; simpl in H; revert e H;
      apply parse_handler_raises.
    - raises.
    - raises.
    - raises. }
  destruct e as [cls m]. simpl in Hc.
  destruct Hc as [<-|[<-|[]]]; [left|right]; split; reflexivity.
Qed.

(** X15.  A response body that is not a JSON object.  Provider A runs
    into a [TypeError] inside its [try] and reports the parse failure as a
    [ValueError]; Providers B and C start with a [.get] call, whose
    [AttributeError] their [except] clause does not catch. *)
Theorem non_object_response (response_data : json) :
  (forall fields, response_data <> JObj fields) ->
  openai_parse_response response_data =
    Raise (Exn ValueError "Failed to parse response from OpenAI API.")
  /\ (exists msg, anthropic_parse_response response_data =
                  Raise (Exn AttributeError msg))
  /\ (exists msg, google_parse_response response_data =
                  Raise (Exn AttributeError msg)).
Proof.
  intros H. destruct response_data as [|b|n|t|l|fields];
    try (split; [reflexivity|split; eexists; reflexivity]).
  - split; [|split; eexists; reflexivity].
    unfold openai_parse_response. simpl.
    destruct (substring_of "error" t); reflexivity.
  - split; [|split; eexists; reflexivity].
    unfold openai_parse_response. simpl.
    destruct (existsb (json_is_str "error") l); reflexivity.
  - exfalso. exact (H fields eq_refl).
Qed.

(** X16.  Error payloads of the providers.  A Provider A body with an
    [error] object, a Provider B body of type "error" and a Provider C body
    without candidates (and without prompt feedback) each raise a
    [ValueError] that carries the provider's message, or the fixed default
    text when the error object has no message. *)
Theorem provider_error_payloads (fields err : list (string * json)) :
  (assoc "error" fields = Some (JObj err) ->
   openai_parse_response (JObj fields) =
   Raise (Exn ValueError
            ("OpenAI API Error: "
             ++ py_str (get_or "message" err (JStr "Unknown error")))))
  /\ (assoc "type" fields = Some (JStr "error") ->
      get_or "error" fields (JObj []) = JObj err ->
      anthropic_parse_response (JObj fields) =
      Raise (Exn ValueError
               ("Anthropic API Error: "
                ++ py_str (get_or "message" err (JStr "Unknown error")))))
  /\ (json_truthy (get_or "candidates" fields JNull) = false ->
      get_or "error" fields (JObj []) = JObj err ->
      assoc "promptFeedback" fields = None ->
      google_parse_response (JObj fields) =
      Raise (Exn ValueError
               ("Google API Error: "
                ++ py_str (get_or "message" err (JStr unknown_google_error))))).
Proof.
  split; [|split].
  - intros He. unfold openai_parse_response. simpl. rewrite He. reflexivity.
  - intros Ht He. unfold anthropic_parse_response. simpl. rewrite Ht. simpl.
    fold (get_or "error" fields (JObj [])). rewrite He. reflexivity.
  - intros Hc He Hp. unfold google_parse_response. simpl.
    fold (get_or "candidates" fields JNull). rewrite Hc. simpl.
    unfold google_error_message. simpl.
    fold (get_or "error" fields (JObj [])). rewrite He. simpl. rewrite Hp.
    reflexivity.
Qed.

(** X17.  A prompt blocked by Provider C: no candidates, and a prompt
    feedback with a block reason.  The [ValueError] carries the provider's
    message followed by the block reason and the safety ratings. *)
Theorem google_blocked_prompt (fields err feedback : list (string * json))
    (message reason : string) :
  json_truthy (get_or "candidates" fields JNull) = false ->
  get_or "error" fields (JObj []) = JObj err ->
  get_or "message" err (JStr unknown_google_error) = JStr message ->
  assoc "promptFeedback" fields = Some (JObj feedback) ->
  feedback <> [] ->
  assoc "blockReason" feedback = Some (JStr reason) ->
  reason <> EmptyString ->
  google_parse_response (JObj fields) =
  Raise (Exn ValueError
           ("Google API Error: " ++ message ++ " Blocked due to: " ++ reason
            ++ "." ++ " Safety Ratings: "
            ++ py_str (get_or "safetyRatings" feedback (JArr [])))).
Proof.
  intros Hc He Hm Hp Hf Hb Hr.
  assert (Ht : json_truthy (JObj feedback) = true)
    by (destruct feedback; [contradiction|reflexivity]).
  apply nonempty_true in Hr.
  unfold google_parse_response. cbn [get_method bind].
  fold (get_or "candidates" fields JNull). rewrite Hc. cbn [negb].
  unfold google_error_message. cbn [get_method bind].
  fold (get_or "error" fields (JObj [])). rewrite He. cbn [get_method bind].
  fold (get_or "message" err (JStr unknown_google_error)). rewrite Hm, Hp, Ht.
  cbn [get_method bind]. rewrite Hb.
  replace (json_truthy (JStr reason)) with true by (simpl; now rewrite Hr).
  cbn [iadd_str bind py_str].
  fold (get_or "safetyRatings" feedback (JArr [])).
  unfold try_except, raise_. cbn [isinstance exn_cls]. simpl existsb. cbv iota.
  rewrite !append_assoc. reflexivity.
Qed.

(** X18.  The first content block of a Provider B answer.  A block of
    another type than "text" gives no text and no error; an answer whose
    content list is empty is reported as a parse failure. *)
Theorem anthropic_first_block (fields block : list (string * json))
    (rest : list json) (block_type : json) :
  json_is_str "error" (get_or "type" fields JNull) = false ->
  (assoc "content" fields = Some (JArr (JObj block :: rest)) ->
   assoc "type" block = Some block_type ->
   json_is_str "text" block_type = false ->
   anthropic_parse_response (JObj fields) = Ok None)
  /\ (assoc "content" fields = Some (JArr []) ->
      anthropic_parse_response (JObj fields) =
      Raise (Exn ValueError "Failed to parse response from Anthropic API.")).
Proof.
  intros He. split.
  - intros Hc Ht Hn. unfold anthropic_parse_response. simpl.
    fold (get_or "type" fields JNull). rewrite He. simpl. rewrite Hc. simpl.
    rewrite Ht. simpl. rewrite Hn. reflexivity.
  - intros Hc. unfold anthropic_parse_response. simpl.
    fold (get_or "type" fields JNull). rewrite He. simpl. rewrite Hc. reflexivity.
Qed.

Lemma text_parts_objects (parts : list (list (string * json))) :
  text_parts (map JObj parts) = Ok (texts_of parts).
Proof.
  induction parts as [|part rest IH]; simpl; [reflexivity|].
  destruct (assoc "text" part) as [t|]; simpl; [|exact IH].
  rewrite IH. reflexivity.
Qed.

Lemma as_strings_map (l : list string) : as_strings (map JStr l) = Ok l.
Proof.
  induction l as [|x r IH]; simpl; [reflexivity|]. now rewrite IH.
Qed.

Lemma as_strings_not_all_strings (l : list json) :
  (forall texts, l <> map JStr texts) ->
  as_strings l = Raise (Exn TypeError "sequence item: expected str instance").
Proof.
  induction l as [|x r IH]; intros H.
  - destruct (H [] eq_refl).
  - destruct x; try reflexivity. simpl. rewrite IH; [reflexivity|].
    intros texts ->. apply (H (s :: texts)). reflexivity.
Qed.

(** X19.  The parts of a Provider C candidate, each an object with any
    keys.  When what the parts hold under "text" are strings, these are
    joined by newlines, in order, and the result is trimmed; parts without
    a "text" key are left out.  When no part has a "text" key (or there is
    no part) the result is absent.  When a part holds under "text"
    something that is not a string, the parse step raises the [ValueError]
    of a response that cannot be parsed. *)
Theorem google_parts_joined (fields candidate body : list (string * json))
    (rest : list json) (parts : list (list (string * json))) :
  assoc "candidates" fields = Some (JArr (JObj candidate :: rest)) ->
  json_is_str "SAFETY" (get_or "finishReason" candidate JNull) = false ->
  assoc "content" candidate = Some (JObj body) ->
  get_or "parts" body (JArr []) = JArr (map JObj parts) ->
  (forall texts, texts_of parts = map JStr texts ->
     google_parse_response (JObj fields) =
       Ok (if nonempty (join newline texts)
           then Some (strip (join newline texts))
           else None))
  /\ (texts_of parts = [] -> google_parse_response (JObj fields) = Ok None)
  /\ ((forall texts, texts_of parts <> map JStr texts) ->
      google_parse_response (JObj fields) =
        Raise (Exn ValueError "Failed to parse response from Google API.")).
Proof.
  intros Hc Hf Hb Hp.
  assert (H : google_parse_response (JObj fields) =
              try_except
                (strings <- as_strings (texts_of parts) ;;
                 if nonempty (join newline strings)
                 then Ok (Some (strip (join newline strings))) else Ok None)
                parse_errors
                (fun _ => raise_ ValueError
                            "Failed to parse response from Google API.")).
  { unfold google_parse_response. simpl. rewrite Hc. simpl.
    fold (get_or "finishReason" candidate JNull). rewrite Hf.
    rewrite andb_false_r. simpl. rewrite Hb. simpl.
    fold (get_or "parts" body (JArr [])). rewrite Hp. simpl.
    rewrite text_parts_objects. reflexivity. }
  rewrite H. split; [|split].
  - intros texts ->. rewrite as_strings_map. simpl.
    destruct (nonempty _); reflexivity.
  - intros ->. reflexivity.
  - intros Hn. rewrite (as_strings_not_all_strings _ Hn). reflexivity.
Qed.

(** ** Formatters *)

(** X20.  The Provider B body for any history: the messages that are not
    system messages, in order, with their role and content; the content of
    the first system message as system prompt (none when there is no system
    message).  No entry of the list has the role "system".  When the first
    of those messages is a user message nothing is printed. *)
Theorem anthropic_body (h : list ChatMessage) :
  fst (anthropic_format_messages h) =
    mkAnthropicBody (map to_entry (filter non_system h)) (first_system h)
  /\ Forall (fun e => entry_role e = "user" \/ entry_role e = "assistant")
       (body_messages (fst (anthropic_format_messages h)))
  /\ (forall m, find non_system h = Some m -> role m = user ->
       snd (anthropic_format_messages h) = []).
Proof.
  assert (Hf : fst (anthropic_format_messages h) =
               mkAnthropicBody (map to_entry (filter non_system h)) (first_system h)).
  { unfold anthropic_format_messages. rewrite anthropic_loop. reflexivity. }
  split; [exact Hf|]. split.
  - rewrite Hf. simpl. apply Forall_forall. intros e He.
    apply in_map_iff in He. destruct He as (m & <- & Hm).
    apply filter_In in Hm. destruct Hm as [_ Hm]. unfold non_system in Hm.
    unfold to_entry. simpl. destruct (role m); simpl in *; auto; discriminate.
  - intros m Hm Hu. unfold anthropic_format_messages. rewrite anthropic_loop.
    simpl app. simpl snd.
    pose proof (filter_head_find non_system h) as Hh.
    destruct (filter non_system h) as [|x r]; [congruence|].
    rewrite Hm in Hh. injection Hh as <-. simpl. unfold to_entry. simpl.
    rewrite Hu. reflexivity.
Qed.

Lemma last_opt_update_last {A : Type} (f : A -> A) (l : list A) :
  last_opt (update_last f l) = option_map f (last_opt l).
Proof.
  induction l as [|a r IH]; [reflexivity|].
  destruct r as [|b r']; [reflexivity|].
  change (update_last f (a :: b :: r')) with (a :: update_last f (b :: r')).
  change (last_opt (a :: b :: r')) with (last_opt (b :: r')).
  rewrite <- IH.
  destruct (update_last f (b :: r')) as [|x y] eqn:E; [|reflexivity].
  destruct r'; discriminate.
Qed.

Lemma last_opt_none {A : Type} (l : list A) : last_opt l = None -> l = [].
Proof.
  induction l as [|a r IH]; [reflexivity|].
  destruct r as [|b r']; [discriminate|].
  change (last_opt (a :: b :: r')) with (last_opt (b :: r')).
  intros H. apply IH in H. discriminate.
Qed.

Lemma model_follows_user_app_user (cs : list Turn) (b : bool) (c : string) :
  model_follows_user b cs = true ->
  model_follows_user b (cs ++ [mkTurn "user" c]) = true.
Proof.
  revert b. induction cs as [|t r IH]; intros b H; [reflexivity|].
  simpl in *. destruct (turn_role t =? "user"); [now apply IH|].
  destruct (turn_role t =? "model"); [|discriminate].
  apply andb_true_iff in H. destruct H as [-> H]. simpl. now apply IH.
Qed.

Lemma model_follows_user_app_model (cs : list Turn) (b : bool) (c : string) :
  model_follows_user b cs = true ->
  match last_opt cs with
  | Some t => turn_role t = "user"
  | None => b = true
  end ->
  model_follows_user b (cs ++ [mkTurn "model" c]) = true.
Proof.
  revert b. induction cs as [|t r IH]; intros b H Hl.
  - simpl in *. now rewrite Hl.
  - destruct r as [|x r'].
    + simpl in Hl. simpl. rewrite Hl. reflexivity.
    + change (last_opt (t :: x :: r')) with (last_opt (x :: r')) in Hl.
      assert (Hsome : last_opt (x :: r') <> None).
      { intros E. apply last_opt_none in E. discriminate. }
      simpl app. cbn [model_follows_user] in H |- *.
      destruct (turn_role t =? "user").
      * apply (IH true); [exact H|].
        destruct (last_opt (x :: r')); [exact Hl|reflexivity].
      * destruct (turn_role t =? "model"); [|discriminate].
        apply andb_true_iff in H. destruct H as [-> H]. simpl.
        apply (IH false); [exact H|].
        destruct (last_opt (x :: r')); [exact Hl|contradiction].
Qed.

Lemma model_follows_user_update_last (f : Turn -> Turn) (cs : list Turn) (b : bool) :
  (forall t, turn_role (f t) = turn_role t) ->
  model_follows_user b (update_last f cs) = model_follows_user b cs.
Proof.
  intros Hf. revert b. induction cs as [|t r IH]; intros b; [reflexivity|].
  destruct r as [|x r'].
  - simpl. now rewrite Hf.
  - change (update_last f (t :: x :: r')) with (t :: update_last f (x :: r')).
    cbn [model_follows_user]. now rewrite !IH.
Qed.

(** What the loop of the Provider C formatter keeps true of its state. *)
Lemma google_step_shape (st : GoogleState) (msg : ChatMessage) :
  model_follows_user false (contents st) = true ->
  last_role st = option_map turn_role (last_opt (contents st)) ->
  model_follows_user false (contents (google_step st msg)) = true
  /\ last_role (google_step st msg) =
     option_map turn_role (last_opt (contents (google_step st msg))).
Proof.
  intros Hm Hl. destruct (role msg) eqn:R.
  - rewrite google_step_system by exact R. simpl. auto.
  - rewrite google_step_user by exact R. simpl. rewrite last_opt_app. simpl.
    split; [now apply model_follows_user_app_user|reflexivity].
  - destruct (last_role_is st "user") eqn:L.
    + rewrite google_step_reply by assumption. simpl. rewrite last_opt_app. simpl.
      split; [|reflexivity].
      apply model_follows_user_app_model; [exact Hm|].
      unfold last_role_is in L. rewrite Hl in L.
      destruct (last_opt (contents st)) as [t|]; simpl in L; [|discriminate].
      now apply String.eqb_eq.
    + destruct (ends_with_model (contents st)) eqn:E.
      * rewrite google_step_merge by assumption. simpl. unfold merge_into_last.
        rewrite model_follows_user_update_last by reflexivity.
        rewrite last_opt_update_last. split; [exact Hm|].
        rewrite Hl. destruct (last_opt (contents st)); reflexivity.
      * rewrite google_step_skip by assumption. simpl. auto.
Qed.

Lemma google_loop_shape (l : list ChatMessage) (st : GoogleState) :
  model_follows_user false (contents st) = true ->
  last_role st = option_map turn_role (last_opt (contents st)) ->
  model_follows_user false (contents (google_loop st l)) = true.
Proof.
  revert st. induction l as [|m r IH]; intros st Hm Hl; [exact Hm|].
  simpl. destruct (google_step_shape st m Hm Hl) as [Hm' Hl']. now apply IH.
Qed.

Lemma model_follows_user_split (cs front back : list Turn) (t1 t2 : Turn) (b : bool) :
  model_follows_user b cs = true ->
  cs = front ++ t1 :: t2 :: back ->
  turn_role t2 = "model" -> turn_role t1 = "user".
Proof.
  revert cs b. induction front as [|x f IH]; intros cs b H -> H2.
  - simpl in H. destruct (String.eqb_spec (turn_role t1) "user") as [E|E]; [exact E|].
    destruct (turn_role t1 =? "model"); [|discriminate].
    apply andb_true_iff in H. destruct H as [_ H].
    rewrite H2 in H. simpl in H. discriminate.
  - simpl in H. destruct (turn_role x =? "user").
    + exact (IH _ _ H eq_refl H2).
    + destruct (turn_role x =? "model"); [|discriminate].
      apply andb_true_iff in H. destruct H as [_ H].
      exact (IH _ _ H eq_refl H2).
Qed.

Lemma model_follows_user_roles (cs : list Turn) (b : bool) :
  model_follows_user b cs = true ->
  Forall (fun t => turn_role t = "user" \/ turn_role t = "model") cs.
Proof.
  revert b. induction cs as [|t r IH]; intros b H; [constructor|].
  simpl in H. destruct (String.eqb_spec (turn_role t) "user") as [E|E].
  - constructor; [auto|exact (IH _ H)].
  - destruct (String.eqb_spec (turn_role t) "model") as [E'|E']; [|discriminate].
    apply andb_true_iff in H. destruct H as [_ H].
    constructor; [auto|exact (IH _ H)].
Qed.

(** X21.  The shape of every Provider C body: its turns are "user" and
    "model" turns only, it opens with a "user" turn, and a "model" turn
    comes only right behind a "user" turn, so that two "model" turns never
    follow each other.  (Two "user" turns can: each user message opens a
    turn of its own.) *)
Theorem google_body_shape (h : list ChatMessage) :
  Forall (fun t => turn_role t = "user" \/ turn_role t = "model")
    (fst (google_format_messages h))
  /\ (forall t rest, fst (google_format_messages h) = t :: rest ->
                     turn_role t = "user")
  /\ (forall front t1 t2 back,
       fst (google_format_messages h) = front ++ t1 :: t2 :: back ->
       turn_role t2 = "model" -> turn_role t1 = "user").
Proof.
  assert (H : model_follows_user false (fst (google_format_messages h)) = true).
  { unfold google_format_messages. simpl.
    apply google_loop_shape; reflexivity. }
  split; [exact (model_follows_user_roles _ _ H)|]. split.
  - intros t rest E. rewrite E in H. simpl in H.
    destruct (String.eqb_spec (turn_role t) "user") as [Eu|Eu]; [exact Eu|].
    destruct (turn_role t =? "model"); discriminate.
  - intros front t1 t2 back E. exact (model_follows_user_split _ _ _ _ _ _ H E).
Qed.

Lemma user_texts_app (a b : list Turn) :
  user_texts (a ++ b) = user_texts a ++ user_texts b.
Proof. unfold user_texts. now rewrite filter_app, map_app. Qed.

Lemma user_texts_merge (cs : list Turn) (c : string) :
  ends_with_model cs = true -> user_texts (merge_into_last cs c) = user_texts cs.
Proof.
  unfold ends_with_model, merge_into_last.
  induction cs as [|t r IH]; [reflexivity|].
  destruct r as [|x r'].
  - simpl. intros H. unfold user_texts, is_user_turn. simpl.
    apply String.eqb_eq in H. rewrite H. reflexivity.
  - change (last_opt (t :: x :: r')) with (last_opt (x :: r')). intros H.
    change (update_last ?f (t :: x :: r')) with (t :: update_last f (x :: r')).
    change (user_texts (t :: ?l)) with (user_texts ([t] ++ l)).
    rewrite !user_texts_app. now rewrite IH.
Qed.

Lemma google_loop_user_texts (l : list ChatMessage) (st : GoogleState) :
  user_texts (contents (google_loop st l)) =
  user_texts (contents st) ++ map content (filter is_user l).
Proof.
  revert st. induction l as [|m r IH]; intros st.
  - simpl. now rewrite app_nil_r.
  - change (google_loop st (m :: r)) with (google_loop (google_step st m) r).
    rewrite IH. simpl filter. unfold is_user at 2.
    destruct (role m) eqn:R; simpl.
    + rewrite google_step_system by exact R. reflexivity.
    + rewrite google_step_user by exact R. simpl.
      rewrite user_texts_app, <- app_assoc. reflexivity.
    + destruct (last_role_is st "user") eqn:L.
      * rewrite google_step_reply by assumption. simpl.
        rewrite user_texts_app. unfold user_texts at 2. simpl.
        now rewrite app_nil_r.
      * destruct (ends_with_model (contents st)) eqn:E.
        -- rewrite google_step_merge by assumption. simpl.
           now rewrite user_texts_merge.
        -- rewrite google_step_skip by assumption. reflexivity.
Qed.

(** X22.  The Provider C formatter never drops, merges or changes a user
    message: the texts of the "user" turns of the body are the contents of
    the user messages of the history, one turn each, in order. *)
Theorem google_keeps_user_messages (h : list ChatMessage) :
  user_texts (fst (google_format_messages h)) = map content (filter is_user h).
Proof.
  unfold google_format_messages. simpl. now rewrite google_loop_user_texts.
Qed.

Lemma google_loop_without_system (l : list ChatMessage) (st : GoogleState) :
  core (google_loop st (filter non_system l)) = core (google_loop st l).
Proof.
  revert st. induction l as [|m r IH]; intros st; [reflexivity|].
  simpl filter. unfold non_system at 1. destruct (role m) eqn:R; simpl.
  - rewrite IH. apply google_loop_core.
    rewrite google_step_system by exact R. reflexivity.
  - apply IH.
  - apply IH.
Qed.

(** X23.  System messages do not reach a Provider C body: the body of a
    history is the body of the history with its system messages removed,
    and each of them is announced as ignored in the printed lines. *)
Theorem google_ignores_system_messages (h : list ChatMessage) :
  fst (google_format_messages h) = fst (google_format_messages (filter non_system h))
  /\ (forall m, In m h -> role m = system ->
       In (google_warn_system m) (snd (google_format_messages h))).
Proof.
  split.
  - unfold google_format_messages. simpl.
    pose proof (google_loop_without_system h google_initial) as H.
    now inversion H.
  - intros m Hin R. unfold google_format_messages. simpl snd.
    assert (Hp : In (google_warn_system m) (printed (google_loop google_initial h))).
    { assert (Hkeep : forall l st w, In w (printed st) ->
                                     In w (printed (google_loop st l))).
      { induction l as [|x r IH]; intros st w H; [exact H|].
        simpl. apply IH. unfold google_step.
        destruct (role x); simpl;
          repeat match goal with
                 | |- context [if ?b then _ else _] => destruct b; simpl
                 end; try apply in_or_app; auto. }
      generalize google_initial.
      induction h as [|x r IH]; intros st; [destruct Hin|].
      destruct Hin as [-> | Hin].
      - simpl. apply Hkeep. rewrite google_step_system by exact R. simpl.
        apply in_or_app. right. simpl. auto.
      - simpl. now apply IH. }
    match goal with
    | |- context [if ?b then _ else _] => destruct b
    end; [apply in_or_app; left|]; exact Hp.
Qed.

(** ** Storing and reading back a key *)

(** X24.  Round trip of a key.  With a cipher whose [decrypt] undoes
    [encrypt] and never produces an empty token, and an encoding that
    [decode] undoes, a key set with [set_api_key] is read back unchanged by
    [get_api_key], and the user and service of the object are untouched;
    the empty key is refused with a [ValueError] and never encrypted. *)
Theorem set_then_get_api_key (inst : KeyInstance) (raw_key : string) :
  (forall b, fernet_decrypt (fernet_encrypt b) = Ok b) ->
  (forall b, fernet_encrypt b <> EmptyString) ->
  (forall t, bytes_decode (bytes_encode t) = Ok t) ->
  set_api_key inst EmptyString = Raise (Exn ValueError "API key cannot be empty.")
  /\ (raw_key <> EmptyString ->
      exists stored,
        set_api_key inst raw_key = Ok stored /\
        get_api_key (as_row stored) = Ok (Some raw_key) /\
        inst_user stored = inst_user inst /\
        inst_service_name stored = inst_service_name inst /\
        inst_pk stored = inst_pk inst).
Proof.
  intros Hdec Htok Hcode. split; [reflexivity|].
  intros Hraw. unfold set_api_key. apply nonempty_true in Hraw. rewrite Hraw.
  simpl. eexists. split; [reflexivity|].
  unfold get_api_key, as_row. simpl.
  replace (nonempty (fernet_encrypt (bytes_encode raw_key))) with true
    by (symmetry; apply nonempty_true, Htok).
  simpl. rewrite Hdec. simpl. rewrite Hcode. simpl. auto.
Qed.

(** X25.  [UserAPIKey.save].  An object without a raw key whose primary
    key is [None] or 0 is refused; a raw key that is empty is refused with
    the [ValueError] of [set_api_key]; an object without a raw key whose
    primary key is a number other than 0 is written as it is.  With a raw
    key that is not empty, the object written holds
    the token of that key and no longer the raw key, and, with a cipher and
    an encoding as in the round trip, once that row is the one of (user,
    service) in the table the resolver returns the raw key. *)
Theorem save_encrypts_the_raw_key (inst : KeyInstance) (raw_key : string)
    (db : Database) :
  (inst_pk inst = None \/ inst_pk inst = Some 0%Z ->
   raw_api_key_to_encrypt inst = None ->
   exists msg, UserAPIKey_save inst = Raise (Exn OtherException msg))
  /\ (raw_api_key_to_encrypt inst = Some EmptyString ->
      UserAPIKey_save inst = Raise (Exn ValueError "API key cannot be empty."))
  /\ (forall k, inst_pk inst = Some k -> k <> 0%Z ->
      raw_api_key_to_encrypt inst = None ->
      UserAPIKey_save inst = Ok inst)
  /\ (raw_api_key_to_encrypt inst = Some raw_key -> raw_key <> EmptyString ->
      exists written,
        UserAPIKey_save inst = Ok written /\
        raw_api_key_to_encrypt written = None /\
        inst_encrypted_api_key written = fernet_encrypt (bytes_encode raw_key) /\
        ((forall b, fernet_decrypt (fernet_encrypt b) = Ok b) ->
         (forall b, fernet_encrypt b <> EmptyString) ->
         (forall t, bytes_decode (bytes_encode t) = Ok t) ->
         UserAPIKey_objects_get db (inst_user inst) (inst_service_name inst) =
           Ok (as_row written) ->
         get_api_key_for_service db (inst_user inst) (inst_service_name inst) =
           Ok (Some raw_key))).
Proof.
  unfold UserAPIKey_save, has_raw_api_key. split; [|split; [|split]].
  - intros [->| ->] ->; eexists; reflexivity.
  - intros ->. rewrite andb_false_r. reflexivity.
  - intros k -> Hk ->. simpl. apply Z.eqb_neq in Hk. rewrite Hk. reflexivity.
  - intros -> Hraw. rewrite andb_false_r. unfold set_api_key.
    pose proof Hraw as Hraw'. apply nonempty_true in Hraw'. rewrite Hraw'.
    simpl; (eexists; split; [reflexivity|]);
      (split; [reflexivity|]); (split; [reflexivity|]);
      intros Hdec Htok Hcode Hget;
      unfold get_api_key_for_service, user_key_step; rewrite Hget; simpl;
      unfold get_api_key, as_row; simpl;
      (replace (nonempty (fernet_encrypt (bytes_encode raw_key))) with true
         by (symmetry; apply nonempty_true, Htok));
      simpl; rewrite Hdec; simpl; rewrite Hcode; simpl; rewrite Hraw';
      reflexivity.
Qed.

(** ** The admin preview *)

Lemma length_append (a b : string) :
  String.length (a ++ b) = (String.length a + String.length b)%nat.
Proof. induction a as [|c r IH]; simpl; [reflexivity|now rewrite IH]. Qed.

Lemma length_substring0 (n : nat) (t : string) :
  String.length (substring 0 n t) = Nat.min n (String.length t).
Proof.
  revert t. induction n as [|n IH]; intros t.
  - destruct t; reflexivity.
  - destruct t as [|c r]; [reflexivity|]. simpl. now rewrite IH.
Qed.

Lemma prefix_substring0 (n : nat) (t : string) : prefix (substring 0 n t) t = true.
Proof.
  revert t. induction n as [|n IH]; intros t.
  - destruct t; reflexivity.
  - destruct t as [|c r]; [reflexivity|]. simpl.
    destruct (ascii_dec c c) as [_|N]; [apply IH|contradiction].
Qed.

(** X26.  The preview of a message in the admin list is never longer than
    53 characters: a content of at most 50 characters is shown as it is, a
    longer one is cut to its first 50 characters followed by three dots. *)
Theorem content_preview_bounded (obj : ChatMessage) :
  (String.length (content_preview obj) <= 53)%nat
  /\ ((String.length (content obj) <= 50)%nat ->
      content_preview obj = content obj)
  /\ ((50 < String.length (content obj))%nat ->
      exists head,
        content_preview obj = (head ++ "...")%string /\
        String.length head = 50%nat /\
        prefix head (content obj) = true).
Proof.
  unfold content_preview.
  destruct (Nat.ltb_spec 50 (String.length (content obj))) as [H|H].
  - split; [|split].
    + rewrite length_append, length_substring0.
      change (String.length "...") with 3%nat. lia.
    + lia.
    + intros _. exists (substring 0 50 (content obj)).
      split; [reflexivity|]. split.
      * rewrite length_substring0. lia.
      * apply prefix_substring0.
  - split; [lia|]. split; [reflexivity|lia].
Qed.

(** ** Sessions *)

Lemma assoc_in {A : Type} (k : string) (l : list (string * A)) (v : A) :
  assoc k l = Some v -> In (k, v) l.
Proof.
  induction l as [|[k' v'] r IH]; simpl; [discriminate|].
  destruct (String.eqb_spec k' k) as [->|_].
  - intros [= ->]. auto.
  - intros H. right. exact (IH H).
Qed.

Lemma choices_well_formed (model_id : string) :
  is_choice model_id AI_MODEL_CHOICES = true -> well_formed_choice model_id.
Proof.
  unfold is_choice. destruct (assoc model_id AI_MODEL_CHOICES) as [v|] eqn:E;
    [|discriminate].
  intros _. apply assoc_in in E. unfold AI_MODEL_CHOICES in E. simpl in E.
  unfold well_formed_choice.
  repeat (destruct E as [E|E];
          [injection E as <- <-;
           split; [reflexivity|];
           split; [eexists; split; [reflexivity|discriminate]|];
           split; [discriminate|];
           vm_compute; repeat constructor|]).
  destruct E.
Qed.

(** X27.  Creating a session.  Data that does not validate changes nothing.
    Otherwise exactly one session is added, for the requesting user, under
    the key the table assigns; its model identifier is one of
    [AI_MODEL_CHOICES], whose provider token is one the client factory
    knows and which names a model; its title is never empty and fits the
    200 characters of the column; a title that is left out or blank is
    replaced by "Chat with" and the display name of the model. *)
Theorem create_session_result (db db' : Database) (u : Z) (data : NewSessionData)
    (new_pk now_created now_updated : Z) (resp : SessionResponse) :
  create_session db u data new_pk now_created now_updated = (resp, db') ->
  (forall errors, resp = SessionResponse400 errors -> db' = db)
  /\ (forall session msgs, resp = SessionResponse201 session msgs ->
       sessions db' = sessions db ++ [session]
       /\ messages db' = messages db /\ api_keys db' = api_keys db
       /\ session_user session = u /\ session_id session = new_pk
       /\ created_at session = now_created /\ updated_at session = now_updated
       /\ data_ai_model_identifier data = FieldStr (ai_model_identifier session)
       /\ well_formed_choice (ai_model_identifier session)
       /\ get_service_name session = Some (split_head (ai_model_identifier session))
       /\ title session <> EmptyString
       /\ (String.length (title session) <= 200)%nat
       /\ ((data_title data = FieldMissing
            \/ exists t, data_title data = FieldStr t /\ strip t = EmptyString) ->
           title session = default_title (ai_model_identifier session))).
Proof.
  unfold create_session, NewChatSessionSerializer.
  destruct (validate_title (data_title data)) as [et|t] eqn:Ht;
    destruct (validate_model_identifier (data_ai_model_identifier data))
      as [em|model_id] eqn:Hm;
    try (intros [= <- <-]; split; [reflexivity|discriminate]).
  intros [= <- <-]. split; [discriminate|].
  intros session msgs [= <- _].
  assert (Hchoice : data_ai_model_identifier data = FieldStr model_id /\
                    is_choice model_id AI_MODEL_CHOICES = true).
  { unfold validate_model_identifier in Hm.
    destruct (data_ai_model_identifier data) as [| |x|x|]; try discriminate.
    destruct (is_choice x AI_MODEL_CHOICES) eqn:Hx; [|discriminate].
    injection Hm as <-. auto. }
  destruct Hchoice as [Hfield Hchoice].
  pose proof (choices_well_formed model_id Hchoice) as Hwf.
  destruct Hwf as (Hsup & Hname & Hne & Hlen).
  assert (Hdefault : default_title model_id <> EmptyString) by discriminate.
  simpl. repeat (split; [first [reflexivity | exact Hfield]|]).
  split; [repeat split; assumption|].
  split.
  { unfold get_service_name. simpl. apply nonempty_true in Hne. now rewrite Hne. }
  unfold validate_title in Ht.
  destruct (data_title data) as [| |x|x|] eqn:Hd; try discriminate.
  - injection Ht as <-. split; [exact Hdefault|]. split; [exact Hlen|]. auto.
  - destruct (String.eqb_spec (strip x) EmptyString) as [Hx|Hx].
    + injection Ht as <-. simpl. split; [exact Hdefault|]. split; [exact Hlen|]. auto.
    + destruct (Nat.ltb_spec 200 (String.length (strip x))) as [Hl|Hl];
        destruct (has_nul (strip x)); try discriminate.
      simpl in Ht. injection Ht as <-.
      apply nonempty_true in Hx. rewrite Hx. apply nonempty_true in Hx.
      split; [exact Hx|]. split; [exact Hl|].
      intros [Hf | (t0 & Hf & Hb)]; [discriminate|].
      injection Hf as <-. contradiction.
  - destruct (String.eqb_spec (strip x) EmptyString) as [Hx|Hx].
    + injection Ht as <-. simpl. split; [exact Hdefault|]. split; [exact Hlen|].
      intros [Hf | (t0 & Hf & Hb)]; discriminate.
    + destruct (Nat.ltb_spec 200 (String.length (strip x))) as [Hl|Hl];
        destruct (has_nul (strip x)); try discriminate.
      simpl in Ht. injection Ht as <-.
      apply nonempty_true in Hx. rewrite Hx. apply nonempty_true in Hx.
      split; [exact Hx|]. split; [exact Hl|].
      intros [Hf | (t0 & Hf & Hb)]; discriminate.
Qed.

Lemma find_app_none {A : Type} (f : A -> bool) (l : list A) (x : A) :
  find f l = None -> find f (l ++ [x]) = (if f x then Some x else None).
Proof.
  induction l as [|a r IH]; simpl; [reflexivity|].
  destruct (f a); [discriminate|exact IH].
Qed.

Lemma find_app_keep {A : Type} (f : A -> bool) (l : list A) (x : A) :
  f x = false -> find f (l ++ [x]) = find f l.
Proof.
  intros Hx. induction l as [|a r IH]; simpl; [now rewrite Hx|].
  destruct (f a); [reflexivity|exact IH].
Qed.

Lemma create_session_created (db db' : Database) (u : Z)
    (data : NewSessionData) (new_pk now_created now_updated : Z)
    (session : ChatSession) (msgs : list ChatMessage) :
  create_session db u data new_pk now_created now_updated =
    (SessionResponse201 session msgs, db') ->
  sessions db' = sessions db ++ [session] /\ messages db' = messages db
  /\ session_user session = u /\ session_id session = new_pk
  /\ msgs = session_messages db' new_pk.
Proof.
  unfold create_session.
  destruct (NewChatSessionSerializer data) as [errors|[t model_id]];
    [discriminate|].
  simpl. intros [= <- <- <-]. simpl. auto.
Qed.

Lemma fresh_session_has_no_messages (db : Database) (k : Z) :
  messages_have_sessions db ->
  (forall s, In s (sessions db) -> session_id s <> k) ->
  filter (fun m => (msg_session m =? k)%Z) (messages db) = [].
Proof.
  unfold messages_have_sessions. intros Hint Hfresh.
  induction Hint as [|m r (x & Hin & Hx) _ IH]; [reflexivity|].
  simpl. destruct (Z.eqb_spec (msg_session m) k) as [E|_]; [|exact IH].
  exfalso. apply (Hfresh x Hin). congruence.
Qed.

(** X28.  A session just created under a fresh key is found by its owner,
    with the row that was stored, and by nobody else; when every stored
    message points to a stored session it starts without messages; and the
    sessions under other keys are found as before. *)
Theorem created_session_is_owned (db db' : Database) (u : Z)
    (data : NewSessionData) (new_pk now_created now_updated : Z)
    (session : ChatSession) (msgs : list ChatMessage) :
  (forall s, In s (sessions db) -> session_id s <> new_pk) ->
  create_session db u data new_pk now_created now_updated =
    (SessionResponse201 session msgs, db') ->
  get_object db' u new_pk = Some session
  /\ (forall other, other <> u -> get_object db' other new_pk = None)
  /\ (forall who k, k <> new_pk -> get_object db' who k = get_object db who k)
  /\ (messages_have_sessions db -> msgs = [] /\ session_messages db' new_pk = []).
Proof.
  intros Hfresh H.
  destruct (create_session_created _ _ _ _ _ _ _ _ _ H)
    as (Hsess & Hmsgs & Hu & Hid & Hbody).
  assert (Hnone : forall who,
            find (fun s => (session_id s =? new_pk)%Z && (session_user s =? who)%Z)
              (sessions db) = None).
  { intros who.
    destruct (find _ (sessions db)) as [x|] eqn:E; [|reflexivity].
    apply find_some in E. destruct E as [Hin Hb].
    apply andb_true_iff in Hb. destruct Hb as [Hb _]. apply Z.eqb_eq in Hb.
    exfalso. exact (Hfresh x Hin Hb). }
  split; [|split; [|split]].
  - unfold get_object. rewrite Hsess, (find_app_none _ _ _ (Hnone u)).
    rewrite Hid, Hu, !Z.eqb_refl. reflexivity.
  - intros other Ho. unfold get_object.
    rewrite Hsess, (find_app_none _ _ _ (Hnone other)).
    rewrite Hid, Hu, Z.eqb_refl. simpl.
    destruct (Z.eqb_spec u other); [congruence|reflexivity].
  - intros who k Hk. unfold get_object. rewrite Hsess. apply find_app_keep.
    rewrite Hid. destruct (Z.eqb_spec new_pk k); [congruence|reflexivity].
  - intros Hint.
    assert (Hempty : session_messages db' new_pk = []).
    { unfold session_messages. rewrite Hmsgs.
      now rewrite (fresh_session_has_no_messages db new_pk Hint Hfresh). }
    split; [|exact Hempty]. now rewrite Hbody.
Qed.

Lemma filter_filter_other (sid k : Z) (l : list ChatMessage) :
  sid <> k ->
  filter (fun m => (msg_session m =? sid)%Z)
    (filter (fun m => negb (msg_session m =? k)%Z) l) =
  filter (fun m => (msg_session m =? sid)%Z) l.
Proof.
  intros H. induction l as [|m r IH]; [reflexivity|].
  simpl. destruct (Z.eqb_spec (msg_session m) k) as [E|E]; simpl.
  - destruct (Z.eqb_spec (msg_session m) sid); [congruence|exact IH].
  - destruct (msg_session m =? sid)%Z; [now rewrite IH|exact IH].
Qed.

(** X29.  Deleting a session.  The owner's delete removes every session row
    with that key and, by the cascade, every message of the conversation;
    the rows and histories of the other conversations and the stored keys
    stay as they are; afterwards the key is not found any more, for
    anybody: retrieving it and posting to it answer 404. *)
Theorem destroy_cascades (db : Database) (u k : Z) (session : ChatSession)
    (request : Request) (clock : Clock) :
  get_object db u k = Some session ->
  let db' := snd (destroy db u k) in
  fst (destroy db u k) = SessionResponse204
  /\ (forall s, In s (sessions db') <-> In s (sessions db) /\ session_id s <> k)
  /\ (forall m, In m (messages db') <-> In m (messages db) /\ msg_session m <> k)
  /\ (forall sid, sid <> k -> session_messages db' sid = session_messages db sid)
  /\ api_keys db' = api_keys db
  /\ (forall who, retrieve db' who k = SessionResponse404)
  /\ (pk request = k -> add_message db' request clock = (Response404, db')).
Proof.
  intros Hs.
  destruct (get_object_some _ _ _ _ Hs) as (_ & Hid & _).
  unfold destroy. rewrite Hs, Hid. cbv zeta. simpl fst. simpl snd.
  assert (Hsess : forall s, In s (sessions (ChatSession_delete db k)) <->
                            In s (sessions db) /\ session_id s <> k).
  { intros s. simpl. rewrite filter_In. split.
    - intros [Hin Hb]. split; [exact Hin|].
      destruct (Z.eqb_spec (session_id s) k); [discriminate|assumption].
    - intros [Hin Hne]. split; [exact Hin|].
      destruct (Z.eqb_spec (session_id s) k); [contradiction|reflexivity]. }
  assert (Hgone : forall who, get_object (ChatSession_delete db k) who k = None).
  { intros who.
    destruct (get_object (ChatSession_delete db k) who k) as [x|] eqn:E;
      [|reflexivity].
    destruct (get_object_some _ _ _ _ E) as (Hin & Hx & _).
    apply Hsess in Hin. destruct Hin as [_ Hne]. contradiction. }
  split; [reflexivity|]. split; [exact Hsess|]. split.
  { intros m. simpl. rewrite filter_In. split.
    - intros [Hin Hb]. split; [exact Hin|].
      destruct (Z.eqb_spec (msg_session m) k); [discriminate|assumption].
    - intros [Hin Hne]. split; [exact Hin|].
      destruct (Z.eqb_spec (msg_session m) k); [contradiction|reflexivity]. }
  split.
  { intros sid Hne. unfold session_messages. simpl.
    now rewrite filter_filter_other. }
  split; [reflexivity|]. split.
  - intros who. unfold retrieve. now rewrite Hgone.
  - intros Hpk. unfold add_message. now rewrite Hpk, Hgone.
Qed.

End Backend.

(** * Concrete runs *)

(** A turn of a user without a stored key, with no system key configured:
    the client cannot be built, the turn fails, the user message stays. *)
Lemma user_message_survives_ai_failure_witness :
  get_object sample_db 7 1 = Some sample_session
  /\ NewChatMessageSerializer (FieldStr "Hello") = inr "Hello"
  /\ messages
       (snd (add_message sample_repr failing_fernet utf8_decode no_settings
               no_env canned_transport sample_db sample_request sample_clock)) =
     [mkChatMessage 1 1 user "Hello" 200].
Proof.
  split; [reflexivity|]. split; [reflexivity|].
  apply (user_message_survives_ai_failure sample_repr failing_fernet utf8_decode
           no_settings no_env canned_transport sample_db sample_request
           sample_clock sample_session "Hello"
           (Exn ValueError "API Key for service 'openai' is missing."));
    reflexivity.
Defined.

Lemma user_key_preferred_witness :
  unique_together (api_keys sample_db_with_keys)
  /\ In sample_key (api_keys sample_db_with_keys)
  /\ system_settings "OPENAI_API_KEY" = Some (Some "sk-system")
  /\ get_api_key_for_service sample_fernet utf8_decode system_settings no_env
       sample_db_with_keys 7 "openai" = Ok (Some "sk-user").
Proof.
  assert (Hunique : unique_together (api_keys sample_db_with_keys)).
  { intros [|[|[|i]]] [|[|[|j]]] k k' Hi Hj; simpl in Hi, Hj;
      try reflexivity; try (destruct i; discriminate);
      try (destruct j; discriminate);
      injection Hi as <-; injection Hj as <-; simpl; intros Hu Hs;
      discriminate. }
  assert (Hin : In sample_key (api_keys sample_db_with_keys))
    by (simpl; auto).
  split; [exact Hunique|]. split; [exact Hin|]. split; [reflexivity|].
  apply (user_key_preferred sample_fernet utf8_decode system_settings no_env
           sample_db_with_keys 7 "openai" sample_key "sk-user" "sk-user"
           Hunique Hin);
    try reflexivity; discriminate.
Defined.

Lemma decryption_failure_falls_back_witness :
  UserAPIKey_objects_get sample_db_with_key 7 "openai" = Ok sample_key
  /\ get_api_key_for_service failing_fernet utf8_decode system_settings no_env
       sample_db_with_key 7 "openai" = Ok (Some "sk-system").
Proof.
  split; [reflexivity|].
  destruct (decryption_failure_falls_back failing_fernet utf8_decode
              system_settings no_env sample_db_with_key 7 "openai" sample_key
              (Exn InvalidToken EmptyString) eq_refl eq_refl) as (_ & H & _).
  exact H.
Defined.

(** A completed turn on the system key: both messages are stored and the
    session carries the time of the save. *)
Lemma updated_at_refreshed_with_assistant_message_witness :
  exists resp db',
    add_message sample_repr failing_fernet utf8_decode system_settings no_env
      canned_transport sample_db sample_request sample_clock = (resp, db')
    /\ status resp = 201%Z
    /\ option_map updated_at (get_object db' 7 1) = Some 202%Z.
Proof.
  eexists. eexists. split; [reflexivity|]. split; [reflexivity|].
  destruct (updated_at_refreshed_with_assistant_message sample_repr failing_fernet
              utf8_decode system_settings no_env canned_transport sample_db _
              sample_request sample_clock _ eq_refl) as [H _].
  destruct (H eq_refl) as (session & c & a & Hs & _ & Hg & _).
  injection Hs as <-. reflexivity.
Defined.

(** C5, counterexample.  The failed turn of a user without any key stores
    the user message, and the update timestamp of the conversation is the
    same before and after, not a later one. *)
Lemma failed_turn_keeps_updated_at :
  let db' :=
    snd (add_message sample_repr failing_fernet utf8_decode no_settings no_env
           canned_transport sample_db sample_request sample_clock) in
  messages db' = messages sample_db ++ [mkChatMessage 1 1 user "Hello" 200]
  /\ option_map updated_at (get_object sample_db 7 1) = Some 100%Z
  /\ option_map updated_at (get_object db' 7 1) = Some 100%Z
  /\ ~ (100 < 100)%Z.
Proof.
  cbv zeta. split; [reflexivity|]. split; [reflexivity|]. split; [reflexivity|].
  lia.
Qed.

Lemma google_consecutive_assistants_merge_witness :
  fst (google_format_messages
         [sample_message 1 user "q"; sample_message 2 assistant "a";
          sample_message 3 assistant "b"]) =
  [mkTurn "user" "q"; mkTurn "model" ("a" ++ newline ++ "b")].
Proof.
  destruct (google_consecutive_assistants_merge [] []
              (sample_message 1 user "q") (sample_message 2 assistant "a")
              (sample_message 3 assistant "b") eq_refl eq_refl eq_refl)
    as [H _].
  exact H.
Defined.

(** C6, counterexample.  With a third assistant message behind the pair, the
    model turn of the pair holds three contents: no turn of the body has the
    two contents joined by a newline as its text. *)
Lemma google_third_assistant_joins_the_turn :
  let body :=
    fst (google_format_messages
           [sample_message 1 user "q"; sample_message 2 assistant "a";
            sample_message 3 assistant "b"; sample_message 4 assistant "c"]) in
  body = [mkTurn "user" "q";
          mkTurn "model" ("a" ++ newline ++ "b" ++ newline ++ "c")]
  /\ ~ In (mkTurn "model" ("a" ++ newline ++ "b")) body.
Proof.
  cbv zeta. split; [reflexivity|].
  intros [H|[H|[]]]; discriminate H.
Qed.

Lemma anthropic_first_not_user_flagged_witness :
  snd (anthropic_format_messages [sample_message 1 assistant "Hi"]) =
  [anthropic_warning].
Proof.
  destruct (anthropic_first_not_user_flagged sample_repr canned_transport
              [sample_message 1 assistant "Hi"]) as [H _].
  - intros m [= <-]. discriminate.
  - now rewrite H.
Defined.

Lemma parse_canned_responses_witness :
  first_candidate_safety safety_response [("finishReason", JStr "SAFETY")]
  /\ google_parse_response sample_repr safety_response =
     Raise (Exn ValueError
              "Google API response blocked due to safety concerns. Ratings: <repr>").
Proof.
  assert (H : first_candidate_safety safety_response [("finishReason", JStr "SAFETY")]).
  { exists [("candidates", JArr [JObj [("finishReason", JStr "SAFETY")]])], [].
    repeat split. }
  split; [exact H|].
  destruct (parse_canned_responses sample_repr) as [_ Hg].
  exact (Hg _ _ H).
Defined.

Lemma parse_trims_and_blank_text_is_empty_string_witness :
  openai_text blank_openai_response "  "
  /\ parse_response sample_repr OpenAI blank_openai_response = Ok (Some EmptyString)
  /\ anthropic_text nbsp_anthropic_response ("Hi" ++ nbsp)
  /\ parse_response sample_repr Anthropic nbsp_anthropic_response = Ok (Some "Hi").
Proof.
  assert (H : openai_text blank_openai_response "  ").
  { exists [("choices", JArr [JObj [("message", JObj [("content", JStr "  ")])]])],
      [("message", JObj [("content", JStr "  ")])], [], [("content", JStr "  ")].
    repeat split. }
  assert (H' : anthropic_text nbsp_anthropic_response ("Hi" ++ nbsp)).
  { exists [("type", JStr "message");
            ("content",
             JArr [JObj [("type", JStr "text"); ("text", JStr ("Hi" ++ nbsp))]])],
      [("type", JStr "text"); ("text", JStr ("Hi" ++ nbsp))], [].
    repeat split. }
  destruct (parse_trims_and_blank_text_is_empty_string sample_repr failing_fernet
              utf8_decode no_settings no_env canned_transport)
    as (_ & Ho & Ha & _).
  split; [exact H|]. split; [exact (Ho _ _ H)|]. split; [exact H'|].
  exact (Ha _ _ H').
Defined.

(** C9, counterexample.  The content of this successful Provider A response
    is two blanks, empty after trimming; the parse step returns the empty
    string and not the absent value. *)
Lemma blank_content_parses_to_empty_string :
  strip "  " = EmptyString
  /\ openai_parse_response sample_repr blank_openai_response = Ok (Some EmptyString)
  /\ openai_parse_response sample_repr blank_openai_response <> Ok None.
Proof.
  split; [reflexivity|]. split; [reflexivity|]. discriminate.
Qed.

Lemma google_stray_assistant_skipped_witness :
  fst (google_format_messages
         [sample_message 1 assistant "stray"; sample_message 2 user "q"]) =
  [mkTurn "user" "q"].
Proof.
  destruct (google_stray_assistant_skipped [] [sample_message 2 user "q"]
              (sample_message 1 assistant "stray") eq_refl eq_refl eq_refl)
    as [H _].
  exact (eq_trans H eq_refl).
Defined.

(** ** Concrete runs of the further properties *)

Lemma session_messages_ordered_witness :
  session_messages sample_db_unordered 1 =
    [mkChatMessage 2 1 assistant "early" 50; mkChatMessage 1 1 user "late" 90]
  /\ StronglySorted by_timestamp (session_messages sample_db_unordered 1).
Proof.
  split; [reflexivity|].
  exact (proj1 (session_messages_ordered sample_db_unordered 1)).
Defined.

Lemma turn_frame_witness :
  exists resp db',
    add_message sample_repr failing_fernet utf8_decode no_settings no_env
      canned_transport sample_db_unordered sample_request sample_clock = (resp, db')
    /\ session_messages db' 2 = session_messages sample_db_unordered 2.
Proof.
  eexists. eexists. split; [reflexivity|].
  destruct (turn_frame sample_repr failing_fernet utf8_decode no_settings no_env
              canned_transport sample_db_unordered _ sample_request sample_clock _
              eq_refl) as (_ & _ & H & _).
  apply H. discriminate.
Defined.

Lemma turn_writes_iff_accepted_witness :
  exists session s,
    (request_content number_request = FieldStr s
     \/ request_content number_request = FieldNum s)
    /\ strip s <> EmptyString
    /\ In (new_user_message sample_db session (strip s) sample_clock)
         (messages
            (snd (add_message sample_repr failing_fernet utf8_decode no_settings
                    no_env canned_transport sample_db number_request
                    sample_clock))).
Proof.
  destruct (turn_writes_iff_accepted sample_repr failing_fernet utf8_decode
              no_settings no_env canned_transport sample_db _ number_request
              sample_clock _ eq_refl) as [_ H].
  destruct H as (session & s & Hc & Hne & Hin & _).
  - intros E. apply (f_equal messages) in E. discriminate E.
  - exists session, s. auto.
Defined.

Lemma unusable_content_rejected_witness :
  strip "   " = EmptyString
  /\ snd (add_message sample_repr failing_fernet utf8_decode system_settings no_env
            canned_transport sample_db blank_request sample_clock) = sample_db
  /\ snd (add_message sample_repr failing_fernet utf8_decode system_settings no_env
            canned_transport sample_db nbsp_request sample_clock) = sample_db
  /\ In (mkChatMessage 1 1 user "5" 200)
       (messages
          (snd (add_message sample_repr failing_fernet utf8_decode system_settings
                  no_env canned_transport sample_db number_request sample_clock))).
Proof.
  split; [reflexivity|]. split; [|split].
  - apply (proj1 (unusable_content_rejected sample_repr failing_fernet utf8_decode
                    system_settings no_env canned_transport sample_db
                    blank_request sample_clock)).
    intros t [[= <-]|H]; [reflexivity|discriminate H].
  - apply (proj1 (unusable_content_rejected sample_repr failing_fernet utf8_decode
                    system_settings no_env canned_transport sample_db
                    nbsp_request sample_clock)).
    intros t [[= <-]|H]; [reflexivity|discriminate H].
  - apply (proj2 (unusable_content_rejected sample_repr failing_fernet utf8_decode
                    system_settings no_env canned_transport sample_db
                    number_request sample_clock) "5"%string sample_session eq_refl).
    + discriminate.
    + reflexivity.
    + reflexivity.
Defined.

Lemma empty_payload_guard_witness :
  provider sample_client = OpenAI
  /\ get_completion sample_repr canned_transport sample_client [] =
     Raise (Exn ValueError "Message formatting resulted in empty payload.").
Proof.
  split; [reflexivity|].
  exact (proj1 (empty_payload_guard sample_repr canned_transport)
           sample_client eq_refl).
Defined.

Lemma foreign_session_not_found_witness :
  add_message sample_repr failing_fernet utf8_decode system_settings no_env
    canned_transport sample_db foreign_request sample_clock =
  (Response404, sample_db).
Proof.
  apply (foreign_session_not_found sample_repr failing_fernet utf8_decode
           system_settings no_env canned_transport sample_db foreign_request
           sample_clock).
  intros x [<-|[]] _. discriminate.
Defined.

Lemma no_usable_user_key_falls_back_witness :
  get_api_key_for_service failing_fernet utf8_decode system_settings no_env
    sample_db 7 "openai" = Ok (Some "sk-system").
Proof.
  apply (no_usable_user_key_falls_back failing_fernet utf8_decode system_settings
           no_env sample_db 7 "openai").
  intros entry secret H. discriminate H.
Defined.

Lemma built_client_has_key_witness :
  get_ai_client failing_fernet utf8_decode system_settings no_env sample_db 7
    "openai_gpt-4" = Ok sample_client
  /\ api_key sample_client <> EmptyString.
Proof.
  split; [reflexivity|].
  exact (proj1 (built_client_has_key failing_fernet utf8_decode system_settings
                  no_env sample_db 7 "openai_gpt-4" sample_client eq_refl)).
Defined.

Lemma configuration_errors_answer_503_witness :
  fst (add_message sample_repr failing_fernet utf8_decode no_settings no_env
         canned_transport unknown_db sample_request sample_clock) =
  Response503
    "Failed to get response from AI service: Unsupported AI service: mistral".
Proof.
  destruct (configuration_errors_answer_503 sample_repr failing_fernet
              utf8_decode no_settings no_env canned_transport unknown_db
              sample_request sample_clock unknown_session "Hello"
              eq_refl eq_refl) as [H _].
  rewrite (H eq_refl). reflexivity.
Defined.

Lemma turn_succeeds_on_system_key_witness :
  fst (add_message sample_repr failing_fernet utf8_decode system_settings no_env
         canned_transport sample_db sample_request sample_clock) =
  Response201
    [mkChatMessage 1 1 user "Hello" 200;
     mkChatMessage 2 1 assistant "Hi there" 201].
Proof.
  rewrite (turn_succeeds_on_system_key sample_repr failing_fernet utf8_decode
             system_settings no_env canned_transport sample_db sample_request
             sample_clock sample_session "Hello" "gpt-4" "sk-system" "Hi there"
             canned_openai_response eq_refl eq_refl eq_refl eq_refl eq_refl).
  - reflexivity.
  - discriminate.
  - reflexivity.
  - exists [("choices",
             JArr [JObj [("message", JObj [("content", JStr "Hi there")])]])],
      [("message", JObj [("content", JStr "Hi there")])], [],
      [("content", JStr "Hi there")].
    repeat split.
  - discriminate.
Defined.

Lemma transport_errors_surface_witness :
  add_message sample_repr failing_fernet utf8_decode system_settings no_env
    failing_transport sample_db sample_request sample_clock =
  (Response503 "Failed to get response from AI service: timed out",
   after_user_message sample_db sample_session "Hello" sample_clock).
Proof.
  exact (proj2 (transport_errors_surface sample_repr failing_fernet utf8_decode
                  system_settings no_env failing_transport sample_db
                  sample_request sample_clock sample_session "Hello"
                  sample_client (Exn Timeout "timed out")
                  eq_refl eq_refl eq_refl eq_refl)).
Defined.

Lemma parse_raises_value_or_attribute_error_witness :
  exists e,
    parse_response sample_repr Anthropic (JArr []) = Raise e
    /\ exn_cls e = AttributeError
    /\ isinstance e [ValueError; RequestException] = false.
Proof.
  eexists. split; [reflexivity|].
  destruct (parse_raises_value_or_attribute_error sample_repr Anthropic (JArr [])
              _ eq_refl) as [[H _] | H]; [discriminate H|exact H].
Defined.

Lemma non_object_response_witness :
  openai_parse_response sample_repr (JStr "Bad gateway") =
  Raise (Exn ValueError "Failed to parse response from OpenAI API.").
Proof.
  apply (non_object_response sample_repr (JStr "Bad gateway")).
  discriminate.
Defined.

Lemma provider_error_payloads_witness :
  openai_parse_response sample_repr openai_error_response =
  Raise (Exn ValueError "OpenAI API Error: Invalid API key").
Proof.
  exact (proj1 (provider_error_payloads sample_repr
                  [("error", JObj [("message", JStr "Invalid API key");
                                   ("type", JStr "auth")])]
                  [("message", JStr "Invalid API key"); ("type", JStr "auth")])
           eq_refl).
Defined.

Lemma google_blocked_prompt_witness :
  google_parse_response sample_repr blocked_prompt_response =
  Raise (Exn ValueError
           "Google API Error: Blocked. Blocked due to: SAFETY. Safety Ratings: <repr>").
Proof.
  apply (google_blocked_prompt sample_repr
           [("error", JObj [("message", JStr "Blocked.")]);
            ("promptFeedback", JObj [("blockReason", JStr "SAFETY")])]
           [("message", JStr "Blocked.")] [("blockReason", JStr "SAFETY")]
           "Blocked." "SAFETY"); try reflexivity; discriminate.
Defined.

Lemma anthropic_first_block_witness :
  anthropic_parse_response sample_repr tool_use_response = Ok None.
Proof.
  destruct (anthropic_first_block sample_repr
              [("type", JStr "message");
               ("content", JArr [JObj [("type", JStr "tool_use")]])]
              [("type", JStr "tool_use")] [] (JStr "tool_use") eq_refl)
    as [H _].
  exact (H eq_refl eq_refl eq_refl).
Defined.

Lemma google_parts_joined_witness :
  google_parse_response sample_repr two_part_response =
    Ok (Some ("one" ++ newline ++ "two")%string)
  /\ google_parse_response sample_repr number_part_response =
      Raise (Exn ValueError "Failed to parse response from Google API.").
Proof.
  split.
  - exact (proj1 (google_parts_joined sample_repr
                    [("candidates",
                      JArr [JObj [("content",
                                   JObj [("parts", JArr (map JObj two_parts))]);
                                  ("finishReason", JStr "STOP")]])]
                    [("content", JObj [("parts", JArr (map JObj two_parts))]);
                     ("finishReason", JStr "STOP")]
                    [("parts", JArr (map JObj two_parts))]
                    [] two_parts eq_refl eq_refl eq_refl eq_refl)
             ["one"; "two"]%string eq_refl).
  - apply (proj2 (proj2 (google_parts_joined sample_repr
                    [("candidates",
                      JArr [JObj [("content",
                                   JObj [("parts",
                                          JArr [JObj [("text", JStr "one")];
                                                JObj [("text", JNum 2)]])]);
                                  ("finishReason", JStr "STOP")]])]
                    [("content",
                      JObj [("parts", JArr [JObj [("text", JStr "one")];
                                            JObj [("text", JNum 2)]])]);
                     ("finishReason", JStr "STOP")]
                    [("parts", JArr [JObj [("text", JStr "one")];
                                     JObj [("text", JNum 2)]])]
                    [] [[("text", JStr "one")]; [("text", JNum 2)]]
                    eq_refl eq_refl eq_refl eq_refl))).
    intros [|a [|b [|c r]]]; discriminate.
Defined.

Lemma anthropic_body_witness :
  anthropic_format_messages
    [sample_message 1 system "Be brief."; sample_message 2 user "Hello"] =
  (mkAnthropicBody [mkEntry "user" "Hello"] (Some "Be brief."), []).
Proof.
  destruct (anthropic_body
              [sample_message 1 system "Be brief."; sample_message 2 user "Hello"])
    as (Hb & _ & Hw).
  specialize (Hw (sample_message 2 user "Hello") eq_refl eq_refl).
  rewrite (surjective_pairing (anthropic_format_messages _)), Hb, Hw.
  reflexivity.
Defined.

Lemma google_body_shape_witness :
  fst (google_format_messages
         [sample_message 1 user "q"; sample_message 2 assistant "a";
          sample_message 3 user "r"]) =
    [mkTurn "user" "q"; mkTurn "model" "a"; mkTurn "user" "r"]
  /\ turn_role (mkTurn "user" "q") = "user".
Proof.
  split; [reflexivity|].
  exact (proj2 (proj2 (google_body_shape
                         [sample_message 1 user "q"; sample_message 2 assistant "a";
                          sample_message 3 user "r"]))
           [] (mkTurn "user" "q") (mkTurn "model" "a") [mkTurn "user" "r"]
           eq_refl eq_refl).
Defined.

Lemma google_ignores_system_messages_witness :
  fst (google_format_messages
         [sample_message 1 system "Be brief."; sample_message 2 user "q"]) =
  [mkTurn "user" "q"].
Proof.
  rewrite (proj1 (google_ignores_system_messages
                    [sample_message 1 system "Be brief."; sample_message 2 user "q"])).
  reflexivity.
Defined.

Lemma set_then_get_api_key_witness :
  exists stored,
    set_api_key sample_encrypt utf8_encode new_key_instance "sk-user" = Ok stored
    /\ get_api_key sample_decrypt utf8_decode (as_row stored) = Ok (Some "sk-user").
Proof.
  destruct (set_then_get_api_key sample_decrypt utf8_decode sample_encrypt
              utf8_encode new_key_instance "sk-user")
    as [_ H]; try (intros; reflexivity); try (intros; discriminate).
  destruct H as (stored & Hs & Hg & _); [discriminate|].
  exists stored. auto.
Defined.

Lemma save_encrypts_the_raw_key_witness :
  (exists written,
     UserAPIKey_save sample_encrypt utf8_encode new_key_instance = Ok written
     /\ raw_api_key_to_encrypt written = None
     /\ inst_encrypted_api_key written = "gsk-user")
  /\ (exists msg,
       UserAPIKey_save sample_encrypt utf8_encode
         (mkKeyInstance (Some 0%Z) 7 "openai" "gsk-user" None) =
       Raise (Exn OtherException msg))
  /\ UserAPIKey_save sample_encrypt utf8_encode
       (mkKeyInstance (Some 3%Z) 7 "openai" "gsk-user" None) =
     Ok (mkKeyInstance (Some 3%Z) 7 "openai" "gsk-user" None).
Proof.
  split; [|split].
  - destruct (save_encrypts_the_raw_key sample_decrypt utf8_decode no_settings
                no_env sample_encrypt utf8_encode new_key_instance "sk-user"
                sample_db) as (_ & _ & _ & H).
    destruct H as (written & Hs & Hr & He & _); [reflexivity|discriminate|].
    exists written. auto.
  - apply (proj1 (save_encrypts_the_raw_key sample_decrypt utf8_decode
                    no_settings no_env sample_encrypt utf8_encode
                    (mkKeyInstance (Some 0%Z) 7 "openai" "gsk-user" None)
                    EmptyString sample_db));
      [right; reflexivity|reflexivity].
  - destruct (save_encrypts_the_raw_key sample_decrypt utf8_decode no_settings
                no_env sample_encrypt utf8_encode
                (mkKeyInstance (Some 3%Z) 7 "openai" "gsk-user" None)
                EmptyString sample_db) as (_ & _ & H & _).
    apply (H 3%Z); [reflexivity|discriminate|reflexivity].
Defined.

Lemma content_preview_bounded_witness :
  content_preview (sample_message 1 user "short") = "short".
Proof.
  apply (content_preview_bounded (sample_message 1 user "short")).
  simpl. lia.
Defined.

Lemma create_session_result_witness :
  create_session sample_db 7 new_session_data 2 300 301 =
    (SessionResponse201 created_session [], created_db)
  /\ title created_session = default_title "google_gemini-pro".
Proof.
  split; [reflexivity|].
  destruct (create_session_result sample_db created_db 7 new_session_data 2 300
              301 (SessionResponse201 created_session []) eq_refl) as [_ H].
  destruct (H created_session [] eq_refl)
    as (_ & _ & _ & _ & _ & _ & _ & _ & _ & _ & _ & _ & Ht).
  apply Ht. right. exists "  ". split; reflexivity.
Defined.

Lemma created_session_is_owned_witness :
  create_session sample_db 7 new_session_data 2 300 301 =
    (SessionResponse201 created_session [], created_db)
  /\ get_object created_db 7 2 = Some created_session
  /\ get_object created_db 8 2 = None.
Proof.
  split; [reflexivity|].
  destruct (created_session_is_owned sample_db created_db 7 new_session_data 2
              300 301 created_session []) as (H1 & H2 & _).
  - intros x [<-|[]]. discriminate.
  - reflexivity.
  - split; [exact H1|]. apply H2. discriminate.
Defined.

Lemma destroy_cascades_witness :
  get_object sample_db_unordered 7 1 = Some sample_session
  /\ messages (snd (destroy sample_db_unordered 7 1)) =
     [mkChatMessage 3 2 user "elsewhere" 10]
  /\ retrieve (snd (destroy sample_db_unordered 7 1)) 7 1 = SessionResponse404.
Proof.
  split; [reflexivity|]. split; [reflexivity|].
  destruct (destroy_cascades sample_repr failing_fernet utf8_decode no_settings
              no_env canned_transport sample_db_unordered 7 1 sample_session
              sample_request sample_clock eq_refl)
    as (_ & _ & _ & _ & _ & H & _).
  apply H.
Defined.
